(** * carefree-learn tutorials: the Titanic and Iris notebooks and the Dockerfile

    The repository holds two tutorial notebooks that drive the external
    [cflearn] framework, and a container build file.  This development
    embeds

    - the text processing of the submission cell of the Titanic notebook
      (Python's [str.strip], [str.split], file iteration, [zip]),
    - both notebooks and the [run_sklearn.py] script as programs that talk
      to an unknown outside world (framework, numpy, file objects), and
    - the Dockerfile as a sequence of build steps acting on an image,

    and proves the properties the specification states about them. *)

From Stdlib Require Import String Ascii ZArith NArith Bool Lia List Sorted.
From Stdlib Require DecimalString Decimal.
Import ListNotations.

Set Implicit Arguments.

(* ================================================================== *)
(** * Python text *)
(* ================================================================== *)

Module PyStr.

(** A Python [str] is a sequence of Unicode code points. *)
Definition char := N.
Definition text := list char.

Definition str (s : string) : text :=
  map N_of_ascii (list_ascii_of_string s).

Definition LF : char := 10%N.
Definition CR : char := 13%N.
Definition COMMA : char := 44%N.

(** [str.isspace] of one character: the code points CPython's
    [_PyUnicode_IsWhitespace] accepts; these are the characters
    [str.strip()] removes. *)
Definition isspace (c : char) : bool :=
  ((9 <=? c) && (c <=? 13) || (28 <=? c) && (c <=? 32)
   || (c =? 133) || (c =? 160) || (c =? 5760)
   || (8192 <=? c) && (c <=? 8202)
   || (c =? 8232) || (c =? 8233) || (c =? 8239) || (c =? 8287)
   || (c =? 12288))%N.

Fixpoint lstrip (s : text) : text :=
  match s with
  | [] => []
  | c :: r => if isspace c then lstrip r else s
  end.

Definition rstrip (s : text) : text := List.rev (lstrip (List.rev s)).

(** [s.strip()] *)
Definition strip (s : text) : text := rstrip (lstrip s).

(** [s.split(sep)] for a one-character separator: never the empty list. *)
Fixpoint split (sep : char) (s : text) : list text :=
  match s with
  | [] => [[]]
  | c :: r =>
      if (c =? sep)%N then [] :: split sep r
      else match split sep r with
           | f :: fs => (c :: f) :: fs
           | [] => [[c]]
           end
  end.

(** [str(z)] and [format(z, "")] of a Python [int]. *)
Definition str_int (z : Z) : text :=
  str (DecimalString.NilZero.string_of_int (Z.to_int z)).

(** ** Text files *)

(** What [open(path, "r")] hands to the reader: with the default
    [newline=None] every ["\r\n"] and every lone ["\r"] of the decoded
    file arrives as ["\n"]. *)
Fixpoint universal_newlines (s : text) : text :=
  match s with
  | [] => []
  | c :: r =>
      if (c =? CR)%N then
        LF :: match r with
              | d :: r' =>
                  if (d =? LF)%N then universal_newlines r'
                  else universal_newlines r
              | [] => []
              end
      else c :: universal_newlines r
  end.

(** [f.readline()] on the unread part of a file: the line with its
    terminator (the empty text at end of file), and what is left. *)
Fixpoint readline (s : text) : text * text :=
  match s with
  | [] => ([], [])
  | c :: r =>
      if (c =? LF)%N then ([c], r)
      else let (l, r') := readline r in (c :: l, r')
  end.

(** [for line in f]: every remaining line, each with its terminator
    except possibly the last. *)
Fixpoint readlines (s : text) : list text :=
  match s with
  | [] => []
  | c :: r =>
      if (c =? LF)%N then [c] :: readlines r
      else match readlines r with
           | l :: ls => (c :: l) :: ls
           | [] => [[c]]
           end
  end.

(** The lines of a text file as a Python reader sees them. *)
Definition file_lines (raw : text) : list text :=
  readlines (universal_newlines raw).

(** A line as the reader yields it: newline-free text, terminated or not. *)
Definition is_line (l : text) : Prop :=
  exists a, ~ In LF a /\ (l = a \/ l = a ++ [LF]).

(** The characters of a decimal numeral: the minus sign and the digits. *)
Definition numeral_char (c : char) : Prop :=
  c = 45%N \/ (48 <= c <= 57)%N.

End PyStr.

(* ================================================================== *)
(** * The submission cell of the Titanic notebook *)
(* ================================================================== *)

Module Submission.
Import PyStr.

(** ["PassengerId,Survived\n"] *)
Definition header : text := str "PassengerId,Survived" ++ [LF].

(** [line.strip().split(",")[0]]; [split] never returns the empty list,
    so the subscript cannot fail. *)
Definition test_id_of (line : text) : text :=
  nth 0 (split COMMA (strip line)) [].

(** [f"{test_id},{c.item()}\n"] *)
Definition row (test_id : text) (c : Z) : text :=
  test_id ++ [COMMA] ++ str_int c ++ [LF].

(** [classes.ravel()]: the class array, of shape (n, 1) in the notebook,
    flattened in row-major order. *)
Definition ravel (classes : list (list Z)) : list Z := concat classes.

(** [f.write(s)] on a file opened with ["w"]. *)
Definition write (f : text) (s : text) : text := f ++ s.

(** <<
    with open("test.csv", "r") as f:
        f.readline()
        id_list = [line.strip().split(",")[0] for line in f]
    >> *)
Definition id_list (test_csv : text) : list text :=
  let f := universal_newlines test_csv in
  let '(_, f) := readline f in
  map test_id_of (readlines f).

(** <<
    with open("submission.csv", "w") as f:
        f.write("PassengerId,Survived\n")
        for test_id, c in zip(id_list, classes.ravel()):
            f.write(f"{test_id},{c.item()}\n")
    >>
    The result is the text of [submission.csv]. *)
Definition write_submission (ids : list text) (classes : list (list Z)) : text :=
  let f := [] in
  let f := write f header in
  fold_left (fun f '(test_id, c) => write f (row test_id c))
            (combine ids (ravel classes)) f.

Definition submission (test_csv : text) (classes : list (list Z)) : text :=
  write_submission (id_list test_csv) classes.

(** The rows the loop writes: one per pair of the zip. *)
Definition rows_of (ids : list text) (classes : list (list Z)) : list text :=
  map (fun '(test_id, c) => row test_id c) (combine ids (ravel classes)).

(** The spec's words for the id: the text before the first comma. *)
Fixpoint truncate_at (sep : char) (s : text) : text :=
  match s with
  | [] => []
  | c :: r => if (c =? sep)%N then [] else c :: truncate_at sep r
  end.

(** A test file of a header and two passengers, and two predictions. *)
Definition sample_test_csv : text :=
  str "PassengerId,Pclass,Name" ++ [LF] ++
  str "892,3,Kelly" ++ [LF] ++
  str " 893,3,Wilkes" ++ [LF].

Definition sample_classes : list (list Z) := [[0%Z]; [1%Z]].

End Submission.


(* ================================================================== *)
(** * Notebook code as programs that question the outside world *)
(* ================================================================== *)

(** Everything a notebook does beyond pure value construction is a request
    to code that lives outside the repository: the [cflearn] framework,
    numpy, pickle, [os.path], file objects, [print].  A program is the tree
    of requests it can make; the answers come from a world about which
    nothing is assumed. *)

Module Py.
Import PyStr.

(** Python values as the notebooks see them. *)
#[local] Set Warnings "-register-all".
Inductive value : Type :=
| VNone
| VBool (b : bool)
| VInt (z : Z)
| VFloat (literal : string)          (* a float literal, kept as written *)
| VStr (s : text)
| VList (items : list value)
| VTuple (items : list value)
| VDict (entries : list (string * value))  (* dict(k=v, ...) *)
| VSlice (stop : Z)                   (* the slice [:stop] *)
| VName (qualified : string)          (* a class or constant of an imported module *)
| VObj (handle : N).                  (* an object owned by the outside world *)

(** A string literal of the source. *)
Definition Str (s : string) : value := VStr (str s).

Definition kwargs := list (string * value).

(** The requests a notebook makes. *)
Inductive request : Type :=
| Call (callee : string) (args : list value) (kw : kwargs)   (* callee(args, kw) *)
| Invoke (self : value) (method : string) (args : list value) (kw : kwargs)
                                                            (* self.method(args, kw) *)
| GetAttr (self : value) (name : string)                    (* self.name *)
| GetItem (self : value) (key : value)                      (* self[key] *)
| SetItem (self : value) (key : value) (v : value)          (* self[key] = v *)
| Elements (self : value)                                   (* iterating self to its end *)
| Format (self : value).                                    (* format(self, "") *)

Inductive result : Type :=
| Returned (v : value)
| Raised (exception : string).

Definition event : Type := request * result.

(** Where an exception comes from. *)
Inductive exn : Type :=
| External (name : string)    (* raised inside a request *)
| Interp (name : string)      (* raised by the interpreter on an authored expression *)
| Authored (name : string).   (* an authored [raise], or a failed authored [assert] *)

Inductive prog (A : Type) : Type :=
| Ret (a : A)
| Raise (e : exn)
| Ask (q : request) (k : result -> prog A).

Arguments Ret {A} a.
Arguments Raise {A} e.
Arguments Ask {A} q k.

Fixpoint bind {A B} (p : prog A) (f : A -> prog B) : prog B :=
  match p with
  | Ret a => f a
  | Raise e => Raise e
  | Ask q k => Ask q (fun r => bind (k r) f)
  end.

Declare Scope prog_scope.
Delimit Scope prog_scope with prog.
Bind Scope prog_scope with prog.
Notation "x <- p ;; k" := (bind p (fun x => k))
  (at level 61, p at next level, right associativity) : prog_scope.
Notation "' pat <- p ;; k" := (bind p (fun x => match x with pat => k end))
  (at level 61, pat pattern, p at next level, right associativity) : prog_scope.
Notation "p ;; k" := (bind p (fun _ => k))
  (at level 61, right associativity) : prog_scope.
Local Open Scope prog_scope.

(** A request whose exception, if any, propagates. *)
Definition ask (q : request) : prog value :=
  Ask q (fun r => match r with
                  | Returned v => Ret v
                  | Raised name => Raise (External name)
                  end).

(** [try: p finally: cleanup], the core of a [with] block: the cleanup
    runs on every exit of [p]; an exception of [p] continues after it,
    unless the cleanup raises one of its own. *)
Fixpoint finally {A} (p : prog A) (cleanup : prog value) : prog A :=
  match p with
  | Ret a => cleanup ;; Ret a
  | Raise e => cleanup ;; Raise e
  | Ask q k => Ask q (fun r => finally (k r) cleanup)
  end.

(** [for x in l: body x] *)
Fixpoint for_each {X} (l : list X) (body : X -> prog unit) : prog unit :=
  match l with
  | [] => Ret tt
  | x :: r => body x ;; for_each r body
  end.

(** [[f x for x in l]] *)
Fixpoint comprehension {X Y} (f : X -> prog Y) (l : list X) : prog (list Y) :=
  match l with
  | [] => Ret []
  | x :: r => y <- f x ;; ys <- comprehension f r ;; Ret (y :: ys)
  end.

(** ** Running a program in a world *)

Inductive outcome (A : Type) : Type :=
| Done (a : A)
| Failed (e : exn).

Arguments Done {A} a.
Arguments Failed {A} e.

(** A world answers requests and changes as it does. *)
Record world : Type := World {
  state : Type;
  answer : state -> request -> result * state
}.

Fixpoint run {A} (W : world) (w : state W) (p : prog A)
  : list event * outcome A * state W :=
  match p with
  | Ret a => ([], Done a, w)
  | Raise e => ([], Failed e, w)
  | Ask q k =>
      let (r, w') := answer W w q in
      let '(t, o, w'') := run W w' (k r) in
      ((q, r) :: t, o, w'')
  end.

Definition trace {A} (W : world) (w : state W) (p : prog A) : list event :=
  fst (fst (run W w p)).

Definition result_of {A} (W : world) (w : state W) (p : prog A) : outcome A :=
  snd (fst (run W w p)).

Definition final {A} (W : world) (w : state W) (p : prog A) : state W :=
  snd (run W w p).

(** The run of [p] from [w] ends with outcome [o] in state [w']. *)
Definition ends {A} (W : world) (w : state W) (p : prog A) (o : outcome A)
    (w' : state W) : Prop :=
  result_of W w p = o /\ final W w p = w'.

(** ** Python operations used by the notebooks *)

Definition call (callee : string) (args : list value) (kw : kwargs) : prog value :=
  ask (Call callee args kw).

Definition invoke (self : value) (method : string) (args : list value) (kw : kwargs)
  : prog value :=
  ask (Invoke self method args kw).

Definition getattr (self : value) (name : string) : prog value :=
  ask (GetAttr self name).

(** [dict(k=v, ...)] *)
Definition dict (entries : list (string * value)) : value := VDict entries.

(** The position a list index denotes, counting from the end when negative. *)
Definition list_index {X} (l : list X) (z : Z) : option X :=
  if (0 <=? z)%Z then nth_error l (Z.to_nat z)
  else if (Z.of_nat (length l) + z <? 0)%Z then None
  else nth_error l (Z.to_nat (Z.of_nat (length l) + z)).

(** [v[key]]: indexing a list or a tuple is done by the interpreter;
    every other subscript is answered by the object. *)
Definition subscript (v key : value) : prog value :=
  match key, v with
  | VInt z, VList l | VInt z, VTuple l =>
      match list_index l z with
      | Some x => Ret x
      | None => Raise (Interp "IndexError")
      end
  | _, _ => ask (GetItem v key)
  end.

(** The elements a [for] loop draws from [v].  A list or tuple is walked
    by the interpreter; any other object is asked for all its elements at
    once (the iteration protocol taken as one request). *)
Definition elements (v : value) : prog (list value) :=
  match v with
  | VList l | VTuple l => Ret l
  | _ => r <- ask (Elements v) ;;
         match r with
         | VList l | VTuple l => Ret l
         | _ => Raise (Interp "TypeError")
         end
  end.

(** [v.strip()] *)
Definition strip_ (v : value) : prog value :=
  match v with
  | VStr s => Ret (VStr (strip s))
  | _ => invoke v "strip" [] []
  end.

(** [v.split(",")] *)
Definition split_comma (v : value) : prog value :=
  match v with
  | VStr s => Ret (VList (map VStr (split COMMA s)))
  | _ => invoke v "split" [Str ","] []
  end.

(** [format(v, "")], what an f-string does with [{v}]. *)
Definition format_ (v : value) : prog text :=
  match v with
  | VStr s => Ret s
  | VInt z => Ret (str_int z)
  | VBool true => Ret (str "True")
  | VBool false => Ret (str "False")
  | VNone => Ret (str "None")
  | _ => r <- ask (Format v) ;;
         match r with
         | VStr s => Ret s
         | _ => Raise (Interp "TypeError")
         end
  end.

Definition text_eqb (a b : text) : bool :=
  if list_eq_dec N.eq_dec a b then true else false.

(** [v == "literal"]; a value that is not a [str] is taken as different. *)
Definition equals_str (v : value) (literal : string) : bool :=
  match v with
  | VStr s => text_eqb s (str literal)
  | _ => false
  end.

(** [v in [literal, ...]] *)
Definition in_strs (v : value) (literals : list string) : bool :=
  existsb (equals_str v) literals.

(** [bool(v)]; an object of the outside world counts as true. *)
Definition truthy (v : value) : bool :=
  match v with
  | VNone => false
  | VBool b => b
  | VInt z => negb (z =? 0)%Z
  | VStr [] | VList [] | VTuple [] | VDict [] => false
  | _ => true
  end.

(** [assert b] *)
Definition assert_ (b : bool) : prog unit :=
  if b then Ret tt else Raise (Authored "AssertionError").

(** [with open(path, mode) as f: body f].  [open] is the builtin; the
    file it returns closes itself when the block is left and does not
    swallow exceptions. *)
Definition with_open {A} (path mode : value) (body : value -> prog A) : prog A :=
  f <- call "open" [path; mode] [] ;;
  finally (body f) (invoke f "close" [] []).

End Py.

(* ================================================================== *)
(** * The Titanic notebook *)
(* ================================================================== *)

(** One definition per code cell; the variables a cell reads are its
    parameters and the variables it binds are its result.  The imports of
    the first cells bind names only and are not modelled. *)

Module Titanic.
Import PyStr Py.
Local Open Scope string_scope.
Local Open Scope list_scope.
Local Open Scope prog_scope.

(** [seed_everything(123)] *)
Definition cell1 : prog value :=
  call "seed_everything" [VInt 123] [].

(** [processor_config = cflearn.MLBundledProcessorConfig(label_names=["Survived"])] *)
Definition cell2 : prog value :=
  call "cflearn.MLBundledProcessorConfig" []
       [("label_names", VList [Str "Survived"])].

(** [data = cflearn.MLData.init(processor_config=processor_config).fit("train.csv")] *)
Definition cell3 (processor_config : value) : prog value :=
  d <- call "cflearn.MLData.init" [] [("processor_config", processor_config)] ;;
  invoke d "fit" [Str "train.csv"] [].

(** <<
    config = cflearn.MLConfig(
        model_name="wnd",
        model_config=dict(input_dim=data.num_features, output_dim=1),
        loss_name="bce",
        metric_names=["acc", "auc"],
        lr=0.1,
        optimizer_name="sgd",
        optimizer_config=dict(nesterov=True, momentum=0.9),
        global_encoder_settings=cflearn.MLGlobalEncoderSettings(embedding_dim=8),
    )
    >> *)
Definition build_config (data : value) : prog value :=
  num_features <- getattr data "num_features" ;;
  settings <- call "cflearn.MLGlobalEncoderSettings" [] [("embedding_dim", VInt 8)] ;;
  call "cflearn.MLConfig" []
       [("model_name", Str "wnd");
        ("model_config", dict [("input_dim", num_features); ("output_dim", VInt 1)]);
        ("loss_name", Str "bce");
        ("metric_names", VList [Str "acc"; Str "auc"]);
        ("lr", VFloat "0.1");
        ("optimizer_name", Str "sgd");
        ("optimizer_config", dict [("nesterov", VBool true); ("momentum", VFloat "0.9")]);
        ("global_encoder_settings", settings)].

(** [m = cflearn.api.fit_ml(data, config=config)] *)
Definition fit_model (data config : value) : prog value :=
  call "cflearn.api.fit_ml" [data] [("config", config)].

(** <<
    loader = m.data.build_loader("train.csv")
    m.evaluate(loader)
    >> *)
Definition cell6 (m : value) : prog value :=
  d <- getattr m "data" ;;
  loader <- invoke d "build_loader" [Str "train.csv"] [] ;;
  invoke m "evaluate" [loader] [] ;;
  Ret loader.

(** [predictions = m.predict(loader)[cflearn.PREDICTIONS_KEY]] *)
Definition predict (m loader : value) (kw : kwargs) : prog value :=
  r <- invoke m "predict" [loader] kw ;;
  subscript r (VName "cflearn.PREDICTIONS_KEY").

(** <<
    loader = m.data.build_loader("test.csv")
    predictions = m.predict(loader)[cflearn.PREDICTIONS_KEY]
    >> *)
Definition cell7 (m : value) : prog (value * value) :=
  d <- getattr m "data" ;;
  loader <- invoke d "build_loader" [Str "test.csv"] [] ;;
  predictions <- predict m loader [] ;;
  Ret (loader, predictions).

(** <<
    probabilities = m.predict(loader, return_probabilities=True)[cflearn.PREDICTIONS_KEY]
    classes = m.predict(loader, return_classes=True)[cflearn.PREDICTIONS_KEY]
    print(probabilities[:3])
    print(classes[:3])
    >> *)
Definition cell8 (m loader : value) : prog (value * value) :=
  probabilities <- predict m loader [("return_probabilities", VBool true)] ;;
  classes <- predict m loader [("return_classes", VBool true)] ;;
  p3 <- subscript probabilities (VSlice 3) ;;
  call "print" [p3] [] ;;
  c3 <- subscript classes (VSlice 3) ;;
  call "print" [c3] [] ;;
  Ret (probabilities, classes).

(** [line.strip().split(",")[0]] *)
Definition test_id_of (line : value) : prog value :=
  stripped <- strip_ line ;;
  parts <- split_comma stripped ;;
  subscript parts (VInt 0).

(** <<
    with open("test.csv", "r") as f:
        f.readline()
        id_list = [line.strip().split(",")[0] for line in f]
    >> *)
Definition read_ids : prog (list value) :=
  with_open (Str "test.csv") (Str "r") (fun f =>
    invoke f "readline" [] [] ;;
    lines <- elements f ;;
    comprehension test_id_of lines).

(** [f.write(f"{test_id},{c.item()}\n")] *)
Definition write_row (f test_id c : value) : prog unit :=
  a <- format_ test_id ;;
  v <- invoke c "item" [] [] ;;
  b <- format_ v ;;
  invoke f "write" [VStr (a ++ [COMMA] ++ b ++ [LF])] [] ;;
  Ret tt.

(** <<
    with open("submission.csv", "w") as f:
        f.write("PassengerId,Survived\n")
        for test_id, c in zip(id_list, classes.ravel()):
            f.write(f"{test_id},{c.item()}\n")
    >> *)
Definition write_submission (id_list : list value) (classes : value) : prog unit :=
  with_open (Str "submission.csv") (Str "w") (fun f =>
    invoke f "write" [VStr Submission.header] [] ;;
    flat <- invoke classes "ravel" [] [] ;;
    cs <- elements flat ;;
    for_each (combine id_list cs) (fun '(test_id, c) => write_row f test_id c)).

Definition cell9 (classes : value) : prog unit :=
  id_list <- read_ids ;;
  write_submission id_list classes.

(** The notebook, run from top to bottom. *)
Definition notebook : prog unit :=
  cell1 ;;
  processor_config <- cell2 ;;
  data <- cell3 processor_config ;;
  config <- build_config data ;;
  m <- fit_model data config ;;
  cell6 m ;;
  '(loader, predictions) <- cell7 m ;;
  '(probabilities, classes) <- cell8 m loader ;;
  cell9 classes.

End Titanic.

(* ================================================================== *)
(** * The Iris notebook *)
(* ================================================================== *)

Module Iris.
Import PyStr Py.
Local Open Scope string_scope.
Local Open Scope list_scope.
Local Open Scope prog_scope.

(** [seed_everything(123)] *)
Definition cell1 : prog value :=
  call "seed_everything" [VInt 123] [].

(** <<
    processor_config = cflearn.MLBundledProcessorConfig(has_header=False, num_split=25)
    data = cflearn.MLData.init(processor_config=processor_config).fit("iris.data")
    config = cflearn.MLConfig(
        model_name="fcnn",
        model_config=dict(input_dim=data.num_features, output_dim=data.num_labels),
        loss_name="focal",
        metric_names=["acc", "auc"],
    )
    m = cflearn.api.fit_ml(data, config=config)
    >> *)
Definition cell3 : prog (value * value) :=
  processor_config <- call "cflearn.MLBundledProcessorConfig" []
                           [("has_header", VBool false); ("num_split", VInt 25)] ;;
  d <- call "cflearn.MLData.init" [] [("processor_config", processor_config)] ;;
  data <- invoke d "fit" [Str "iris.data"] [] ;;
  num_features <- getattr data "num_features" ;;
  num_labels <- getattr data "num_labels" ;;
  config <- call "cflearn.MLConfig" []
                 [("model_name", Str "fcnn");
                  ("model_config",
                   dict [("input_dim", num_features); ("output_dim", num_labels)]);
                  ("loss_name", Str "focal");
                  ("metric_names", VList [Str "acc"; Str "auc"])] ;;
  m <- call "cflearn.api.fit_ml" [data] [("config", config)] ;;
  Ret (config, m).

(** [print(label, x.mean(0))] then [print(label', x.std(0))] *)
Definition print_mean_std (x : value) : prog unit :=
  mean <- invoke x "mean" [VInt 0] [] ;;
  call "print" [Str "> mean"; mean] [] ;;
  std <- invoke x "std" [VInt 0] [] ;;
  call "print" [Str "> std "; std] [] ;;
  Ret tt.

(** <<
    data = m.data
    x_train = data.train_dataset.x
    print("> mean", x_train.mean(0))
    print("> std ", x_train.std(0))
    >> *)
Definition cell5 (m : value) : prog unit :=
  data <- getattr m "data" ;;
  train_dataset <- getattr data "train_dataset" ;;
  x_train <- getattr train_dataset "x" ;;
  print_mean_std x_train.

(** <<
    data = m.data
    x_train = data.train_dataset.x
    x_valid = data.valid_dataset.x
    stacked = np.vstack([x_train, x_valid])
    print("> mean", stacked.mean(0))
    print("> std ", stacked.std(0))
    >> *)
Definition cell7 (m : value) : prog value :=
  data <- getattr m "data" ;;
  train_dataset <- getattr data "train_dataset" ;;
  x_train <- getattr train_dataset "x" ;;
  valid_dataset <- getattr data "valid_dataset" ;;
  x_valid <- getattr valid_dataset "x" ;;
  stacked <- call "np.vstack" [VList [x_train; x_valid]] [] ;;
  print_mean_std stacked ;;
  Ret data.

(** <<
    loader = data.build_loader("iris.data")
    predictions = m.predict(loader)
    cflearn.api.evaluate(loader, dict(m=m))
    >> *)
Definition cell9 (data m : value) : prog value :=
  loader <- invoke data "build_loader" [Str "iris.data"] [] ;;
  invoke m "predict" [loader] [] ;;
  call "cflearn.api.evaluate" [loader; dict [("m", m)]] [] ;;
  Ret loader.

(** [results = cflearn.api.repeat_ml(data, m.config, **kw)] *)
Definition repeat_ml (data m : value) (kw : kwargs) : prog value :=
  config <- getattr m "config" ;;
  call "cflearn.api.repeat_ml" [data; config] kw.

(** <<
    pipelines = cflearn.api.load_pipelines(results)
    cflearn.api.evaluate(loader, pipelines)
    >> *)
Definition load_and_evaluate (results loader : value) : prog unit :=
  pipelines <- call "cflearn.api.load_pipelines" [results] [] ;;
  call "cflearn.api.evaluate" [loader; pipelines] [] ;;
  Ret tt.

(** [results = cflearn.api.repeat_ml(data, m.config, num_repeat=3)], then
    the pipelines are loaded and evaluated. *)
Definition cell11 (data m loader : value) : prog unit :=
  results <- repeat_ml data m [("num_repeat", VInt 3)] ;;
  load_and_evaluate results loader.

(** [models = ["linear", "fcnn"]] *)
Definition models : value := VList [Str "linear"; Str "fcnn"].

(** [results = cflearn.api.repeat_ml(data, m.config, models=models, num_repeat=3)],
    then the pipelines are loaded and evaluated. *)
Definition cell13 (data m loader : value) : prog unit :=
  results <- repeat_ml data m [("models", models); ("num_repeat", VInt 3)] ;;
  load_and_evaluate results loader.

(** [results = cflearn.api.repeat_ml(data, m.config, models=models, num_repeat=10, num_jobs=2)] *)
Definition cell15 (data m : value) : prog value :=
  repeat_ml data m
            [("models", models); ("num_repeat", VInt 10); ("num_jobs", VInt 2)].

(** <<
    experiment = cflearn.dist.ml.Experiment()
    data_folder = experiment.dump_data(data)
    experiment.add_task(model="fcnn", config=config, data_folder=data_folder)
    experiment.add_task(model="linear", config=config, data_folder=data_folder)
    run_command = f"python run_sklearn.py"
    common_kwargs = {"run_command": run_command, "data_folder": data_folder}
    experiment.add_task(model="decision_tree", **common_kwargs)
    experiment.add_task(model="random_forest", **common_kwargs)
    >> *)
Definition cell17 (data config : value) : prog value :=
  experiment <- call "cflearn.dist.ml.Experiment" [] [] ;;
  data_folder <- invoke experiment "dump_data" [data] [] ;;
  invoke experiment "add_task" []
         [("model", Str "fcnn"); ("config", config); ("data_folder", data_folder)] ;;
  invoke experiment "add_task" []
         [("model", Str "linear"); ("config", config); ("data_folder", data_folder)] ;;
  let run_command := Str "python run_sklearn.py" in
  let common_kwargs := [("run_command", run_command); ("data_folder", data_folder)] in
  invoke experiment "add_task" [] (("model", Str "decision_tree") :: common_kwargs) ;;
  invoke experiment "add_task" [] (("model", Str "random_forest") :: common_kwargs) ;;
  Ret experiment.

(** [results = experiment.run_tasks()] *)
Definition cell19 (experiment : value) : prog value :=
  invoke experiment "run_tasks" [] [].

(** <<
    model_file = os.path.join(workspace, "sk_model.pkl")
    with open(model_file, "rb") as f:
        predictor = cflearn.SKLearnClassifier(pickle.load(f))
        pipelines[model] = cflearn.GeneralEvaluationPipeline(config, predictor)
    >> *)
Definition load_sklearn (config pipelines workspace model : value) : prog unit :=
  model_file <- call "os.path.join" [workspace; Str "sk_model.pkl"] [] ;;
  with_open model_file (Str "rb") (fun f =>
    loaded <- call "pickle.load" [f] [] ;;
    predictor <- call "cflearn.SKLearnClassifier" [loaded] [] ;;
    pipeline <- call "cflearn.GeneralEvaluationPipeline" [config; predictor] [] ;;
    ask (SetItem pipelines model pipeline) ;;
    Ret tt).

(** <<
    pipelines = cflearn.api.load_pipelines(results)
    for workspace, workspace_key in zip(results.workspaces, results.workspace_keys):
        model = workspace_key[0]
        if model in ["decision_tree", "random_forest"]:
            ...
    >> *)
Definition cell21 (config results : value) : prog value :=
  pipelines <- call "cflearn.api.load_pipelines" [results] [] ;;
  workspaces <- getattr results "workspaces" ;;
  workspace_keys <- getattr results "workspace_keys" ;;
  ws <- elements workspaces ;;
  keys <- elements workspace_keys ;;
  for_each (combine ws keys) (fun '(workspace, workspace_key) =>
    model <- subscript workspace_key (VInt 0) ;;
    if in_strs model ["decision_tree"; "random_forest"]
    then load_sklearn config pipelines workspace model
    else Ret tt) ;;
  Ret pipelines.

(** [cflearn.api.evaluate(loader, pipelines)] *)
Definition cell23 (loader pipelines : value) : prog value :=
  call "cflearn.api.evaluate" [loader; pipelines] [].

(** The notebook, run from top to bottom. *)
Definition notebook : prog unit :=
  cell1 ;;
  '(config, m) <- cell3 ;;
  cell5 m ;;
  data <- cell7 m ;;
  loader <- cell9 data m ;;
  cell11 data m loader ;;
  cell13 data m loader ;;
  cell15 data m ;;
  experiment <- cell17 data config ;;
  results <- cell19 experiment ;;
  pipelines <- cell21 config results ;;
  cell23 loader pipelines ;;
  Ret tt.

End Iris.

(* ================================================================== *)
(** * The [run_sklearn.py] script listed in the Iris notebook *)
(* ================================================================== *)

Module RunSklearn.
Import PyStr Py.
Local Open Scope string_scope.
Local Open Scope list_scope.
Local Open Scope prog_scope.

(** <<
    if model == "decision_tree":
        base = DecisionTreeClassifier
    elif model == "random_forest":
        base = RandomForestClassifier
    else:
        raise NotImplementedError
    >> *)
Definition choose_base (model : value) : prog string :=
  if equals_str model "decision_tree"
  then Ret "sklearn.tree.DecisionTreeClassifier"
  else if equals_str model "random_forest"
  then Ret "sklearn.ensemble.RandomForestClassifier"
  else Raise (Authored "NotImplementedError").

(** [assert isinstance(v, np.ndarray)] *)
Definition assert_ndarray (v : value) : prog unit :=
  b <- call "isinstance" [v; VName "np.ndarray"] [] ;;
  assert_ (truthy b).

(** [assert data is not None] *)
Definition assert_not_none (v : value) : prog unit :=
  assert_ (match v with VNone => false | _ => true end).

(** The body under [if __name__ == "__main__":]. *)
Definition main : prog unit :=
  info <- call "get_info" [] [] ;;
  meta <- getattr info "meta" ;;
  (* data *)
  data <- getattr info "data" ;;
  assert_not_none data ;;
  invoke data "prepare" [VNone] [] ;;
  loaders <- invoke data "initialize" [] [] ;;
  loader <- subscript loaders (VInt 0) ;;
  dataset <- invoke loader "get_full_batch" [] [] ;;
  x <- subscript dataset (VName "INPUT_KEY") ;;
  y <- subscript dataset (VName "LABEL_KEY") ;;
  assert_ndarray x ;;
  assert_ndarray y ;;
  (* model *)
  model <- subscript meta (Str "model") ;;
  base <- choose_base model ;;
  sk_model <- call base [] [] ;;
  (* train & save *)
  labels <- invoke y "ravel" [] [] ;;
  invoke sk_model "fit" [x; labels] [] ;;
  workplace <- getattr info "workplace" ;;
  path <- call "os.path.join" [workplace; Str "sk_model.pkl"] [] ;;
  with_open path (Str "wb") (fun f =>
    call "pickle.dump" [sk_model; f] [] ;;
    Ret tt).

End RunSklearn.

(* ================================================================== *)
(** * A world to run the notebooks in *)
(* ================================================================== *)

(** One concrete outside world: text files with Python's reading and
    writing, integer arrays with [ravel] and [item], and a framework that
    answers every other request with a fresh object.  It is what the
    examples run in; the theorems about all runs assume no world. *)

Module Lab.
Import PyStr Py.
Local Open Scope string_scope.
Local Open Scope list_scope.

Inductive object : Type :=
| Reader (unread : text)          (* a text file open for reading *)
| Writer (path : text)            (* a file open for writing *)
| Matrix (rows : list (list Z))   (* a two-dimensional integer array *)
| Vector (data : list Z)          (* a one-dimensional integer array *)
| Opaque.                         (* anything else *)

Record lab : Type := {
  next : N;                             (* the next free handle *)
  objects : list (N * object);
  files : list (text * text);           (* path and decoded content *)
  predicted : list (list Z);            (* what the model predicts *)
  workspaces : list (string * string)   (* experiment workspaces: folder, model *)
}.

Fixpoint lookup {K X} (eqb : K -> K -> bool) (k : K) (l : list (K * X)) : option X :=
  match l with
  | [] => None
  | (k', x) :: r => if eqb k k' then Some x else lookup eqb k r
  end.

Fixpoint update {K X} (eqb : K -> K -> bool) (k : K) (x : X) (l : list (K * X))
  : list (K * X) :=
  match l with
  | [] => [(k, x)]
  | (k', x') :: r => if eqb k k' then (k, x) :: r else (k', x') :: update eqb k x r
  end.

Definition object_of (w : lab) (v : value) : option object :=
  match v with
  | VObj h => lookup N.eqb h (objects w)
  | _ => None
  end.

Definition set_object (w : lab) (h : N) (o : object) : lab :=
  {| next := next w; objects := update N.eqb h o (objects w); files := files w;
     predicted := predicted w; workspaces := workspaces w |}.

Definition set_file (w : lab) (path content : text) : lab :=
  {| next := next w; objects := objects w;
     files := update text_eqb path content (files w);
     predicted := predicted w; workspaces := workspaces w |}.

(** A new object of the world, and the handle that names it. *)
Definition alloc (w : lab) (o : object) : result * lab :=
  (Returned (VObj (next w)),
   {| next := N.succ (next w); objects := (next w, o) :: objects w;
      files := files w; predicted := predicted w; workspaces := workspaces w |}).

Definition open_file (w : lab) (path mode : text) : result * lab :=
  if text_eqb mode (str "w") || text_eqb mode (str "wb") then
    alloc (set_file w path []) (Writer path)
  else
    match lookup text_eqb path (files w) with
    | None => (Raised "FileNotFoundError", w)
    | Some content =>
        if text_eqb mode (str "r") then alloc w (Reader (universal_newlines content))
        else alloc w Opaque
    end.

Definition invoke_method (w : lab) (self : value) (method : string)
    (args : list value) : result * lab :=
  match self, object_of w self, args with
  | VObj h, Some (Reader unread), [] =>
      if method =? "readline" then
        let (line, rest) := readline unread in
        (Returned (VStr line), set_object w h (Reader rest))
      else if method =? "close" then (Returned VNone, w)
      else alloc w Opaque
  | VObj h, Some (Writer path), [VStr s] =>
      if method =? "write" then
        match lookup text_eqb path (files w) with
        | Some content =>
            (Returned (VInt (Z.of_nat (length s))), set_file w path (content ++ s))
        | None => (Raised "ValueError", w)
        end
      else alloc w Opaque
  | VObj h, Some (Matrix rows), [] =>
      if method =? "ravel" then alloc w (Vector (List.concat rows))
      else alloc w Opaque
  | VObj h, Some _, [] =>
      if method =? "close" then (Returned VNone, w) else alloc w Opaque
  | VInt z, _, [] =>
      if method =? "item" then (Returned (VInt z), w) else alloc w Opaque
  | _, _, _ => alloc w Opaque
  end.

Definition all_elements (w : lab) (self : value) : result * lab :=
  match self, object_of w self with
  | VObj h, Some (Reader unread) =>
      (Returned (VList (map VStr (readlines unread))), set_object w h (Reader []))
  | _, Some (Vector data) => (Returned (VList (map VInt data)), w)
  | _, _ => (Raised "TypeError", w)
  end.

Definition call_function (w : lab) (callee : string) (args : list value)
  : result * lab :=
  match args with
  | [VStr a; VStr b] =>
      if callee =? "open" then open_file w a b
      else if callee =? "os.path.join" then (Returned (VStr (a ++ str "/" ++ b)), w)
      else alloc w Opaque
  | _ =>
      if callee =? "print" then (Returned VNone, w)
      else if callee =? "isinstance" then (Returned (VBool true), w)
      else alloc w Opaque
  end.

Definition get_attribute (w : lab) (name : string) : result * lab :=
  if name =? "workspaces" then
    (Returned (VList (map (fun p => Str (fst p)) (workspaces w))), w)
  else if name =? "workspace_keys" then
    (Returned (VList (map (fun p => VTuple [Str (snd p); Str "0"]) (workspaces w))), w)
  else alloc w Opaque.

Definition get_item (w : lab) (key : value) : result * lab :=
  match key with
  | VName name =>
      if name =? "cflearn.PREDICTIONS_KEY" then alloc w (Matrix (predicted w))
      else alloc w Opaque
  | VStr s =>
      if text_eqb s (str "model") then
        (Returned (match workspaces w with
                   | (_, model) :: _ => Str model
                   | [] => VNone
                   end), w)
      else alloc w Opaque
  | _ => alloc w Opaque
  end.

Definition respond (w : lab) (q : request) : result * lab :=
  match q with
  | Call callee args _ => call_function w callee args
  | Invoke self method args _ => invoke_method w self method args
  | GetAttr _ name => get_attribute w name
  | GetItem _ key => get_item w key
  | SetItem _ _ _ => (Returned VNone, w)
  | Elements self => all_elements w self
  | Format _ => (Raised "TypeError", w)
  end.

Definition the_lab : world := World respond.

(** The lab before anything ran. *)
Definition fresh (fs : list (text * text)) (classes : list (list Z))
    (tasks : list (string * string)) : lab :=
  {| next := 0%N; objects := []; files := fs; predicted := classes;
     workspaces := tasks |}.

Definition file (w : lab) (path : string) : option text :=
  lookup text_eqb (str path) (files w).

(** A lab for the Iris notebook: the data file, and an experiment that
    has left one decision tree behind. *)
Definition iris_lab : lab :=
  fresh [(str "iris.data", str "5.1,3.5,1.4,0.2,Iris-setosa");
         (str "_experiment/decision_tree/0/sk_model.pkl", [])]
        []
        [("_experiment/decision_tree/0", "decision_tree")].

(** A lab for the Titanic notebook: the two data files and two
    predictions. *)
Definition titanic_lab : lab :=
  fresh [(str "train.csv", str "PassengerId,Survived,Pclass");
         (str "test.csv", Submission.sample_test_csv)]
        Submission.sample_classes
        [].

(** The same lab once the model has predicted: the class array is
    object 0. *)
Definition titanic_lab_predicted : lab :=
  snd (alloc titanic_lab (Matrix Submission.sample_classes)).

(** A world that answers from a script, whatever it is asked, and with
    [None] once the script is used up. *)
Definition scripted : world :=
  World (fun (s : list result) (_ : request) =>
           match s with
           | r :: s' => (r, s')
           | [] => (Returned VNone, [])
           end).

End Lab.

(* ================================================================== *)
(** * Checkers of traces *)
(* ================================================================== *)

(** A property of all runs is stated through a checker that reads the
    trace event by event, in the manner of a runtime monitor. *)

Module Check.
Import PyStr Py.
Local Open Scope string_scope.
Local Open Scope list_scope.

Record checker : Type := Checker {
  memory : Type;
  allowed : memory -> event -> Prop;
  advance : memory -> event -> memory
}.

(** Every event of the trace is allowed when it happens. *)
Fixpoint lawful (C : checker) (s : memory C) (t : list event) : Prop :=
  match t with
  | [] => True
  | e :: t' => allowed C s e /\ lawful C (advance C s e) t'
  end.

Definition after (C : checker) (s : memory C) (t : list event) : memory C :=
  fold_left (advance C) t s.

(** [accepts C Q s p]: whatever the answers, every request of [p] is
    allowed, and [Q] holds of the checker's memory and the outcome at the
    end. *)
Fixpoint accepts {A} (C : checker) (Q : memory C -> outcome A -> Prop)
    (s : memory C) (p : prog A) : Prop :=
  match p with
  | Ret a => Q s (Done a)
  | Raise e => Q s (Failed e)
  | Ask q k => forall r, allowed C s (q, r) /\ accepts C Q (advance C s (q, r)) (k r)
  end.

(** A postcondition by cases of the outcome. *)
Definition post {A} {C : checker} (good : memory C -> A -> Prop)
    (bad : memory C -> exn -> Prop) : memory C -> outcome A -> Prop :=
  fun s o => match o with
             | Done a => good s a
             | Failed e => bad s e
             end.

(** A postcondition that asks nothing. *)
Definition anything {C : checker} {A} : memory C -> outcome A -> Prop :=
  fun _ _ => True.

(** Every request the program can make satisfies [R]. *)
Fixpoint asks_only {A} (R : request -> Prop) (p : prog A) : Prop :=
  match p with
  | Ask q k => R q /\ forall r, asks_only R (k r)
  | _ => True
  end.

(** ** Names of requests *)

Definition label (q : request) : string :=
  match q with
  | Call callee _ _ => callee
  | Invoke _ method _ _ => "." ++ method
  | GetAttr _ name => "." ++ name
  | GetItem _ _ => "[]"
  | SetItem _ _ _ => "[]="
  | Elements _ => "iter"
  | Format _ => "format"
  end.

Definition labels (t : list event) : list string := map (fun e => label (fst e)) t.

Definition count (name : string) (t : list event) : nat :=
  length (filter (String.eqb name) (labels t)).

Definition returned (e : event) : Prop := exists v, snd e = Returned v.

(** ** One call, and a fixed script of calls *)

(** The program makes exactly one request in every run. *)
Definition single_call {A} (p : prog A) : Prop :=
  forall (W : world) (w : state W), length (trace W w p) = 1.

(** The program makes the requests of [script], in that order, whatever
    the answers; it stops early only when a request raises. *)
Definition follows {A} (script : list string) (p : prog A) : Prop :=
  forall (W : world) (w : state W),
    exists k, labels (trace W w p) = firstn k script
              /\ (forall a, result_of W w p = Done a -> k = length script)
              /\ (k < length script ->
                  exists name, result_of W w p = Failed (External name)).

(** The memory is the number of [.write] requests less the number of
    [.item] requests. *)
Definition balance_checker : checker :=
  {| memory := Z;
     allowed := fun _ _ => True;
     advance := fun b e =>
       if label (fst e) =? ".write" then (b + 1)%Z
       else if label (fst e) =? ".item" then (b - 1)%Z
       else b |}.

(** The balance at the end of a completed run. *)
Definition balanced (b : Z) {A} : memory balance_checker -> outcome A -> Prop :=
  @post A balance_checker (fun b' _ => b' = b) (fun _ _ => True).

(** A request that is neither a [.write] nor an [.item]. *)
Definition other_request (q : request) : Prop :=
  (label q =? ".write") = false /\ (label q =? ".item") = false.

(** ** The order of the four steps of the Titanic notebook *)

(** 0: the config is built; 1: the model is fitted; 2: a prediction is
    made; 3: a line of the CSV file is written. *)
Definition step_of (q : request) : option nat :=
  match q with
  | Call callee _ _ =>
      if callee =? "cflearn.MLConfig" then Some 0
      else if callee =? "cflearn.api.fit_ml" then Some 1
      else None
  | Invoke _ method _ _ =>
      if method =? "predict" then Some 2
      else if method =? "write" then Some 3
      else None
  | _ => None
  end.

Definition steps (t : list event) : list nat :=
  flat_map (fun e => match step_of (fst e) with
                     | Some k => [k]
                     | None => []
                     end) t.

(** The memory is the number of steps begun; a step either opens the
    next one or, for predictions and writes, repeats the current one. *)
Definition order_checker : checker :=
  {| memory := nat;
     allowed := fun s e => match step_of (fst e) with
                           | Some k => k = s \/ (S k = s /\ 2 <= k)
                           | None => True
                           end;
     advance := fun s e => match step_of (fst e) with
                           | Some k => S k
                           | None => s
                           end |}.

(** ** Files *)

Definition known_inputs : list value :=
  [Str "train.csv"; Str "test.csv"; Str "iris.data"].

(** [open(path, mode)] opens for writing when the mode has one of
    [w], [a], [x], [+]. *)
Definition writing_mode (mode : text) : bool :=
  existsb (fun c => existsb (N.eqb c) (str "wax+")) mode.

Inductive file_use : Type :=
| Reads (path : value)
| Writes (path : value).

(** The file a request names: opened by the notebook itself, or handed as
    a path to the framework ([.fit(path)], [.build_loader(path)]). *)
Definition file_used (q : request) : option file_use :=
  match q with
  | Call callee (path :: rest) _ =>
      if callee =? "open" then
        match rest with
        | VStr mode :: _ => if writing_mode mode then Some (Writes path)
                            else Some (Reads path)
        | _ => Some (Reads path)
        end
      else None
  | Invoke _ method [path] _ =>
      if (method =? "fit") || (method =? "build_loader") then Some (Reads path)
      else None
  | _ => None
  end.

(** The spec's words: the only files read are the three input files. *)
Definition reads_only (inputs : list value) (t : list event) : Prop :=
  forall q r path, In (q, r) t -> file_used q = Some (Reads path) -> In path inputs.

(** The event that yields the path of a pickled model. *)
Definition joins_model_path (e : event) (path : value) : Prop :=
  exists workspace,
    e = (Call "os.path.join" [workspace; Str "sk_model.pkl"] [], Returned path).

(** The memory is the event before.  A file read is an input file, or is
    opened in binary mode at the path the event before has joined; a file
    written is [submission.csv]. *)
Definition file_checker : checker :=
  {| memory := option event;
     allowed := fun prev e =>
       match file_used (fst e) with
       | Some (Writes path) => path = Str "submission.csv"
       | Some (Reads path) =>
           In path known_inputs
           \/ (fst e = Call "open" [path; Str "rb"] []
               /\ exists e', prev = Some e' /\ joins_model_path e' path)
       | None => True
       end;
     advance := fun _ e => Some e |}.

(** What the checker enforces, said of a whole trace: a file written is
    [submission.csv]; a file read is one of the three input files, or is
    opened in binary mode at the path that [os.path.join(workspace,
    "sk_model.pkl")] has returned in the event just before. *)
Definition file_uses_as_designed (t : list event) : Prop :=
  forall before q r later,
    t = before ++ (q, r) :: later ->
    match file_used q with
    | Some (Writes path) => path = Str "submission.csv"
    | Some (Reads path) =>
        In path known_inputs
        \/ (q = Call "open" [path; Str "rb"] []
            /\ exists earlier workspace,
                 before = earlier ++ [(Call "os.path.join"
                                            [workspace; Str "sk_model.pkl"] [],
                                       Returned path)])
    | None => True
    end.

(** A request that the file checker allows whatever came before. *)
Definition plain (q : request) : Prop :=
  match file_used q with
  | None => True
  | Some (Writes path) => path = Str "submission.csv"
  | Some (Reads path) => In path known_inputs
  end.


(** ** Where the objects passed to the world come from *)

Fixpoint handles (v : value) : list N :=
  match v with
  | VObj h => [h]
  | VList l | VTuple l => flat_map handles l
  | VDict entries => flat_map (fun p => handles (snd p)) entries
  | _ => []
  end.

Definition handles_of (vs : list value) : list N := flat_map handles vs.






(** The objects of a value, of values, are known. *)
Definition known_value (k : list N) (v : value) : Prop := incl (handles v) k.

Definition known_values (k : list N) (vs : list value) : Prop :=
  Forall (known_value k) vs.









(** ** Exceptions *)



(** The memory tells whether every request so far has returned. *)
Definition raised_checker : checker :=
  {| memory := Prop;
     allowed := fun _ _ => True;
     advance := fun quiet e => quiet /\ returned e |}.

(** At the end every request has returned, or the run has failed, with
    an exception of an authored [raise] or [assert] only if it is one of
    [expected]. *)
Definition calm (expected : list string) {A}
  : memory raised_checker -> outcome A -> Prop :=
  @post A raised_checker (fun s _ => s)
        (fun _ e => forall name, e = Authored name -> In name expected).


(** The Titanic notebook has written its file. *)
Definition finished : memory order_checker -> outcome unit -> Prop :=
  @post unit order_checker (fun s _ => s = 4) (fun _ _ => True).

(** ** Requests for parallel work *)

(** The keyword arguments of a request. *)
Definition keywords (q : request) : kwargs :=
  match q with
  | Call _ _ kw => kw
  | Invoke _ _ _ kw => kw
  | _ => []
  end.

(** The request carries the keyword [num_jobs], by which the framework
    is told how many processes to launch. *)
Definition asks_for_jobs (q : request) : bool :=
  existsb (fun p => fst p =? "num_jobs") (keywords q).

Definition job_requests (t : list event) : list request :=
  filter asks_for_jobs (map fst t).

Definition no_jobs (q : request) : Prop := asks_for_jobs q = false.

(** The memory is the list of the requests made so far that carry
    [num_jobs]. *)
Definition jobs_checker : checker :=
  {| memory := list request;
     allowed := fun _ _ => True;
     advance := fun s e => if asks_for_jobs (fst e) then s ++ [fst e] else s |}.

(** [cflearn.api.repeat_ml(data, m.config, models=models, num_repeat=10, num_jobs=2)] *)
Definition benchmark (data config : value) : request :=
  Call "cflearn.api.repeat_ml" [data; config]
       [("models", Iris.models); ("num_repeat", VInt 10); ("num_jobs", VInt 2)].

(** The benchmark has been asked for, once; a run that fails may have
    stopped before it. *)
Definition benchmarked : memory jobs_checker -> outcome unit -> Prop :=
  @post unit jobs_checker
        (fun s _ => exists data config, s = [benchmark data config])
        (fun s _ => s = [] \/ exists data config, s = [benchmark data config]).

End Check.

(* ================================================================== *)
(** * The Dockerfile *)
(* ================================================================== *)

(** The build file is a list of instructions; building runs them in order
    on a description of the image. *)

Module Docker.
Local Open Scope string_scope.
Local Open Scope list_scope.

Inductive instruction : Type :=
| FROM (image : string)
| WORKDIR (dir : string)
| COPY (src dst : string)
| RUN (command : list string).   (* the words of the shell command *)

(** <<
    FROM nvcr.io/nvidia/pytorch:21.07-py3
    WORKDIR /usr/home
    COPY . .
    RUN apt-get update
    RUN apt-get install htop
    RUN apt-get -y install git
    RUN apt-get -y install ssh
    RUN apt-get -y install tmux
    RUN pip install -U pip
    RUN pip install .
    RUN pip install gpustat
    >> *)
Definition dockerfile : list instruction :=
  [ FROM "nvcr.io/nvidia/pytorch:21.07-py3";
    WORKDIR "/usr/home";
    COPY "." ".";
    RUN ["apt-get"; "update"];
    RUN ["apt-get"; "install"; "htop"];
    RUN ["apt-get"; "-y"; "install"; "git"];
    RUN ["apt-get"; "-y"; "install"; "ssh"];
    RUN ["apt-get"; "-y"; "install"; "tmux"];
    RUN ["pip"; "install"; "-U"; "pip"];
    RUN ["pip"; "install"; "."];
    RUN ["pip"; "install"; "gpustat"] ].

Inductive package : Type :=
| Apt (name : string)          (* a system package *)
| Pip (name : string)          (* a Python package from the index *)
| PipLocal (dir : string).     (* the Python project in a directory of the image *)

Record image : Type := {
  base : option string;
  workdir : string;
  copied : list (string * string);   (* path in the build context, path in the image *)
  apt_index : bool;                  (* has [apt-get update] run? *)
  installed : list package
}.

Definition scratch : image :=
  {| base := None; workdir := "/"; copied := []; apt_index := false;
     installed := [] |}.

(** A path of an instruction, seen from the working directory. *)
Definition resolve (wd path : string) : string :=
  if path =? "." then wd
  else if String.prefix "/" path then path
  else if wd =? "/" then "/" ++ path
  else wd ++ "/" ++ path.

Definition is_option (word : string) : bool := String.prefix "-" word.

Definition operands (words : list string) : list string :=
  filter (fun w => negb (is_option w)) words.

(** What a command installs. *)
Definition installs (wd : string) (command : list string) : list package :=
  match command with
  | tool :: rest =>
      match operands rest with
      | verb :: names =>
          if (tool =? "apt-get") && (verb =? "install") then map Apt names
          else if (tool =? "pip") && (verb =? "install") then
            map (fun n => if n =? "." then PipLocal wd else Pip n) names
          else []
      | [] => []
      end
  | [] => []
  end.

(** Does a command refresh the package index? *)
Definition refreshes_index (command : list string) : bool :=
  match command with
  | tool :: rest =>
      match operands rest with
      | verb :: _ => (tool =? "apt-get") && (verb =? "update")
      | [] => false
      end
  | [] => false
  end.

Definition step (img : image) (i : instruction) : image :=
  match i with
  | FROM b =>
      {| base := Some b; workdir := "/"; copied := []; apt_index := false;
         installed := [] |}
  | WORKDIR d =>
      {| base := base img; workdir := resolve (workdir img) d;
         copied := copied img; apt_index := apt_index img;
         installed := installed img |}
  | COPY src dst =>
      {| base := base img; workdir := workdir img;
         copied := copied img ++ [(src, resolve (workdir img) dst)];
         apt_index := apt_index img; installed := installed img |}
  | RUN command =>
      {| base := base img; workdir := workdir img; copied := copied img;
         apt_index := apt_index img || refreshes_index command;
         installed := installed img ++ installs (workdir img) command |}
  end.

Definition build (file : list instruction) : image := fold_left step file scratch.

(** Kinds of steps. *)
Definition is_copy (i : instruction) : bool :=
  match i with COPY _ _ => true | _ => false end.

Definition is_workdir (i : instruction) : bool :=
  match i with WORKDIR _ => true | _ => false end.

Definition is_install (i : instruction) : bool :=
  match i with
  | RUN command => match installs "/" command with [] => false | _ => true end
  | _ => false
  end.

Definition is_refresh (i : instruction) : bool :=
  match i with RUN command => refreshes_index command | _ => false end.

(** The spec's words: beyond copying the repository, only package
    installs. *)
Definition only_copies_and_installs (steps : list instruction) : Prop :=
  Forall (fun i => is_copy i = true \/ is_install i = true) steps.

End Docker.

(* ================================================================== *)
(** * Test files in other shapes *)
(* ================================================================== *)

Module Inputs.
Import PyStr.

(** The same text with Windows line ends: every ["\n"] as ["\r\n"]. *)
Definition crlf (s : text) : text :=
  flat_map (fun c => if (c =? LF)%N then [CR; LF] else [c]) s.

(** The same text with the line ends of old Mac files: every ["\n"] as
    ["\r"]. *)
Definition cr (s : text) : text :=
  map (fun c => if (c =? LF)%N then CR else c) s.

(** A line of white space only. *)
Definition blank (line : text) : bool := forallb isspace line.

(** A test file whose second passenger line is blank. *)
Definition test_csv_with_blank_line : text :=
  str "PassengerId,Pclass" ++ [LF] ++
  str "892,3" ++ [LF] ++
  str "  " ++ [LF].

End Inputs.

(* ================================================================== *)
(** * Open files, and where values come from *)
(* ================================================================== *)

Module Flow.
Import PyStr Py Check.
Local Open Scope string_scope.
Local Open Scope list_scope.

(** ** Files that are open *)

(** The memory is the file that is open, if there is one.  [open] is
    allowed only while no file is open, and [close] only on the file that
    is open; an [open] that raises opens nothing. *)
Definition handle_checker : checker :=
  {| memory := option value;
     allowed := fun s e =>
       match fst e with
       | Call callee _ _ => if callee =? "open" then s = None else True
       | Invoke f method _ _ => if method =? "close" then s = Some f else True
       | _ => True
       end;
     advance := fun s e =>
       match e with
       | (Call callee _ _, Returned f) => if callee =? "open" then Some f else s
       | (Invoke _ method _ _, _) => if method =? "close" then None else s
       | _ => s
       end |}.

(** At most one file is open at a time, every [close] is of the file
    that is open, and no file is open at the end. *)
Definition one_file_at_a_time (t : list event) : Prop :=
  lawful handle_checker None t /\ after handle_checker None t = None.

(** A request that neither opens nor closes a file. *)
Definition no_file (q : request) : Prop :=
  match q with
  | Call callee _ _ => (callee =? "open") = false
  | Invoke _ method _ _ => (method =? "close") = false
  | _ => True
  end.

(** ** The events before an event *)

(** The memory is the trace so far. *)
Definition history_checker (ok : list event -> event -> Prop) : checker :=
  {| memory := list event;
     allowed := ok;
     advance := fun s e => s ++ [e] |}.

(** ** The classes of the submission *)

(** [classes] was predicted, with [return_classes=True], on the loader
    of [test.csv], by the model that [fit_ml] returned. *)
Definition from_test_predictions (before : list event) (classes : value) : Prop :=
  exists data config m d loader r,
    In (Call "cflearn.api.fit_ml" [data] [("config", config)], Returned m) before
    /\ In (GetAttr m "data", Returned d) before
    /\ In (Invoke d "build_loader" [Str "test.csv"] [], Returned loader) before
    /\ In (Invoke m "predict" [loader] [("return_classes", VBool true)],
           Returned r) before
    /\ In (GetItem r (VName "cflearn.PREDICTIONS_KEY"), Returned classes) before.

Definition ravel_of_test_predictions (before : list event) (e : event) : Prop :=
  forall self r, e = (Invoke self "ravel" [] [], r) ->
                 from_test_predictions before self.

Definition no_ravel (q : request) : Prop :=
  match q with
  | Invoke _ method _ _ => (method =? "ravel") = false
  | _ => True
  end.

(** ** The model the script saves *)

(** [sk] is an instance of the class that [meta["model"]] names, fitted
    on the inputs and the flattened labels of the full batch, and [f] is
    the file [sk_model.pkl] of [info.workplace], opened for binary
    writing. *)
Definition fitted (before : list event) (sk f : value) : Prop :=
  exists info meta model base dataset x y labels fit_result path workplace,
    In (GetAttr info "meta", Returned meta) before
    /\ In (GetItem meta (Str "model"), Returned model) before
    /\ ((model = Str "decision_tree"
         /\ base = "sklearn.tree.DecisionTreeClassifier")
        \/ (model = Str "random_forest"
            /\ base = "sklearn.ensemble.RandomForestClassifier"))
    /\ In (Call base [] [], Returned sk) before
    /\ In (GetItem dataset (VName "INPUT_KEY"), Returned x) before
    /\ In (GetItem dataset (VName "LABEL_KEY"), Returned y) before
    /\ In (Invoke y "ravel" [] [], Returned labels) before
    /\ In (Invoke sk "fit" [x; labels] [], Returned fit_result) before
    /\ In (GetAttr info "workplace", Returned workplace) before
    /\ In (Call "os.path.join" [workplace; Str "sk_model.pkl"] [],
           Returned path) before
    /\ In (Call "open" [path; Str "wb"] [], Returned f) before.

Definition dump_of_fitted (before : list event) (e : event) : Prop :=
  forall sk f r, e = (Call "pickle.dump" [sk; f] [], r) -> fitted before sk f.

Definition no_dump (q : request) : Prop :=
  match q with
  | Call callee _ _ => (callee =? "pickle.dump") = false
  | _ => True
  end.

(** ** The pipelines the Iris notebook adds *)

(** [target[key] = v] adds, to the pipelines loaded from the results of
    the experiment, under the name of a scikit-learn model, the
    evaluation pipeline of the model unpickled from a [sk_model.pkl]. *)
Definition sklearn_pipeline (before : list event) (target key v : value) : Prop :=
  (key = Str "decision_tree" \/ key = Str "random_forest")
  /\ exists experiment results workspace model_file f loaded predictor config,
       In (Invoke experiment "run_tasks" [] [], Returned results) before
       /\ In (Call "cflearn.api.load_pipelines" [results] [], Returned target)
             before
       /\ In (Call "os.path.join" [workspace; Str "sk_model.pkl"] [],
              Returned model_file) before
       /\ In (Call "open" [model_file; Str "rb"] [], Returned f) before
       /\ In (Call "pickle.load" [f] [], Returned loaded) before
       /\ In (Call "cflearn.SKLearnClassifier" [loaded] [], Returned predictor)
             before
       /\ In (Call "cflearn.GeneralEvaluationPipeline" [config; predictor] [],
              Returned v) before.

Definition set_of_sklearn_pipeline (before : list event) (e : event) : Prop :=
  forall target key v r, e = (SetItem target key v, r) ->
                         sklearn_pipeline before target key v.

Definition no_set (q : request) : Prop :=
  match q with
  | SetItem _ _ _ => False
  | _ => True
  end.

(** ** The tasks of the experiment *)

(** The value of a keyword argument. *)
Fixpoint keyword (name : string) (kw : kwargs) : option value :=
  match kw with
  | [] => None
  | (k, v) :: rest => if k =? name then Some v else keyword name rest
  end.

(** The script goes on to [base()] for this model name: it does not
    raise [NotImplementedError]. *)
Definition implemented (model : value) : Prop :=
  exists base, RunSklearn.choose_base model = Ret base.

(** The model and the run command of an [add_task] request. *)
Definition task_of (q : request) : option (option value * option value) :=
  match q with
  | Invoke _ method _ kw =>
      if method =? "add_task"
      then Some (keyword "model" kw, keyword "run_command" kw)
      else None
  | _ => None
  end.

Definition tasks (t : list event) : list (option value * option value) :=
  flat_map (fun e => match task_of (fst e) with
                     | Some task => [task]
                     | None => []
                     end) t.

(** The four tasks of cell 17, in the order of the cell. *)
Definition planned_tasks : list (option value * option value) :=
  [ (Some (Str "fcnn"), None);
    (Some (Str "linear"), None);
    (Some (Str "decision_tree"), Some (Str "python run_sklearn.py"));
    (Some (Str "random_forest"), Some (Str "python run_sklearn.py")) ].

(** A task with a run command is for a model the script implements. *)
Definition script_task_implemented
    (task : option value * option value) : Prop :=
  match task with
  | (model, Some command) =>
      command = Str "python run_sklearn.py"
      /\ exists name, model = Some name /\ implemented name
  | (_, None) => True
  end.

(** The memory is the list of the tasks added so far. *)
Definition tasks_checker : checker :=
  {| memory := list (option value * option value);
     allowed := fun _ _ => True;
     advance := fun s e => match task_of (fst e) with
                           | Some task => s ++ [task]
                           | None => s
                           end |}.

Definition no_task (q : request) : Prop := task_of q = None.

(** The tasks added are the first ones of the plan, all four when the
    run completes. *)
Definition as_planned : memory tasks_checker -> outcome unit -> Prop :=
  @post unit tasks_checker
        (fun s _ => s = planned_tasks)
        (fun s _ => exists k, s = firstn k planned_tasks).

(** ** Reading before writing *)

(** [test.csv] has been opened, its first line read, and the file closed,
    each without an exception. *)
Definition test_file_read (before : list event) : Prop :=
  exists f line closed,
    In (Call "open" [Str "test.csv"; Str "r"] [], Returned f) before
    /\ In (Invoke f "readline" [] [], Returned line) before
    /\ In (Invoke f "close" [] [], Returned closed) before.

Definition write_after_read (before : list event) (e : event) : Prop :=
  forall r, e = (Call "open" [Str "submission.csv"; Str "w"] [], r) ->
            test_file_read before.

Definition no_open (q : request) : Prop :=
  match q with
  | Call callee _ _ => (callee =? "open") = false
  | _ => True
  end.

(** ** Failures of the script's own *)

(** The memory tells whether a file has been opened. *)
Definition opened_checker : checker :=
  {| memory := bool;
     allowed := fun _ _ => True;
     advance := fun s e => match fst e with
                           | Call callee _ _ => s || (callee =? "open")
                           | _ => s
                           end |}.

Definition opens (t : list event) : list event :=
  filter (fun e => match fst e with
                   | Call callee _ _ => callee =? "open"
                   | _ => false
                   end) t.

(** A run that ends in an exception of the script's own has opened no
    file. *)
Definition fails_before_opening : memory opened_checker -> outcome unit -> Prop :=
  fun s o => match o with
             | Failed (Authored _) => s = false
             | _ => True
             end.

End Flow.

(* ================================================================== *)
(** * What a build step needs *)
(* ================================================================== *)

Module DockerOrder.
Import Docker.
Local Open Scope string_scope.
Local Open Scope list_scope.

Definition has_base (img : image) : bool :=
  match base img with Some _ => true | None => false end.

(** Is the command an [apt-get install]? *)
Definition is_apt_install (command : list string) : bool :=
  match command with
  | tool :: rest =>
      match operands rest with
      | verb :: _ => (tool =? "apt-get") && (verb =? "install")
      | [] => false
      end
  | [] => false
  end.

(** Has something been copied to the directory? *)
Definition holds_copy (img : image) (dir : string) : bool :=
  existsb (fun c => snd c =? dir) (copied img).

(** The image is ready for the step: [FROM] comes first, and only once;
    [apt-get install] finds a package index that [apt-get update] has
    fetched; [pip install .] runs in a directory that holds a copy of the
    build context. *)
Definition ready (img : image) (i : instruction) : bool :=
  match i with
  | FROM _ => negb (has_base img)
  | WORKDIR _ => has_base img
  | COPY _ _ => has_base img
  | RUN command =>
      has_base img
      && (if is_apt_install command then apt_index img else true)
      && forallb (fun p => match p with
                           | PipLocal dir => holds_copy img dir
                           | _ => true
                           end)
                 (installs (workdir img) command)
  end.

(** Every step finds the image ready. *)
Fixpoint ready_throughout (img : image) (file : list instruction) : bool :=
  match file with
  | [] => true
  | i :: rest => ready img i && ready_throughout (step img i) rest
  end.

End DockerOrder.

(* ================================================================== *)
(** * Scheduling, locking and cancelling *)
(* ================================================================== *)

Module Concurrency.
Import PyStr Py Check.
Local Open Scope string_scope.
Local Open Scope list_scope.

(** The modules by which Python code starts, schedules, locks or cancels
    concurrent work of its own: threads, processes, executors, event
    loops, signals and queues. *)
Definition concurrency_modules : list string :=
  ["threading"; "_thread"; "multiprocessing"; "concurrent.futures";
   "asyncio"; "subprocess"; "sched"; "signal"; "queue"; "joblib"].

(** The name is the module, or a name inside it. *)
Definition in_module (module name : string) : bool :=
  (name =? module) || String.prefix (module ++ ".") name.

(** The functions of [os] that start, wait for or end a process, by the
    beginning of their names. *)
Definition process_functions : list string :=
  ["os.fork"; "os.forkpty"; "os.spawn"; "os.posix_spawn"; "os.exec";
   "os.system"; "os.popen"; "os.startfile"; "os.wait"; "os.kill";
   "os.abort"; "os._exit"].

(** The methods by which a thread, a process, a pool, a lock, an event,
    a future or a task is started, waited for, locked or cancelled. *)
Definition control_methods : list string :=
  ["start"; "run"; "join"; "terminate"; "kill"; "cancel"; "cancelled";
   "acquire"; "release"; "locked"; "wait"; "notify"; "notify_all";
   "submit"; "shutdown"; "apply_async"; "map_async"; "imap";
   "run_until_complete"; "run_in_executor"; "create_task";
   "send_signal"; "communicate"; "poll"].

(** The request schedules, locks or cancels. *)
Definition controls_concurrency (q : request) : bool :=
  match q with
  | Call callee _ _ =>
      existsb (fun module => in_module module callee) concurrency_modules
      || existsb (fun name => String.prefix name callee) process_functions
  | Invoke _ method _ _ => existsb (String.eqb method) control_methods
  | _ => false
  end.

(** No request of the trace schedules, locks or cancels. *)
Definition no_concurrency_control (t : list event) : Prop :=
  Forall (fun e => controls_concurrency (fst e) = false) t.

(** The modules the code imports.
    <<
    import torch
    import cflearn
    import numpy as np
    from cflearn.misc.toolkit import seed_everything
    >> *)
Definition titanic_imports : list string :=
  ["torch"; "cflearn"; "numpy"; "cflearn.misc.toolkit"].

(** <<
    import os
    import torch
    import pickle
    import cflearn
    import numpy as np
    from cflearn.misc.toolkit import seed_everything
    >> *)
Definition iris_imports : list string :=
  ["os"; "torch"; "pickle"; "cflearn"; "numpy"; "cflearn.misc.toolkit"].

(** <<
    import os
    import pickle
    import numpy as np
    from sklearn.tree import DecisionTreeClassifier
    from sklearn.ensemble import RandomForestClassifier
    from cflearn.constants import INPUT_KEY
    from cflearn.constants import LABEL_KEY
    from cflearn.dist.ml.runs._utils import get_info
    >> *)
Definition script_imports : list string :=
  ["os"; "pickle"; "numpy"; "sklearn.tree"; "sklearn.ensemble";
   "cflearn.constants"; "cflearn.constants"; "cflearn.dist.ml.runs._utils"].

(** None of the imported modules is a concurrency module. *)
Definition imports_no_concurrency (imports : list string) : bool :=
  forallb (fun name =>
             negb (existsb (fun module => in_module module name)
                           concurrency_modules))
          imports.

End Concurrency.

(* ================================================================== *)
(** * The files of the script, and the files that are read *)
(* ================================================================== *)

Module FileUse.
Import PyStr Py Check.
Local Open Scope string_scope.
Local Open Scope list_scope.

(** [os.path.join(a, b)] on a POSIX system, for two strings: [b] alone
    when it is absolute, and no separator added after an empty [a] or
    after one that ends in a slash. *)
Definition path_join (a b : text) : text :=
  match b with
  | 47%N :: _ => b
  | _ => match List.rev a with
         | [] => b
         | 47%N :: _ => a ++ b
         | _ => a ++ 47%N :: b
         end
  end.

(** The memory is the event before.  The script reads no file, and a
    file it writes is opened in binary mode at the path the event before
    has joined. *)
Definition script_file_checker : checker :=
  {| memory := option event;
     allowed := fun prev e =>
       match file_used (fst e) with
       | Some (Writes path) =>
           fst e = Call "open" [path; Str "wb"] []
           /\ exists e', prev = Some e' /\ joins_model_path e' path
       | Some (Reads _) => False
       | None => True
       end;
     advance := fun _ e => Some e |}.

(** Said of a whole trace: no file is read, and a file written is opened
    with ["wb"] at the path that [os.path.join(workplace, "sk_model.pkl")]
    has returned in the event just before. *)
Definition script_file_uses_as_designed (t : list event) : Prop :=
  forall before q r later,
    t = before ++ (q, r) :: later ->
    match file_used q with
    | Some (Writes path) =>
        q = Call "open" [path; Str "wb"] []
        /\ exists earlier workplace,
             before = earlier ++ [(Call "os.path.join"
                                        [workplace; Str "sk_model.pkl"] [],
                                   Returned path)]
    | Some (Reads _) => False
    | None => True
    end.

(** The file is read in the trace: opened for reading, or handed as a
    path to [.fit] or [.build_loader]. *)
Definition reads (t : list event) (path : value) : Prop :=
  exists q r, In (q, r) t /\ file_used q = Some (Reads path).

(** A request that uses no file. *)
Definition no_file_use (q : request) : Prop := file_used q = None.

(** Nothing is asked of the events. *)
Definition any_event : list event -> event -> Prop := fun _ _ => True.

(** A run of the Titanic notebook that completes has read its two
    files, and one of the Iris notebook its data file. *)
Definition titanic_inputs_read
  : memory (Flow.history_checker any_event) -> outcome unit -> Prop :=
  @post unit (Flow.history_checker any_event)
        (fun s _ => reads s (Str "train.csv") /\ reads s (Str "test.csv"))
        (fun _ _ => True).

Definition iris_input_read
  : memory (Flow.history_checker any_event) -> outcome unit -> Prop :=
  @post unit (Flow.history_checker any_event)
        (fun s _ => reads s (Str "iris.data"))
        (fun _ _ => True).

End FileUse.

(* ================================================================== *)
(** * Cells that are scripts, and the two authored blocks *)
(* ================================================================== *)

Module Blocks.
Import PyStr Py Check.
Local Open Scope string_scope.
Local Open Scope list_scope.

(** ** The cells of the Titanic notebook before the submission cell *)

(** Each cell makes a fixed sequence of requests, whatever the answers. *)
Definition titanic_cells_are_scripts : Prop :=
  follows ["seed_everything"] Titanic.cell1
  /\ follows ["cflearn.MLBundledProcessorConfig"] Titanic.cell2
  /\ (forall processor_config,
        follows ["cflearn.MLData.init"; ".fit"] (Titanic.cell3 processor_config))
  /\ (forall data,
        follows [".num_features"; "cflearn.MLGlobalEncoderSettings";
                 "cflearn.MLConfig"]
                (Titanic.build_config data))
  /\ (forall data config,
        follows ["cflearn.api.fit_ml"] (Titanic.fit_model data config))
  /\ (forall m, follows [".data"; ".build_loader"; ".evaluate"] (Titanic.cell6 m))
  /\ (forall m,
        follows [".data"; ".build_loader"; ".predict"; "[]"] (Titanic.cell7 m))
  /\ (forall m loader,
        follows [".predict"; "[]"; ".predict"; "[]"; "[]"; "print"; "[]"; "print"]
                (Titanic.cell8 m loader)).

(** ** The cells of the Iris notebook other than cell 21 *)

Definition iris_cells_are_scripts : Prop :=
  follows ["seed_everything"] Iris.cell1
  /\ follows ["cflearn.MLBundledProcessorConfig"; "cflearn.MLData.init"; ".fit";
              ".num_features"; ".num_labels"; "cflearn.MLConfig";
              "cflearn.api.fit_ml"]
             Iris.cell3
  /\ (forall m,
        follows [".data"; ".train_dataset"; ".x"; ".mean"; "print"; ".std";
                 "print"]
                (Iris.cell5 m))
  /\ (forall m,
        follows [".data"; ".train_dataset"; ".x"; ".valid_dataset"; ".x";
                 "np.vstack"; ".mean"; "print"; ".std"; "print"]
                (Iris.cell7 m))
  /\ (forall data m,
        follows [".build_loader"; ".predict"; "cflearn.api.evaluate"]
                (Iris.cell9 data m))
  /\ (forall data m loader,
        follows [".config"; "cflearn.api.repeat_ml";
                 "cflearn.api.load_pipelines"; "cflearn.api.evaluate"]
                (Iris.cell11 data m loader))
  /\ (forall data m loader,
        follows [".config"; "cflearn.api.repeat_ml";
                 "cflearn.api.load_pipelines"; "cflearn.api.evaluate"]
                (Iris.cell13 data m loader))
  /\ (forall data m,
        follows [".config"; "cflearn.api.repeat_ml"] (Iris.cell15 data m))
  /\ (forall data config,
        follows ["cflearn.dist.ml.Experiment"; ".dump_data"; ".add_task";
                 ".add_task"; ".add_task"; ".add_task"]
                (Iris.cell17 data config))
  /\ (forall experiment, follows [".run_tasks"] (Iris.cell19 experiment))
  /\ (forall loader pipelines,
        follows ["cflearn.api.evaluate"] (Iris.cell23 loader pipelines)).

(** ** The named operations *)

(** Fitting is one call; building the config is an attribute read and two
    calls; predicting is one call and a subscript. *)
Definition operations_are_scripts : Prop :=
  (forall data config, single_call (Titanic.fit_model data config))
  /\ (forall data,
        follows [".num_features"; "cflearn.MLGlobalEncoderSettings";
                 "cflearn.MLConfig"]
                (Titanic.build_config data))
  /\ (forall m loader kw,
        follows [".predict"; "[]"] (Titanic.predict m loader kw)).

(** ** Blocks whose requests depend on the answers *)

(** No fixed sequence of requests is what the program makes. *)
Definition depends_on_answers {A} (p : prog A) : Prop :=
  forall script, ~ follows script p.

(** Answers to the submission cell: a test file with no line after the
    first and an empty class array; and one with a line and a class. *)
Definition cell9_no_row : list result :=
  [ Returned (VObj 0); Returned (Str "PassengerId"); Returned (VList []);
    Returned VNone;
    Returned (VObj 1); Returned (VInt 21); Returned (VObj 2);
    Returned (VList []); Returned VNone ].

Definition cell9_one_row : list result :=
  [ Returned (VObj 0); Returned (Str "PassengerId"); Returned (VList [Str "892,3"]);
    Returned VNone;
    Returned (VObj 1); Returned (VInt 21); Returned (VObj 2);
    Returned (VList [VInt 1]); Returned (VInt 1); Returned (VInt 6);
    Returned VNone ].

(** Answers to cell 21: results with no workspace; and results with the
    workspace of one decision tree. *)
Definition cell21_no_workspace : list result :=
  [ Returned (VObj 0); Returned (VList []); Returned (VList []) ].

Definition cell21_one_tree : list result :=
  [ Returned (VObj 0); Returned (VList [Str "_experiment/decision_tree/0"]);
    Returned (VList [VTuple [Str "decision_tree"; Str "0"]]);
    Returned (Str "_experiment/decision_tree/0/sk_model.pkl");
    Returned (VObj 1); Returned (VObj 2); Returned (VObj 3); Returned (VObj 4);
    Returned VNone; Returned VNone ].

(** ** The shape of a run of cell 21 *)

(** The memory is the list of the names of the requests made so far. *)
Definition label_checker : checker :=
  {| memory := list string;
     allowed := fun _ _ => True;
     advance := fun s e => s ++ [label (fst e)] |}.

(** The requests by which one pickled model becomes a pipeline. *)
Definition load_script : list string :=
  ["os.path.join"; "open"; "pickle.load"; "cflearn.SKLearnClassifier";
   "cflearn.GeneralEvaluationPipeline"; "[]="; ".close"].

(** What one pair of the loop asks in a run that completes: the
    subscript [workspace_key[0]], unless the interpreter does it on a
    list or tuple, and then nothing, or the loading of one model. *)
Definition pipeline_round (round : list string) : Prop :=
  round = [] \/ round = ["[]"]
  \/ round = load_script \/ round = "[]" :: load_script.

(** The three requests before the loop, the iteration of the two
    sequences unless they are lists or tuples, and then one round for
    every pair of the zip. *)
Definition cell21_shape (names : list string) : Prop :=
  exists iterations rounds,
    names = ["cflearn.api.load_pipelines"; ".workspaces"; ".workspace_keys"]
            ++ iterations ++ List.concat rounds
    /\ (iterations = [] \/ iterations = ["iter"] \/ iterations = ["iter"; "iter"])
    /\ Forall pipeline_round rounds.

Definition cell21_shaped : memory label_checker -> outcome value -> Prop :=
  @post value label_checker (fun s _ => cell21_shape s) (fun _ _ => True).

(** An item is set only under the name of a scikit-learn model. *)
Definition sets_sklearn_key (q : request) : Prop :=
  forall target key v,
    q = SetItem target key v ->
    key = Str "decision_tree" \/ key = Str "random_forest".

End Blocks.
(* ================================================================== *)
(** * Facts about Python text *)
(* ================================================================== *)

Module PyStrFacts.
Import PyStr.

Lemma isspace_LF : isspace LF = true.
Proof. reflexivity. Qed.

Lemma lstrip_incl (s : text) (c : char) : In c (lstrip s) -> In c s.
Proof.
  induction s as [|d r IH]; simpl; auto.
  destruct (isspace d); simpl; auto.
Qed.

Lemma rstrip_incl (s : text) (c : char) : In c (rstrip s) -> In c s.
Proof.
  unfold rstrip. intros H.
  apply in_rev in H. apply lstrip_incl in H. now apply in_rev.
Qed.

Lemma strip_incl (s : text) (c : char) : In c (strip s) -> In c s.
Proof.
  unfold strip. intros H. now apply lstrip_incl, rstrip_incl.
Qed.

(** Left-stripping a text that ends in a newline. *)
Lemma lstrip_app_LF (a : text) :
  lstrip (a ++ [LF]) = match lstrip a with [] => [] | _ => lstrip a ++ [LF] end.
Proof.
  induction a as [|d r IH]; simpl.
  - reflexivity.
  - destruct (isspace d); [exact IH | reflexivity].
Qed.

Lemma rstrip_app_LF (a : text) : rstrip (a ++ [LF]) = rstrip a.
Proof.
  unfold rstrip. rewrite rev_app_distr. simpl. reflexivity.
Qed.

(** The line terminator never survives [strip]. *)
Lemma strip_app_LF (a : text) : strip (a ++ [LF]) = strip a.
Proof.
  unfold strip. rewrite lstrip_app_LF.
  destruct (lstrip a) as [|d r] eqn:E.
  - reflexivity.
  - apply rstrip_app_LF.
Qed.

(** ** [split] *)

Lemma split_nonempty (sep : char) (s : text) : split sep s <> [].
Proof.
  destruct s as [|c r]; simpl; [discriminate|].
  destruct (c =? sep)%N; [discriminate|].
  destruct (split sep r); discriminate.
Qed.



(** ** Lines *)

Lemma readline_at_eof (s rest : text) :
  readline s = ([], rest) -> s = [] /\ rest = [].
Proof.
  destruct s as [|c r]; simpl.
  - intros E. now inversion E.
  - destruct (c =? LF)%N; [discriminate|].
    destruct (readline r). discriminate.
Qed.

Lemma readline_readlines (s : text) :
  readlines s =
  match readline s with
  | ([], _) => []
  | (l, rest) => l :: readlines rest
  end.
Proof.
  induction s as [|c r IH]; simpl; [reflexivity|].
  destruct (c =? LF)%N; [reflexivity|].
  rewrite IH. destruct (readline r) as [l rest] eqn:E.
  destruct l; [|reflexivity].
  apply readline_at_eof in E. destruct E as [_ ->]. reflexivity.
Qed.

(** After one [readline] the iteration yields the lines but the first. *)
Lemma readlines_after_readline (s : text) :
  readlines (snd (readline s)) = tl (readlines s).
Proof.
  rewrite (readline_readlines s).
  destruct s as [|c r]; [reflexivity|].
  simpl. destruct (c =? LF)%N; [reflexivity|].
  destruct (readline r); reflexivity.
Qed.

Lemma readlines_are_lines (s : text) : Forall is_line (readlines s).
Proof.
  induction s as [|c r IH]; simpl; [constructor|].
  destruct (N.eqb_spec c LF) as [->|Hne].
  - constructor; [|exact IH]. exists []. split; [easy | now right].
  - destruct (readlines r) as [|l ls].
    + constructor; [|constructor]. exists [c]. split; [|now left].
      simpl. intros [E|[]]. now apply Hne.
    + inversion IH as [|? ? [a [Ha Hl]] Hls]; subst.
      constructor; [|exact Hls]. exists (c :: a). split.
      * simpl. intros [E|E]; [now apply Hne | now apply Ha].
      * destruct Hl as [->| ->]; [now left | now right].
Qed.

Lemma readlines_app_line (body rest : text) :
  ~ In LF body ->
  readlines (body ++ LF :: rest) = (body ++ [LF]) :: readlines rest.
Proof.
  induction body as [|c r IH]; simpl; intros H; [reflexivity|].
  destruct (N.eqb_spec c LF) as [->|Hne].
  - exfalso. apply H. now left.
  - rewrite IH by tauto. reflexivity.
Qed.

Lemma readlines_incl (s : text) (l : text) (c : char) :
  In l (readlines s) -> In c l -> In c s.
Proof.
  revert l. induction s as [|d r IH]; simpl; intros l Hl Hc; [easy|].
  destruct (d =? LF)%N.
  - destruct Hl as [<-|Hl]; [simpl in Hc; tauto | right; eauto].
  - destruct (readlines r) as [|l0 ls].
    + destruct Hl as [<-|[]]. simpl in Hc. tauto.
    + destruct Hl as [<-|Hl].
      * destruct Hc as [->|Hc]; [now left | right].
        apply (IH l0); [now left | exact Hc].
      * right. apply (IH l); [now right | exact Hc].
Qed.

(** No carriage return reaches the reader. *)
Lemma universal_newlines_without_CR (s : text) :
  ~ In CR (universal_newlines s).
Proof.
  assert (G : ~ In CR (universal_newlines s)
              /\ forall c, ~ In CR (universal_newlines (c :: s))).
  { induction s as [|d r [IH1 IH2]].
    - split; [easy|]. intros c. simpl.
      destruct (N.eqb_spec c CR); simpl; intuition discriminate.
    - split; [apply IH2|]. intros c.
      change (universal_newlines (c :: d :: r)) with
        (if (c =? CR)%N
         then LF :: (if (d =? LF)%N then universal_newlines r
                     else universal_newlines (d :: r))
         else c :: universal_newlines (d :: r)).
      destruct (N.eqb_spec c CR) as [->|Hc].
      + destruct (d =? LF)%N; simpl; intros [E|E]; try discriminate;
          [now apply IH1 | now apply (IH2 d)].
      + intros [E|E]; [now apply Hc | now apply (IH2 d)]. }
  apply G.
Qed.

(** A text without carriage returns is read as it is. *)
Lemma universal_newlines_id (s : text) :
  ~ In CR s -> universal_newlines s = s.
Proof.
  induction s as [|c r IH]; intros H; [reflexivity|].
  simpl in *. destruct (N.eqb_spec c CR) as [->|Hc]; [tauto|].
  f_equal. apply IH. tauto.
Qed.

(** ** Decimal numerals *)

Lemma string_of_uint_digits (d : Decimal.uint) :
  Forall numeral_char (str (DecimalString.NilEmpty.string_of_uint d)).
Proof.
  induction d; simpl; constructor; trivial;
    right; cbv; split; discriminate.
Qed.

Lemma str_int_numeral (z : Z) : Forall numeral_char (str_int z).
Proof.
  assert (U : forall d, Forall numeral_char
                          (str (DecimalString.NilZero.string_of_uint d))).
  { intros d. pose proof (string_of_uint_digits d) as H.
    destruct d; trivial.
    constructor; [|constructor]. right. cbv. split; discriminate. }
  unfold str_int, DecimalString.NilZero.string_of_int.
  destruct (Z.to_int z) as [d|d].
  - apply U.
  - change (Forall numeral_char (45%N :: str (DecimalString.NilZero.string_of_uint d))).
    constructor; [now left | apply U].
Qed.

Lemma str_int_without (c : char) (z : Z) :
  ~ numeral_char c -> ~ In c (str_int z).
Proof.
  intros Hc Hin. apply Hc.
  pose proof (str_int_numeral z) as H.
  rewrite Forall_forall in H. now apply H.
Qed.


Lemma LF_not_numeral : ~ numeral_char LF.
Proof. unfold numeral_char, LF. lia. Qed.

Lemma CR_not_numeral : ~ numeral_char CR.
Proof. unfold numeral_char, CR. lia. Qed.

End PyStrFacts.

(* ================================================================== *)
(** * The submission file *)
(* ================================================================== *)

Module SubmissionFacts.
Import PyStr PyStrFacts Submission.

(** The subscripted split is the text before the first comma. *)
Lemma first_field_truncates (sep : char) (s : text) :
  nth 0 (split sep s) [] = truncate_at sep s.
Proof.
  induction s as [|c r IH]; simpl; [reflexivity|].
  destruct (c =? sep)%N; [reflexivity|].
  rewrite <- IH. pose proof (split_nonempty sep r) as NE.
  destruct (split sep r); [congruence | reflexivity].
Qed.

Lemma truncate_at_incl (sep : char) (s : text) (c : char) :
  In c (truncate_at sep s) -> In c s.
Proof.
  induction s as [|d r IH]; simpl; auto.
  destruct (d =? sep)%N; simpl; [tauto | intuition].
Qed.

Lemma truncate_at_without_sep (sep : char) (s : text) :
  ~ In sep (truncate_at sep s).
Proof.
  induction s as [|d r IH]; simpl; auto.
  destruct (N.eqb_spec d sep) as [->|Hne]; simpl; [tauto|].
  intros [E|E]; [now apply Hne | now apply IH].
Qed.

Lemma test_id_without_comma (line : text) : ~ In COMMA (test_id_of line).
Proof.
  unfold test_id_of. rewrite first_field_truncates.
  apply truncate_at_without_sep.
Qed.

Lemma test_id_without_LF (line : text) :
  is_line line -> ~ In LF (test_id_of line).
Proof.
  intros [a [Ha Hl]] Hin. apply Ha.
  unfold test_id_of in Hin. rewrite first_field_truncates in Hin.
  apply truncate_at_incl in Hin.
  destruct Hl as [->| ->].
  - now apply strip_incl.
  - rewrite strip_app_LF in Hin. now apply strip_incl.
Qed.

(** The ids come from the lines after the first, in order. *)
Lemma id_list_lines (test_csv : text) :
  id_list test_csv = map test_id_of (tl (file_lines test_csv)).
Proof.
  unfold id_list, file_lines.
  rewrite <- readlines_after_readline.
  destruct (readline (universal_newlines test_csv)); reflexivity.
Qed.

Lemma id_list_without_LF (test_csv : text) :
  Forall (fun test_id => ~ In LF test_id) (id_list test_csv).
Proof.
  rewrite id_list_lines. apply Forall_map.
  pose proof (readlines_are_lines (universal_newlines test_csv)) as H.
  fold (file_lines test_csv) in H.
  assert (T : Forall is_line (tl (file_lines test_csv))).
  { destruct (file_lines test_csv); [constructor | now inversion H]. }
  eapply Forall_impl; [|exact T]. intros l. apply test_id_without_LF.
Qed.

(** The loop of writes appends the rows one after the other. *)
Lemma write_rows (pairs : list (text * Z)) (f : text) :
  fold_left (fun f '(test_id, c) => write f (row test_id c)) pairs f
  = f ++ List.concat (map (fun '(test_id, c) => row test_id c) pairs).
Proof.
  revert f. induction pairs as [|[test_id c] ps IH]; intros f; simpl.
  - now rewrite app_nil_r.
  - rewrite IH. unfold write. now rewrite app_assoc.
Qed.

Lemma write_submission_text (ids : list text) (classes : list (list Z)) :
  write_submission ids classes = header ++ List.concat (rows_of ids classes).
Proof.
  unfold write_submission. rewrite write_rows. reflexivity.
Qed.

Lemma row_body_without_LF (test_id : text) (c : Z) :
  ~ In LF test_id -> ~ In LF (test_id ++ [COMMA] ++ str_int c).
Proof.
  intros H Hin. apply in_app_or in Hin. destruct Hin as [Hin|Hin]; [tauto|].
  simpl in Hin. destruct Hin as [E|Hin]; [discriminate|].
  revert Hin. apply str_int_without, LF_not_numeral.
Qed.

Lemma row_body (test_id : text) (c : Z) :
  row test_id c = (test_id ++ [COMMA] ++ str_int c) ++ [LF].
Proof. unfold row. now rewrite <- !app_assoc. Qed.

Lemma readlines_rows (pairs : list (text * Z)) :
  Forall (fun p => ~ In LF (fst p)) pairs ->
  readlines (List.concat (map (fun '(test_id, c) => row test_id c) pairs))
  = map (fun '(test_id, c) => row test_id c) pairs.
Proof.
  induction 1 as [|[test_id c] ps Hid Hps IH]; simpl; [reflexivity|].
  rewrite row_body, <- app_assoc. simpl in *.
  rewrite readlines_app_line by now apply row_body_without_LF.
  now rewrite IH.
Qed.

Lemma combine_fst_Forall {A B} (P : A -> Prop) (l : list A) (l' : list B) :
  Forall P l -> Forall (fun p => P (fst p)) (combine l l').
Proof.
  intros H. revert l'. induction H as [|a l Ha Hl IH]; intros [|b l']; simpl;
    constructor; auto.
Qed.

(** The lines of the submission file: the header, then one row per pair
    of the zip. *)
Lemma submission_lines (test_csv : text) (classes : list (list Z)) :
  readlines (submission test_csv classes)
  = header :: rows_of (id_list test_csv) classes.
Proof.
  unfold submission. rewrite write_submission_text.
  unfold header. rewrite <- app_assoc.
  change ([LF] ++ ?x) with (LF :: x).
  rewrite readlines_app_line.
  - f_equal. apply readlines_rows.
    apply combine_fst_Forall with (P := fun t => ~ In LF t).
    apply id_list_without_LF.
  - vm_compute. intuition discriminate.
Qed.



Lemma test_id_incl (line : text) (c : char) :
  In c (test_id_of line) -> In c line.
Proof.
  unfold test_id_of. rewrite first_field_truncates. intros H.
  now apply truncate_at_incl, strip_incl in H.
Qed.

Lemma id_list_without_CR (test_csv : text) :
  Forall (fun test_id => ~ In CR test_id) (id_list test_csv).
Proof.
  rewrite id_list_lines. apply Forall_map, Forall_forall.
  intros l Hl Hin. apply test_id_incl in Hin.
  apply (universal_newlines_without_CR test_csv).
  apply (readlines_incl _ l); [|exact Hin].
  unfold file_lines in Hl. destruct (readlines (universal_newlines test_csv));
    [destruct Hl | now right].
Qed.

(** The submission cell writes no carriage return, so a reader in text
    mode gets the written text back. *)
Lemma submission_without_CR (test_csv : text) (classes : list (list Z)) :
  ~ In CR (submission test_csv classes).
Proof.
  unfold submission. rewrite write_submission_text. intros H.
  apply in_app_or in H. destruct H as [H|H].
  - revert H. vm_compute. intuition discriminate.
  - apply in_concat in H. destruct H as [r [Hr Hc]].
    unfold rows_of in Hr. apply in_map_iff in Hr.
    destruct Hr as [[test_id c] [<- Hp]].
    pose proof (id_list_without_CR test_csv) as HCR.
    rewrite Forall_forall in HCR. apply in_combine_l in Hp.
    unfold row in Hc. apply in_app_or in Hc. destruct Hc as [Hc|Hc].
    { now apply (HCR test_id). }
    simpl in Hc. destruct Hc as [E|Hc]; [discriminate|].
    apply in_app_or in Hc. destruct Hc as [Hc|Hc].
    { revert Hc. apply str_int_without, CR_not_numeral. }
    simpl in Hc. destruct Hc as [E|[]]. discriminate.
Qed.

(** The lines of [submission.csv] as a reader sees them. *)
Lemma submission_file_lines (test_csv : text) (classes : list (list Z)) :
  file_lines (submission test_csv classes)
  = header :: rows_of (id_list test_csv) classes.
Proof.
  unfold file_lines.
  rewrite universal_newlines_id by apply submission_without_CR.
  apply submission_lines.
Qed.

Lemma nth_combine {A B} (l : list A) (l' : list B) (n : nat) (a : A) (b : B) :
  n < length l -> n < length l' ->
  nth n (combine l l') (a, b) = (nth n l a, nth n l' b).
Proof.
  revert l' n. induction l as [|x l IH]; intros [|y l'] [|n]; simpl;
    intros H H'; try lia; [reflexivity | apply IH; lia].
Qed.

Lemma nth_tl {A} (l : list A) (n : nat) (d : A) :
  nth n (tl l) d = nth (S n) l d.
Proof. destruct l; [now destruct n | reflexivity]. Qed.

Lemma rows_of_length (ids : list text) (classes : list (list Z)) :
  length (rows_of ids classes)
  = Nat.min (length ids) (length (ravel classes)).
Proof. unfold rows_of. now rewrite length_map, length_combine. Qed.


(** C9: whatever [test.csv] holds and whatever the class array is, the
    number of lines after the header of [submission.csv] is the smaller of
    the number of lines after the first of [test.csv] and the number of
    predicted classes.  The cell is a total function: when the counts
    differ the zip drops the surplus and nothing is raised. *)
Theorem submission_row_count (test_csv : text) (classes : list (list Z)) :
  length (tl (file_lines (submission test_csv classes)))
  = Nat.min (length (tl (file_lines test_csv))) (length (ravel classes)).
Proof.
  rewrite submission_file_lines. simpl.
  now rewrite rows_of_length, id_list_lines, length_map.
Qed.

(** C10: inside the range, the i-th line after the header of
    [submission.csv] is the id, a comma, the i-th predicted class and the
    line end, where the id is the (i+1)-th line of [test.csv] stripped of
    surrounding whitespace and cut at its first comma; the rows follow the
    order of the lines of [test.csv]. *)
Theorem submission_row_at (test_csv : text) (classes : list (list Z)) (i : nat) :
  i < length (tl (file_lines test_csv)) ->
  i < length (ravel classes) ->
  nth i (tl (file_lines (submission test_csv classes))) []
  = truncate_at COMMA (strip (nth (S i) (file_lines test_csv) []))
    ++ [COMMA] ++ str_int (nth i (ravel classes) 0%Z) ++ [LF].
Proof.
  intros Hi Hc. rewrite submission_file_lines. simpl tl. unfold rows_of.
  assert (Hi' : i < length (id_list test_csv))
    by now rewrite id_list_lines, length_map.
  rewrite (nth_indep _ [] (row [] 0%Z))
    by (rewrite length_map, length_combine; lia).
  rewrite (map_nth (fun '(test_id, c) => row test_id c) _ ([], 0%Z)).
  rewrite nth_combine by assumption.
  rewrite id_list_lines.
  rewrite (nth_indep _ [] (test_id_of [])) by now rewrite length_map.
  rewrite map_nth, nth_tl.
  unfold row, test_id_of. now rewrite first_field_truncates.
Qed.

Lemma submission_row_at_sample :
  1 < length (tl (file_lines sample_test_csv))
  /\ 1 < length (ravel sample_classes)
  /\ nth 1 (tl (file_lines (submission sample_test_csv sample_classes))) []
     = str "893,1" ++ [LF].
Proof.
  split; [vm_compute; lia|]. split; [vm_compute; lia|].
  rewrite (submission_row_at sample_test_csv sample_classes (i := 1));
    [reflexivity | vm_compute; lia | vm_compute; lia].
Defined.

End SubmissionFacts.

(* ================================================================== *)
(** * The submission file read back, and test files in other shapes *)
(* ================================================================== *)

Module RoundTrip.
Import PyStr Submission Inputs PyStrFacts SubmissionFacts.

(** ** What [strip] leaves at the ends *)

Lemma lstrip_head (s : text) (c : char) (r : text) :
  lstrip s = c :: r -> isspace c = false.
Proof.
  induction s as [|d s IH]; simpl; [discriminate|].
  destruct (isspace d) eqn:E; [exact IH|].
  intros H. injection H as <- _. exact E.
Qed.

Lemma lstrip_suffix (s : text) : exists ws, s = ws ++ lstrip s.
Proof.
  induction s as [|d s [ws IH]]; simpl.
  - now exists [].
  - destruct (isspace d).
    + exists (d :: ws). simpl. now f_equal.
    + now exists [].
Qed.

Lemma lstrip_fixed (s : text) :
  (forall c r, s = c :: r -> isspace c = false) -> lstrip s = s.
Proof.
  destruct s as [|c r]; intros H; [reflexivity|].
  simpl. now rewrite (H c r eq_refl).
Qed.

Lemma lstrip_blank (s : text) : blank s = true -> lstrip s = [].
Proof.
  unfold blank. induction s as [|c r IH]; simpl; [reflexivity|].
  intros H. apply andb_prop in H. destruct H as [Hc Hr].
  rewrite Hc. auto.
Qed.

Lemma strip_blank (s : text) : blank s = true -> strip s = [].
Proof. intros H. unfold strip. now rewrite lstrip_blank. Qed.

Lemma strip_head (s : text) (c : char) (r : text) :
  strip s = c :: r -> isspace c = false.
Proof.
  unfold strip, rstrip. intros H.
  destruct (lstrip_suffix (List.rev (lstrip s))) as [ws E].
  apply (f_equal (@List.rev char)) in E.
  rewrite rev_involutive, rev_app_distr, H in E. simpl in E.
  exact (lstrip_head _ E).
Qed.

Lemma truncate_at_prefix (sep : char) (s : text) :
  exists rest, s = truncate_at sep s ++ rest.
Proof.
  induction s as [|c s [rest IH]]; simpl.
  - now exists [].
  - destruct (c =? sep)%N.
    + now exists (c :: s).
    + exists rest. simpl. now f_equal.
Qed.

Lemma truncate_at_app_sep (sep : char) (a b : text) :
  ~ In sep a -> truncate_at sep (a ++ sep :: b) = a.
Proof.
  induction a as [|c a IH]; simpl; intros H.
  - now rewrite N.eqb_refl.
  - destruct (N.eqb_spec c sep) as [->|Hne]; [tauto|].
    f_equal. apply IH. tauto.
Qed.

Lemma test_id_head (line : text) (c : char) (r : text) :
  test_id_of line = c :: r -> isspace c = false.
Proof.
  unfold test_id_of. rewrite first_field_truncates. intros H.
  destruct (truncate_at_prefix COMMA (strip line)) as [rest E].
  rewrite H in E. simpl in E. exact (strip_head _ E).
Qed.

Lemma numeral_not_space (c : char) : numeral_char c -> isspace c = false.
Proof.
  intros [->|[Hlo Hhi]]; [reflexivity|].
  unfold isspace.
  assert (E1 : (c <=? 13)%N = false) by (apply N.leb_gt; lia).
  assert (E2 : (c <=? 32)%N = false) by (apply N.leb_gt; lia).
  assert (E3 : (8192 <=? c)%N = false) by (apply N.leb_gt; lia).
  rewrite E1, E2, E3, !andb_false_r.
  repeat match goal with
         | |- context [(c =? ?k)%N] =>
             replace (c =? k)%N with false by (symmetry; apply N.eqb_neq; lia)
         end.
  reflexivity.
Qed.

(** ** A row, stripped and cut, gives its id back *)

(** An id as the reader makes it: without a comma, and not beginning
    with white space. *)
Lemma strip_row (test_id : text) (c : Z) :
  (forall d r, test_id = d :: r -> isspace d = false) ->
  strip (row test_id c) = test_id ++ [COMMA] ++ str_int c.
Proof.
  intros Hhead. unfold strip. rewrite lstrip_fixed.
  - rewrite row_body, rstrip_app_LF. unfold rstrip.
    rewrite lstrip_fixed; [apply rev_involutive|].
    intros d r E. rewrite !rev_app_distr in E. simpl in E.
    pose proof (str_int_numeral c) as Hnum.
    apply Forall_rev in Hnum.
    destruct (List.rev (str_int c)) as [|n ns]; simpl in E.
    + injection E as <- _. reflexivity.
    + injection E as <- _. apply numeral_not_space.
      now inversion Hnum.
  - intros d r E. unfold row in E.
    destruct test_id as [|d' r']; simpl in E; injection E as <- _.
    + reflexivity.
    + exact (Hhead _ _ eq_refl).
Qed.

Lemma test_id_of_row (test_id : text) (c : Z) :
  ~ In COMMA test_id ->
  (forall d r, test_id = d :: r -> isspace d = false) ->
  test_id_of (row test_id c) = test_id.
Proof.
  intros Hcomma Hhead. unfold test_id_of.
  rewrite first_field_truncates, strip_row by exact Hhead.
  simpl. now apply truncate_at_app_sep.
Qed.

Lemma map_fst_combine {A B} (l : list A) (l' : list B) :
  map fst (combine l l') = firstn (length l') l.
Proof.
  revert l'. induction l as [|a l IH]; intros [|b l']; simpl; auto.
  now rewrite IH.
Qed.

Lemma ids_of_rows (ids : list text) (cs : list Z) :
  Forall (fun test_id => ~ In COMMA test_id
                         /\ forall d r, test_id = d :: r -> isspace d = false)
         ids ->
  map test_id_of (map (fun '(test_id, c) => row test_id c) (combine ids cs))
  = firstn (length cs) ids.
Proof.
  intros H. rewrite <- map_fst_combine, map_map.
  apply map_ext_in. intros [test_id c] Hin. simpl.
  apply in_combine_l in Hin.
  rewrite Forall_forall in H. destruct (H _ Hin) as [H1 H2].
  now apply test_id_of_row.
Qed.

Lemma id_list_good (test_csv : text) :
  Forall (fun test_id => ~ In COMMA test_id
                         /\ forall d r, test_id = d :: r -> isspace d = false)
         (id_list test_csv).
Proof.
  rewrite id_list_lines. apply Forall_map, Forall_forall.
  intros line _. split; [apply test_id_without_comma|].
  intros d r. apply test_id_head.
Qed.

(** X4: [submission.csv] read back the way the cell reads [test.csv]
    (first line skipped, each line stripped and cut at its first comma)
    gives the ids of [test.csv] again, as many as there are predicted
    classes. *)
Theorem submission_ids_read_back (test_csv : text) (classes : list (list Z)) :
  id_list (submission test_csv classes)
  = firstn (length (ravel classes)) (id_list test_csv).
Proof.
  rewrite (id_list_lines (submission test_csv classes)).
  rewrite submission_file_lines. simpl tl. unfold rows_of.
  apply ids_of_rows, id_list_good.
Qed.

(** ** Line ends *)

Lemma universal_newlines_crlf (s : text) :
  ~ In CR s -> universal_newlines (crlf s) = s.
Proof.
  induction s as [|c s IH]; intros H; [reflexivity|].
  simpl in H. unfold crlf. simpl flat_map. fold (crlf s).
  destruct (N.eqb_spec c LF) as [->|Hlf].
  - simpl. f_equal. apply IH. tauto.
  - simpl. destruct (N.eqb_spec c CR) as [->|Hcr]; [tauto|].
    f_equal. apply IH. tauto.
Qed.

Lemma universal_newlines_cr (s : text) :
  ~ In CR s -> universal_newlines (cr s) = s.
Proof.
  induction s as [|c s IH]; intros H; [reflexivity|].
  simpl in H. assert (Hs : ~ In CR s) by tauto. specialize (IH Hs).
  unfold cr in *. simpl map.
  destruct (N.eqb_spec c LF) as [->|Hlf].
  - simpl. f_equal. destruct s as [|d s']; [reflexivity|].
    simpl map in *. destruct (N.eqb_spec d LF) as [->|Hd].
    + exact IH.
    + assert (Hd' : (d =? LF)%N = false) by now apply N.eqb_neq.
      rewrite Hd'. exact IH.
  - simpl. destruct (N.eqb_spec c CR) as [->|Hcr]; [tauto|].
    now f_equal.
Qed.

(** X5: the line ends of [test.csv] do not matter: the same file with
    Windows line ends (["\r\n"]) or with old Mac line ends (["\r"]) gives
    the same [submission.csv], which itself has ["\n"] line ends only. *)
Theorem submission_ignores_line_ends (test_csv : text) (classes : list (list Z)) :
  ~ In CR test_csv ->
  submission (crlf test_csv) classes = submission test_csv classes
  /\ submission (cr test_csv) classes = submission test_csv classes.
Proof.
  intros H. unfold submission, id_list.
  now rewrite universal_newlines_crlf, universal_newlines_cr,
    universal_newlines_id.
Qed.

Lemma submission_ignores_line_ends_sample :
  submission (crlf sample_test_csv) sample_classes
  = submission sample_test_csv sample_classes
  /\ submission (cr sample_test_csv) sample_classes
     = submission sample_test_csv sample_classes.
Proof.
  apply (@submission_ignores_line_ends sample_test_csv sample_classes).
  vm_compute. intros H. repeat (destruct H as [H|H]; [discriminate H|]).
  exact H.
Defined.

(** ** Blank lines and empty inputs *)

Lemma submission_row_nth (test_csv : text) (classes : list (list Z)) (i : nat) :
  i < length (tl (file_lines test_csv)) ->
  i < length (ravel classes) ->
  nth i (tl (file_lines (submission test_csv classes))) []
  = row (test_id_of (nth (S i) (file_lines test_csv) []))
        (nth i (ravel classes) 0%Z).
Proof.
  intros Hi Hc. rewrite submission_file_lines. simpl tl. unfold rows_of.
  assert (Hi' : i < length (id_list test_csv))
    by now rewrite id_list_lines, length_map.
  rewrite (nth_indep _ [] (row [] 0%Z))
    by (rewrite length_map, length_combine; lia).
  rewrite (map_nth (fun '(test_id, c) => row test_id c) _ ([], 0%Z)).
  rewrite nth_combine by assumption.
  rewrite id_list_lines.
  rewrite (nth_indep _ [] (test_id_of [])) by now rewrite length_map.
  now rewrite map_nth, nth_tl.
Qed.

(** X6: a blank line of [test.csv] is not skipped: the row written for
    it has an empty id, and is a comma, the class and the line end. *)
Theorem blank_line_gives_empty_id (test_csv : text) (classes : list (list Z))
    (i : nat) :
  i < length (tl (file_lines test_csv)) ->
  i < length (ravel classes) ->
  blank (nth (S i) (file_lines test_csv) []) = true ->
  nth i (tl (file_lines (submission test_csv classes))) []
  = [COMMA] ++ str_int (nth i (ravel classes) 0%Z) ++ [LF].
Proof.
  intros Hi Hc Hb. rewrite submission_row_nth by assumption.
  unfold test_id_of. now rewrite strip_blank.
Qed.

Lemma blank_line_gives_empty_id_sample :
  nth 1 (tl (file_lines (submission test_csv_with_blank_line sample_classes))) []
  = str ",1" ++ [LF].
Proof.
  rewrite (@blank_line_gives_empty_id test_csv_with_blank_line sample_classes 1);
    [reflexivity | vm_compute; lia | vm_compute; lia | reflexivity].
Defined.

(** X7: with nothing to pair, the file is the header alone: when
    [test.csv] is empty or has its first line only, or when there is no
    predicted class, [submission.csv] is ["PassengerId,Survived\n"]. *)
Theorem submission_of_nothing (test_csv : text) (classes : list (list Z)) :
  tl (file_lines test_csv) = [] \/ ravel classes = [] ->
  submission test_csv classes = header.
Proof.
  intros H. unfold submission. rewrite write_submission_text.
  unfold rows_of. rewrite id_list_lines.
  destruct H as [-> | ->].
  - reflexivity.
  - rewrite combine_nil. reflexivity.
Qed.

Lemma submission_of_nothing_sample :
  submission [] sample_classes = header
  /\ submission (str "PassengerId,Pclass") sample_classes = header
  /\ submission sample_test_csv [] = header.
Proof.
  split; [|split].
  - apply (@submission_of_nothing [] sample_classes). left. reflexivity.
  - apply (@submission_of_nothing (str "PassengerId,Pclass") sample_classes).
    left. reflexivity.
  - apply (@submission_of_nothing sample_test_csv []). right. reflexivity.
Defined.

End RoundTrip.

(* ================================================================== *)
(** * Reasoning about all runs *)
(* ================================================================== *)

Module CheckFacts.
Import PyStr Py Check.
Local Open Scope string_scope.
Local Open Scope list_scope.

(** ** Runs *)

Lemma run_ask {A} (W : world) (w : state W) (q : request) (k : result -> prog A) :
  run W w (Ask q k)
  = (let (r, w') := answer W w q in
     let '(t, o, w'') := run W w' (k r) in ((q, r) :: t, o, w'')).
Proof. reflexivity. Qed.

Lemma trace_ask {A} (W : world) (w : state W) (q : request) (k : result -> prog A) :
  trace W w (Ask q k)
  = (q, fst (answer W w q)) :: trace W (snd (answer W w q)) (k (fst (answer W w q))).
Proof.
  unfold trace. rewrite run_ask. destruct (answer W w q) as [r w']. simpl.
  destruct (run W w' (k r)) as [[t o] w'']. reflexivity.
Qed.

Lemma result_ask {A} (W : world) (w : state W) (q : request) (k : result -> prog A) :
  result_of W w (Ask q k)
  = result_of W (snd (answer W w q)) (k (fst (answer W w q))).
Proof.
  unfold result_of. rewrite run_ask. destruct (answer W w q) as [r w']. simpl.
  destruct (run W w' (k r)) as [[t o] w'']. reflexivity.
Qed.

(** ** Soundness of [accepts] *)

Theorem accepts_sound {A} (C : checker) (Q : memory C -> outcome A -> Prop)
    (p : prog A) (s : memory C) :
  accepts C Q s p ->
  forall (W : world) (w : state W),
    lawful C s (trace W w p) /\ Q (after C s (trace W w p)) (result_of W w p).
Proof.
  revert s. induction p as [a|e|q k IH]; intros s H W w.
  - split; [exact I | exact H].
  - split; [exact I | exact H].
  - rewrite trace_ask, result_ask.
    destruct (H (fst (answer W w q))) as [Hq Hk].
    destruct (IH _ _ Hk W (snd (answer W w q))) as [L F].
    split; [split; assumption | exact F].
Qed.

(** What is allowed at a position of a lawful trace. *)
Lemma lawful_at (C : checker) (before later : list event) (e : event)
    (s : memory C) :
  lawful C s (before ++ e :: later) -> allowed C (after C s before) e.
Proof.
  revert s. induction before as [|b bs IH]; intros s H.
  - exact (proj1 H).
  - destruct H as [_ H]. apply IH in H. exact H.
Qed.

(** ** Rules *)

Lemma accepts_weaken {A} (C : checker) (Q Q' : memory C -> outcome A -> Prop)
    (p : prog A) (s : memory C) :
  (forall s' o, Q s' o -> Q' s' o) -> accepts C Q s p -> accepts C Q' s p.
Proof.
  intros HQ. revert s. induction p as [a|e|q k IH]; intros s H; simpl in *; auto.
  intros r. destruct (H r) as [Hq Hk]. split; auto.
Qed.

Lemma accepts_bind {A B} (C : checker) (Q : memory C -> outcome B -> Prop)
    (p : prog A) (f : A -> prog B) (s : memory C) :
  accepts C (post (fun s' a => accepts C Q s' (f a)) (fun s' e => Q s' (Failed e))) s p ->
  accepts C Q s (bind p f).
Proof.
  revert s. induction p as [a|e|q k IH]; intros s H; simpl in *; auto.
  intros r. destruct (H r) as [Hq Hk]. split; auto.
Qed.

Lemma accepts_ask (C : checker) (Q : memory C -> outcome value -> Prop)
    (q : request) (s : memory C) :
  (forall r, allowed C s (q, r)) ->
  (forall v, Q (advance C s (q, Returned v)) (Done v)) ->
  (forall name, Q (advance C s (q, Raised name)) (Failed (External name))) ->
  accepts C Q s (ask q).
Proof.
  intros Ha Hv Hn r. split; [apply Ha|]. destruct r; simpl; auto.
Qed.

Lemma accepts_finally {A} (C : checker) (Q : memory C -> outcome A -> Prop)
    (p : prog A) (cleanup : prog value) (s : memory C) :
  accepts C (fun s' o =>
               accepts C (post (fun s'' _ => Q s'' o)
                               (fun s'' e => Q s'' (Failed e))) s' cleanup) s p ->
  accepts C Q s (finally p cleanup).
Proof.
  revert s. induction p as [a|e|q k IH]; intros s H; simpl in *.
  - apply accepts_bind. exact H.
  - apply accepts_bind. exact H.
  - intros r. destruct (H r) as [Hq Hk]. split; auto.
Qed.

Lemma accepts_for_each {X} (C : checker) (Q : memory C -> outcome unit -> Prop)
    (J : list X -> memory C -> Prop) (body : X -> prog unit) (l : list X)
    (s : memory C) :
  J l s ->
  (forall x r s', J (x :: r) s' ->
     accepts C (post (fun s'' _ => J r s'') (fun s'' e => Q s'' (Failed e))) s' (body x)) ->
  (forall s', J [] s' -> Q s' (Done tt)) ->
  accepts C Q s (for_each l body).
Proof.
  intros HJ Hbody Hend. revert s HJ.
  induction l as [|x r IH]; intros s HJ; simpl.
  - now apply Hend.
  - apply accepts_bind. eapply accepts_weaken; [|apply Hbody; exact HJ].
    intros s' [[]|e] H; simpl in *; auto.
Qed.


(** ** The operations that ask the world only when they must *)

(** A subscript that is not an integer is answered by the object. *)
Ltac unfold_subscripts :=
  repeat match goal with
         | |- context [subscript ?v (VName ?n)] =>
             change (subscript v (VName n)) with (ask (GetItem v (VName n)))
         | |- context [subscript ?v (VSlice ?n)] =>
             change (subscript v (VSlice n)) with (ask (GetItem v (VSlice n)))
         | |- context [subscript ?v (VStr ?n)] =>
             change (subscript v (VStr n)) with (ask (GetItem v (VStr n)))
         | |- context [subscript ?v (Str ?n)] =>
             change (subscript v (Str n)) with (ask (GetItem v (Str n)))
         end.

Lemma list_index_In {X} (l : list X) (z : Z) (x : X) :
  list_index l z = Some x -> In x l.
Proof.
  unfold list_index.
  destruct (0 <=? z)%Z; [apply nth_error_In|].
  destruct (Z.of_nat (length l) + z <? 0)%Z; [discriminate | apply nth_error_In].
Qed.

Lemma accepts_subscript (C : checker) (Q : memory C -> outcome value -> Prop)
    (s : memory C) (v key : value) :
  (forall l x, v = VList l \/ v = VTuple l -> In x l -> Q s (Done x)) ->
  Q s (Failed (Interp "IndexError")) ->
  accepts C Q s (ask (GetItem v key)) ->
  accepts C Q s (subscript v key).
Proof.
  intros Hpure Herr Hask. unfold subscript.
  destruct key; try exact Hask.
  destruct v; try exact Hask.
  - destruct (list_index items z) eqn:E; simpl; [|exact Herr].
    eapply Hpure; [now left | eapply list_index_In; eauto].
  - destruct (list_index items z) eqn:E; simpl; [|exact Herr].
    eapply Hpure; [now right | eapply list_index_In; eauto].
Qed.

Lemma accepts_elements (C : checker) (Q : memory C -> outcome (list value) -> Prop)
    (s : memory C) (v : value) :
  (forall l, v = VList l \/ v = VTuple l -> Q s (Done l)) ->
  (forall r, allowed C s (Elements v, r)) ->
  (forall u l, u = VList l \/ u = VTuple l ->
               Q (advance C s (Elements v, Returned u)) (Done l)) ->
  (forall u, Q (advance C s (Elements v, Returned u)) (Failed (Interp "TypeError"))) ->
  (forall name, Q (advance C s (Elements v, Raised name)) (Failed (External name))) ->
  accepts C Q s (elements v).
Proof.
  intros Hpure Hall Hgot Htype Hraise. unfold elements.
  destruct v; try (apply Hpure; auto; fail);
    (intros r; split; [apply Hall|]; destruct r as [u|name]; simpl;
     [destruct u; simpl; auto | apply Hraise]).
Qed.




(** ** Programs whose requests are all of one kind *)

Section AsksOnly.

Variable R : request -> Prop.

Lemma asks_only_ask (q : request) : R q -> asks_only R (ask q).
Proof. intros H. split; [exact H|]. intros [v|name]; exact I. Qed.

Lemma asks_only_call (callee : string) (args : list value) (kw : kwargs) :
  R (Call callee args kw) -> asks_only R (call callee args kw).
Proof. apply asks_only_ask. Qed.

Lemma asks_only_invoke (self : value) (method : string) (args : list value)
    (kw : kwargs) :
  R (Invoke self method args kw) -> asks_only R (invoke self method args kw).
Proof. apply asks_only_ask. Qed.

Lemma asks_only_getattr (self : value) (name : string) :
  R (GetAttr self name) -> asks_only R (getattr self name).
Proof. apply asks_only_ask. Qed.

Lemma asks_only_ret {A} (a : A) : asks_only R (Ret a).
Proof. exact I. Qed.

Lemma asks_only_raise {A} (e : exn) : asks_only R (@Raise A e).
Proof. exact I. Qed.

Lemma asks_only_bind {A B} (p : prog A) (f : A -> prog B) :
  asks_only R p -> (forall a, asks_only R (f a)) -> asks_only R (bind p f).
Proof.
  intros Hp Hf. induction p as [a|e|q k IH]; simpl in *; auto.
  destruct Hp as [Hq Hk]. split; auto.
Qed.

Lemma asks_only_finally {A} (p : prog A) (cleanup : prog value) :
  asks_only R p -> asks_only R cleanup -> asks_only R (finally p cleanup).
Proof.
  intros Hp Hc. induction p as [a|e|q k IH]; simpl in *.
  - apply asks_only_bind; [exact Hc | intros; exact I].
  - apply asks_only_bind; [exact Hc | intros; exact I].
  - destruct Hp as [Hq Hk]. split; auto.
Qed.

Lemma asks_only_with_open {A} (path mode : value) (body : value -> prog A) :
  R (Call "open" [path; mode] []) ->
  (forall f, R (Invoke f "close" [] [])) ->
  (forall f, asks_only R (body f)) ->
  asks_only R (with_open path mode body).
Proof.
  intros Ho Hc Hb. unfold with_open.
  apply asks_only_bind; [now apply asks_only_call|].
  intros f. apply asks_only_finally; [apply Hb | apply asks_only_invoke, Hc].
Qed.

Lemma asks_only_for_each {X} (body : X -> prog unit) (l : list X) :
  (forall x, asks_only R (body x)) -> asks_only R (for_each l body).
Proof.
  intros Hb. induction l as [|x r IH]; simpl; [exact I|].
  apply asks_only_bind; auto.
Qed.

Lemma asks_only_comprehension {X Y} (f : X -> prog Y) (l : list X) :
  (forall x, asks_only R (f x)) -> asks_only R (comprehension f l).
Proof.
  intros Hf. induction l as [|x r IH]; simpl; [exact I|].
  apply asks_only_bind; [apply Hf|]. intros y.
  apply asks_only_bind; [exact IH | intros; exact I].
Qed.

Lemma asks_only_subscript (v key : value) :
  R (GetItem v key) -> asks_only R (subscript v key).
Proof.
  intros H. unfold subscript.
  destruct key; try (now apply asks_only_ask).
  destruct v; try (now apply asks_only_ask);
    destruct (list_index items z); exact I.
Qed.

Lemma asks_only_elements (v : value) :
  R (Elements v) -> asks_only R (elements v).
Proof.
  intros H. unfold elements.
  destruct v; try exact I;
    (split; [exact H|]; intros [u|name]; simpl; [destruct u|]; exact I).
Qed.

Lemma asks_only_strip (v : value) :
  R (Invoke v "strip" [] []) -> asks_only R (strip_ v).
Proof.
  intros H. destruct v; try exact I; now apply asks_only_invoke.
Qed.

Lemma asks_only_split_comma (v : value) :
  R (Invoke v "split" [Str ","] []) -> asks_only R (split_comma v).
Proof.
  intros H. destruct v; try exact I; now apply asks_only_invoke.
Qed.

Lemma asks_only_format (v : value) :
  R (Format v) -> asks_only R (format_ v).
Proof.
  intros H. unfold format_.
  destruct v; try exact I; try (destruct b; exact I);
    (split; [exact H|]; intros [u|name]; simpl; [destruct u|]; exact I).
Qed.

End AsksOnly.

(** Splits an [asks_only] goal along the structure of the program; what is
    left are the conditions on the single requests. *)
Ltac asks_step :=
  lazymatch goal with
  | |- asks_only _ (bind _ _) => apply asks_only_bind; [|intros ?]
  | |- asks_only _ (with_open _ _ _) =>
      apply asks_only_with_open; [| intros ? | intros ?]
  | |- asks_only _ (finally _ _) => apply asks_only_finally
  | |- asks_only _ (for_each _ _) => apply asks_only_for_each; intros ?
  | |- asks_only _ (comprehension _ _) => apply asks_only_comprehension; intros ?
  | |- asks_only _ (subscript _ _) => apply asks_only_subscript
  | |- asks_only _ (elements _) => apply asks_only_elements
  | |- asks_only _ (strip_ _) => apply asks_only_strip
  | |- asks_only _ (split_comma _) => apply asks_only_split_comma
  | |- asks_only _ (format_ _) => apply asks_only_format
  | |- asks_only _ (call _ _ _) => apply asks_only_call
  | |- asks_only _ (invoke _ _ _ _) => apply asks_only_invoke
  | |- asks_only _ (getattr _ _) => apply asks_only_getattr
  | |- asks_only _ (ask _) => apply asks_only_ask
  | |- asks_only _ (Ask _ _) => split; [|intros [?|?]; cbn [bind]]
  | |- asks_only _ (Ret _) => exact I
  | |- asks_only _ (Raise _) => exact I
  | |- asks_only _ (match ?x with _ => _ end) => destruct x
  | |- asks_only _ (if ?b then _ else _) => destruct b
  end.

Ltac asks := repeat asks_step.

(** A property of the memory that requests of kind [R] keep holds
    throughout a program that asks nothing else. *)
Lemma accepts_invariant {A} (C : checker) (R : request -> Prop)
    (J : memory C -> Prop) (p : prog A) (s : memory C) :
  asks_only R p ->
  (forall s' q r, J s' -> R q -> allowed C s' (q, r) /\ J (advance C s' (q, r))) ->
  J s -> accepts C (fun s' _ => J s') s p.
Proof.
  intros Hp Hstep. revert s Hp.
  induction p as [a|e|q k IH]; intros s Hp Hs; simpl; auto.
  destruct Hp as [Hq Hk]. intros r.
  destruct (Hstep s q r Hs Hq) as [Ha HJ]. split; auto.
Qed.

(** What a program asks only, its runs ask only. *)
Lemma asks_only_trace {A} (R : request -> Prop) (p : prog A)
    (W : world) (w : state W) :
  asks_only R p -> Forall (fun e => R (fst e)) (trace W w p).
Proof.
  revert w. induction p as [a|e|q k IH]; intros w Hp.
  - constructor.
  - constructor.
  - rewrite trace_ask. destruct Hp as [Hq Hk]. constructor; auto.
Qed.

End CheckFacts.

(* ================================================================== *)
(** * Exceptions: what the notebooks and the script raise and catch *)
(* ================================================================== *)

Module ExceptionFacts.
Import PyStr Py Check CheckFacts.
Local Open Scope string_scope.
Local Open Scope list_scope.

(** Symbolic execution of straight-line code: one request at a time, both
    answers of the world considered. *)
Ltac unfold_ops :=
  cbn [accepts bind ask call invoke getattr post
       calm assert_ allowed advance raised_checker];
  unfold_subscripts;
  cbn [accepts bind ask call invoke getattr post
       calm assert_ allowed advance raised_checker].

Ltac calm_leaf :=
  first [ exact I
        | assumption
        | discriminate
        | solve [intros ? [=]]
        | solve [intros ? [= <-]; simpl; auto]
        | split; [calm_leaf | eexists; reflexivity] ].

Ltac answer_ :=
  unfold_ops;
  lazymatch goal with
  | |- forall r : result, _ => intros [?v|?name]; (split; [exact I|]); unfold_ops
  end.

Ltac straight := repeat answer_; unfold_ops; try calm_leaf.


Section Calm.

Variable expected : list string.









(** ** The Titanic notebook *)







(** ** The Iris notebook *)




End Calm.

(** ** The script *)





(** ** From the checker to the runs *)









(** And with no data it ends in the [AssertionError] of its first
    [assert]. *)
Lemma script_asserts_data :
  result_of Lab.scripted
            [Returned (VObj 0); Returned (VObj 1); Returned VNone]
            RunSklearn.main
  = Failed (Authored "AssertionError").
Proof. vm_compute. reflexivity. Qed.

End ExceptionFacts.

(* ================================================================== *)
(** * The order of the steps of the Titanic notebook *)
(* ================================================================== *)

Module OrderFacts.
Import PyStr Py Check CheckFacts.
Local Open Scope string_scope.
Local Open Scope list_scope.

Lemma steps_cons (e : event) (t : list event) :
  steps (e :: t)
  = match step_of (fst e) with Some k => [k] | None => [] end ++ steps t.
Proof. reflexivity. Qed.

(** What the checker allows is sorted. *)
Lemma lawful_order_sorted (t : list event) (s : nat) :
  lawful order_checker s t ->
  StronglySorted le (steps t) /\ Forall (fun k => s <= S k) (steps t).
Proof.
  revert s. induction t as [|e t IH]; intros s H.
  - split; constructor.
  - destruct H as [Ha Ht]. apply IH in Ht. destruct Ht as [Hsorted Hbound].
    rewrite steps_cons. simpl in *.
    destruct (step_of (fst e)) as [k|]; simpl.
    + split.
      * constructor; [exact Hsorted|].
        eapply Forall_impl; [|exact Hbound]. simpl. intros; lia.
      * constructor; [lia|].
        eapply Forall_impl; [|exact Hbound]. simpl. intros; lia.
    + split; assumption.
Qed.

(** Every step between the first and the last memory has happened. *)
Lemma lawful_order_complete (t : list event) (s : nat) :
  lawful order_checker s t ->
  forall j, s <= j < after order_checker s t -> In j (steps t).
Proof.
  revert s. induction t as [|e t IH]; intros s H j Hj.
  - simpl in Hj. lia.
  - destruct H as [Ha Ht]. rewrite steps_cons.
    unfold after in *. simpl in *.
    destruct (step_of (fst e)) as [k|]; simpl.
    + destruct (Nat.eq_dec j k) as [->|Hne]; [now left | right].
      apply (IH _ Ht). lia.
    + now apply (IH _ Ht).
Qed.

Ltac order_ops :=
  cbn [accepts bind ask call invoke getattr post allowed advance order_checker
       step_of fst String.eqb Ascii.eqb Bool.eqb];
  unfold_subscripts;
  cbn [accepts bind ask call invoke getattr post allowed advance order_checker
       step_of fst String.eqb Ascii.eqb Bool.eqb].

Ltac order_answer :=
  order_ops;
  lazymatch goal with
  | |- forall r : result, _ =>
      intros [?v|?name]; (split; [first [exact I | lia]|]); order_ops
  end.

(** Reading the ids is none of the four steps. *)
Lemma read_ids_no_step :
  asks_only (fun q => step_of q = None) Titanic.read_ids.
Proof.
  unfold Titanic.read_ids, Titanic.test_id_of. asks; reflexivity.
Qed.

(** After the header, the submission block only writes. *)
Lemma rows_only_write (f : value) (ids : list value) (classes : value) :
  asks_only (fun q => step_of q = None \/ step_of q = Some 3)
    (bind (invoke classes "ravel" [] [])
       (fun flat => bind (elements flat) (fun cs =>
          for_each (combine ids cs)
                   (fun '(test_id, c) => Titanic.write_row f test_id c)))).
Proof.
  unfold Titanic.write_row. asks; simpl; auto.
Qed.

Lemma write_submission_order (ids : list value) (classes : value) :
  accepts order_checker finished 3 (Titanic.write_submission ids classes).
Proof.
  unfold Titanic.write_submission, with_open.
  order_answer; [|exact I].
  apply accepts_finally.
  cbn [accepts bind ask invoke].
  intros [written|name]; (split; [simpl; lia|]); cbn [bind].
  - change (advance order_checker 3
              (Invoke v "write" [VStr Submission.header] [], Returned written))
      with 4.
    eapply accepts_weaken;
      [|apply (@accepts_invariant _ order_checker _ (fun s => s = 4) _ 4
                 (rows_only_write v ids classes))].
    + intros s' [[]|e] ->; order_answer; first [reflexivity | exact I].
    + intros s' q r -> [E|E]; simpl; rewrite E; split; auto.
    + reflexivity.
  - order_answer; exact I.
Qed.

Lemma cell9_order (classes : value) :
  accepts order_checker finished 3 (Titanic.cell9 classes).
Proof.
  unfold Titanic.cell9. apply accepts_bind.
  eapply accepts_weaken;
    [|apply (@accepts_invariant _ order_checker _ (fun s => s = 3) _ 3
               read_ids_no_step)].
  - intros s' [ids|e] ->; simpl; [apply write_submission_order | exact I].
  - intros s' q r -> E; simpl; rewrite E; split; auto.
  - reflexivity.
Qed.

Lemma notebook_order : accepts order_checker finished 0 Titanic.notebook.
Proof.
  unfold Titanic.notebook, Titanic.cell1, Titanic.cell2, Titanic.cell3,
    Titanic.build_config, Titanic.fit_model, Titanic.cell6, Titanic.cell7,
    Titanic.cell8, Titanic.predict.
  repeat (order_answer; [|exact I]).
  apply cell9_order.
Qed.

(** C4: in every run of the Titanic notebook the four steps (building the
    config with [cflearn.MLConfig], fitting with [cflearn.api.fit_ml],
    predicting with [m.predict], writing lines of the CSV file) happen in
    this order, none of them before an earlier one; and a run that
    completes has gone through all four. *)
Theorem titanic_steps_in_order (W : world) (w : state W) :
  StronglySorted le (steps (trace W w Titanic.notebook))
  /\ (result_of W w Titanic.notebook = Done tt ->
      incl [0; 1; 2; 3] (steps (trace W w Titanic.notebook))).
Proof.
  destruct (accepts_sound _ _ _ _ notebook_order W w) as [L F].
  split.
  - now apply lawful_order_sorted in L.
  - intros E. rewrite E in F. simpl in F.
    intros j Hj. apply (@lawful_order_complete _ _ L). rewrite F.
    simpl in Hj. lia.
Qed.

End OrderFacts.

(* ================================================================== *)
(** * The files the notebooks read and write *)
(* ================================================================== *)

Module FileFacts.
Import PyStr Py Check CheckFacts.
Local Open Scope string_scope.
Local Open Scope list_scope.

Lemma plain_allowed (s : memory file_checker) (q : request) (r : result) :
  plain q -> allowed file_checker s (q, r).
Proof.
  unfold plain. simpl. destruct (file_used q) as [[path|path]|]; auto.
Qed.

Lemma plain_accepts {A} (p : prog A) (s : memory file_checker) :
  asks_only plain p -> accepts file_checker (@anything file_checker _) s p.
Proof.
  intros H.
  apply (@accepts_invariant _ file_checker plain (fun _ => True) p s H);
    [|exact I].
  intros s' q r _ Hq. split; [now apply plain_allowed | exact I].
Qed.

Ltac plainly := asks; try (cbv [plain]; simpl; auto 10; fail).

(** Sequencing: the first part is plain. *)
Ltac plain_then :=
  apply accepts_bind; eapply accepts_weaken;
  [| apply plain_accepts; plainly ];
  intros ? [?|?] _; [|exact I]; cbn [post].

Lemma titanic_plain : asks_only plain Titanic.notebook.
Proof.
  unfold Titanic.notebook, Titanic.cell1, Titanic.cell2, Titanic.cell3,
    Titanic.build_config, Titanic.fit_model, Titanic.cell6, Titanic.cell7,
    Titanic.cell8, Titanic.predict, Titanic.cell9, Titanic.read_ids,
    Titanic.write_submission, Titanic.write_row, Titanic.test_id_of.
  plainly.
Qed.

(** The pickled model is opened at the path just joined. *)
Lemma load_sklearn_files (config pipelines workspace model : value)
    (s : memory file_checker) :
  accepts file_checker (@anything file_checker _) s
          (Iris.load_sklearn config pipelines workspace model).
Proof.
  unfold Iris.load_sklearn, with_open.
  cbn [accepts bind ask call]. intros [model_file|name]; cbn [bind].
  - split; [apply plain_allowed; exact I|].
    cbn [accepts ask]. intros r. split.
    + right. split; [reflexivity|]. eexists. split; [reflexivity|].
      now exists workspace.
    + destruct r as [f|name]; cbn [bind]; [|exact I].
      apply plain_accepts. plainly.
  - split; [apply plain_allowed; exact I | exact I].
Qed.

Lemma cell21_files (config results : value) (s : memory file_checker) :
  accepts file_checker (@anything file_checker _) s (Iris.cell21 config results).
Proof.
  unfold Iris.cell21. do 5 plain_then.
  apply accepts_bind.
  apply accepts_for_each with (J := fun _ _ => True); [exact I| |intros; exact I].
  intros [workspace workspace_key] rest ? _.
  apply accepts_bind. eapply accepts_weaken; [|apply plain_accepts; plainly].
  intros ? [model|e] _; [|exact I]. cbn [post].
  destruct (in_strs _ _); [|exact I].
  eapply accepts_weaken; [|apply load_sklearn_files].
  intros ? [[]|?] _; exact I.
Qed.

Lemma iris_files : accepts file_checker (@anything file_checker _) None Iris.notebook.
Proof.
  unfold Iris.notebook, Iris.cell1, Iris.cell3, Iris.cell5, Iris.cell7,
    Iris.cell9, Iris.cell11, Iris.cell13, Iris.cell15, Iris.cell17,
    Iris.cell19, Iris.cell23, Iris.print_mean_std, Iris.repeat_ml,
    Iris.load_and_evaluate.
  plain_then. plain_then.
  match goal with a : (value * value)%type |- _ => destruct a as [config m] end.
  do 8 plain_then.
  apply accepts_bind. eapply accepts_weaken; [|apply cell21_files].
  intros ? [pipelines|?] _; [|exact I]. cbn [post].
  apply plain_accepts. plainly.
Qed.

(** ** From the checker to the traces *)

Lemma lawful_file_at (before later : list event) (e : event)
    (prev : memory file_checker) :
  lawful file_checker prev (before ++ e :: later) ->
  allowed file_checker
          (match rev before with e' :: _ => Some e' | [] => prev end) e.
Proof.
  revert prev. induction before as [|b bs IH]; intros prev H.
  - exact (proj1 H).
  - destruct H as [_ H]. apply IH in H. simpl rev.
    destruct (rev bs) as [|e' l]; exact H.
Qed.

Lemma lawful_file_design (t : list event) :
  lawful file_checker None t -> file_uses_as_designed t.
Proof.
  intros H before q r later ->. apply lawful_file_at in H.
  simpl in H. destruct (file_used q) as [[path|path]|]; auto.
  destruct H as [H|[Hq [e' [Hprev [workspace He']]]]]; [now left | right].
  split; [exact Hq|].
  destruct (@rev event before) as [|e'' l] eqn:E; [discriminate|].
  injection Hprev as ->. exists (rev l), workspace.
  rewrite <- He'. rewrite <- (rev_involutive before).
  change (rev (@rev event before) = rev l ++ [e']). now rewrite E.
Qed.

(** The claim C5 fails on the Iris notebook: run after an experiment
    that has trained a decision tree, it opens the pickled model
    [_experiment/decision_tree/0/sk_model.pkl] for reading, which is none
    of the three input files. *)
Lemma iris_reads_pickled_model :
  ~ reads_only known_inputs (trace Lab.the_lab Lab.iris_lab Iris.notebook).
Proof.
  intros H.
  assert (E : exists h,
             In (Call "open" [Str "_experiment/decision_tree/0/sk_model.pkl";
                              Str "rb"] [],
                 Returned (VObj h))
                (trace Lab.the_lab Lab.iris_lab Iris.notebook)).
  { eexists. vm_compute. do 49 right. left. reflexivity. }
  destruct E as [h E].
  pose proof (H _ _ (Str "_experiment/decision_tree/0/sk_model.pkl") E eq_refl) as K.
  vm_compute in K. destruct K as [K|[K|[K|[]]]]; discriminate K.
Qed.

End FileFacts.

(* ================================================================== *)
(** * What the notebooks hand to the framework *)
(* ================================================================== *)

Module OriginFacts.
Import PyStr Py Check CheckFacts.
Local Open Scope string_scope.
Local Open Scope list_scope.

(** ** The unpickled models *)








(** ** Where the objects come from *)



Lemma known_value_mono (k k' : list N) (v : value) :
  incl k k' -> known_value k v -> known_value k' v.
Proof. unfold known_value. eauto using incl_tran. Qed.

Lemma known_values_mono (k k' : list N) (vs : list value) :
  incl k k' -> known_values k vs -> known_values k' vs.
Proof.
  intros H. apply Forall_impl. intros v. now apply known_value_mono.
Qed.














(** Knowledge is kept along a chain of inclusions. *)
Ltac known :=
  first [ assumption
        | apply incl_refl
        | solve [unfold known_value in *;
                 cbn [handles handles_of flat_map app Str dict] in *;
                 first [apply incl_nil_l | eauto 8 using incl_tran, incl_refl]]
        | solve [eapply known_values_mono; [|eassumption];
                 eauto 8 using incl_tran, incl_refl] ].



(** ** The submission cell *)







(** ** The notebooks *)







(** ** From the checkers to the traces *)








End OriginFacts.

(* ================================================================== *)
(** * How many calls an operation makes *)
(* ================================================================== *)

Module CallFacts.
Import PyStr Py Check CheckFacts.
Local Open Scope string_scope.
Local Open Scope list_scope.

(** Runs a short straight-line program against an arbitrary world. *)
Ltac answers :=
  unfold trace, result_of; simpl;
  repeat (match goal with
          | |- context [answer ?W ?w ?q] =>
              destruct (answer W w q) as [[?v|?name] ?w]; simpl
          end).

Ltac script_done k :=
  exists k; split; [reflexivity|];
  split; [intros; reflexivity | simpl; intros; lia].

Ltac script_at k :=
  exists k; split; [reflexivity|];
  split; [intros ? [=]; reflexivity | simpl; intros ?; try lia; eexists; reflexivity].

Lemma fit_model_single (data config : value) :
  single_call (Titanic.fit_model data config).
Proof. intros W w. unfold Titanic.fit_model, call, ask. answers; reflexivity. Qed.

Lemma fit_model_follows (data config : value) :
  follows ["cflearn.api.fit_ml"] (Titanic.fit_model data config).
Proof.
  intros W w. unfold Titanic.fit_model, call, ask. answers.
  - script_done 1.
  - script_at 1.
Qed.

Lemma build_config_follows (data : value) :
  follows [".num_features"; "cflearn.MLGlobalEncoderSettings"; "cflearn.MLConfig"]
          (Titanic.build_config data).
Proof.
  intros W w. unfold Titanic.build_config, getattr, call, ask. answers.
  - script_done 3.
  - script_at 3.
  - script_at 2.
  - script_at 1.
Qed.

Lemma predict_follows (m loader : value) (kw : kwargs) :
  follows [".predict"; "[]"] (Titanic.predict m loader kw).
Proof.
  intros W w. unfold Titanic.predict, invoke, ask. unfold_subscripts.
  unfold ask. answers.
  - script_done 2.
  - script_at 2.
  - script_at 1.
Qed.

(** ** The submission cell is a loop *)

Lemma other_accepts {A} (p : prog A) (b : Z) :
  asks_only other_request p -> accepts balance_checker (balanced b) b p.
Proof.
  intros H. eapply accepts_weaken;
    [|apply (@accepts_invariant _ balance_checker other_request
               (fun b' => b' = b) p b H)].
  - intros b' [a|e] E; simpl; auto.
  - intros b' q r -> [E1 E2]. split; [exact I|]. simpl. now rewrite E1, E2.
  - reflexivity.
Qed.

Ltac others := asks; try (split; reflexivity).

Ltac other_then :=
  apply accepts_bind; eapply accepts_weaken;
  [| apply other_accepts; others ];
  intros ? [?|?]; [intros -> | intros _; exact I]; cbn [post].

Lemma write_row_balance (f test_id c : value) :
  accepts balance_checker (balanced 1) 1%Z (Titanic.write_row f test_id c).
Proof.
  unfold Titanic.write_row. other_then.
  unfold invoke. cbn [accepts bind ask].
  intros [v|name]; (split; [exact I|]); cbn [bind]; [|exact I].
  change (advance balance_checker 1%Z (Invoke c "item" [] [], Returned v)) with 0%Z.
  other_then.
  cbn [accepts bind ask].
  intros [w|name]; (split; [exact I|]); cbn [bind]; [|exact I].
  reflexivity.
Qed.

Lemma balance_with_open {A} (path mode : value) (body : value -> prog A)
    (b b' : Z) :
  (forall f, accepts balance_checker (balanced b') b (body f)) ->
  accepts balance_checker (balanced b') b (with_open path mode body).
Proof.
  intros Hbody. unfold with_open, call, invoke. cbn [accepts bind ask].
  intros [f|name]; (split; [exact I|]); cbn [bind]; [|exact I].
  change (advance balance_checker b (Call "open" [path; mode] [], Returned f))
    with b.
  apply accepts_finally. eapply accepts_weaken; [|apply Hbody].
  intros b'' [a|e] H; simpl in H; intros [v|name];
    (split; [exact I|]); simpl; auto.
Qed.

Lemma write_submission_balance (ids : list value) (classes : value) :
  accepts balance_checker (balanced 1) 0%Z (Titanic.write_submission ids classes).
Proof.
  unfold Titanic.write_submission. apply balance_with_open. intros f.
  unfold invoke at 1. cbn [accepts bind ask].
  intros [v|name]; (split; [exact I|]); cbn [bind]; [|exact I].
  change (advance balance_checker 0%Z
            (Invoke f "write" [VStr Submission.header] [], Returned v)) with 1%Z.
  other_then. other_then.
  apply accepts_for_each with (J := fun _ b => b = 1%Z); [reflexivity| |auto].
  intros [test_id c] rest b' ->.
  eapply accepts_weaken; [|apply write_row_balance].
  intros b'' [[]|e] H; exact H.
Qed.

Lemma read_ids_balance :
  accepts balance_checker (balanced 0) 0%Z Titanic.read_ids.
Proof.
  unfold Titanic.read_ids, Titanic.test_id_of.
  apply other_accepts. others.
Qed.

Lemma cell9_balance (classes : value) :
  accepts balance_checker (balanced 1) 0%Z (Titanic.cell9 classes).
Proof.
  unfold Titanic.cell9. apply accepts_bind.
  eapply accepts_weaken; [|apply read_ids_balance].
  intros b [ids|e]; simpl; [intros ->; apply write_submission_balance | auto].
Qed.

Lemma count_cons (name : string) (e : event) (t : list event) :
  count name (e :: t)
  = (if name =? label (fst e) then 1 else 0) + count name t.
Proof.
  unfold count, labels. cbn [map filter].
  destruct (name =? label (fst e)); reflexivity.
Qed.

Lemma after_balance (t : list event) (b : Z) :
  after balance_checker b t
  = (b + Z.of_nat (count ".write" t) - Z.of_nat (count ".item" t))%Z.
Proof.
  revert b. induction t as [|e t IH]; intros b.
  - unfold after, count. simpl. lia.
  - change (after balance_checker b (e :: t))
      with (after balance_checker (advance balance_checker b e) t).
    rewrite IH, !count_cons. cbn [advance balance_checker].
    rewrite (String.eqb_sym ".write"), (String.eqb_sym ".item").
    destruct (label (fst e) =? ".write") eqn:E1.
    + apply String.eqb_eq in E1. rewrite E1.
      change (".write" =? ".item") with false. cbv beta iota. lia.
    + destruct (label (fst e) =? ".item"); cbv beta iota; lia.
Qed.

End CallFacts.

(* ================================================================== *)
(** * Requests for parallel work *)
(* ================================================================== *)

Module JobFacts.
Import PyStr Py Check CheckFacts.
Local Open Scope string_scope.
Local Open Scope list_scope.

Lemma after_jobs (t : list event) (s : memory jobs_checker) :
  after jobs_checker s t = s ++ job_requests t.
Proof.
  unfold after, job_requests. revert s.
  induction t as [|[q r] t IH]; intros s; simpl.
  - now rewrite app_nil_r.
  - rewrite IH. destruct (asks_for_jobs q); [|reflexivity].
    now rewrite <- app_assoc.
Qed.

(** A program none of whose requests carries [num_jobs] leaves the
    memory as it is. *)
Lemma quiet_accepts {A} (p : prog A) (s : memory jobs_checker) :
  asks_only no_jobs p -> accepts jobs_checker (fun s' _ => s' = s) s p.
Proof.
  intros H.
  apply (@accepts_invariant _ jobs_checker no_jobs (fun s' => s' = s) p s H);
    [|reflexivity].
  intros s' q r -> Hq. split; [exact I|]. simpl. unfold no_jobs in Hq.
  now rewrite Hq.
Qed.

Ltac quiet := asks; try reflexivity.

Lemma titanic_quiet : asks_only no_jobs Titanic.notebook.
Proof.
  unfold Titanic.notebook, Titanic.cell1, Titanic.cell2, Titanic.cell3,
    Titanic.build_config, Titanic.fit_model, Titanic.cell6, Titanic.cell7,
    Titanic.cell8, Titanic.predict, Titanic.cell9, Titanic.read_ids,
    Titanic.write_submission, Titanic.write_row, Titanic.test_id_of.
  quiet.
Qed.

Lemma script_quiet : asks_only no_jobs RunSklearn.main.
Proof.
  unfold RunSklearn.main, RunSklearn.assert_not_none,
    RunSklearn.assert_ndarray, RunSklearn.choose_base, assert_.
  quiet.
Qed.

(** What follows the benchmark in the Iris notebook. *)
Lemma iris_rest_quiet (data config loader : value) :
  asks_only no_jobs
    (bind (Iris.cell17 data config) (fun experiment =>
     bind (Iris.cell19 experiment) (fun results =>
     bind (Iris.cell21 config results) (fun pipelines =>
     bind (Iris.cell23 loader pipelines) (fun _ => Ret tt))))).
Proof.
  unfold Iris.cell17, Iris.cell19, Iris.cell21, Iris.cell23,
    Iris.load_sklearn.
  quiet.
Qed.

(** Sequencing: the first part asks for no jobs. *)
Ltac quiet_then :=
  apply accepts_bind; eapply accepts_weaken;
  [| apply quiet_accepts; quiet ];
  intros ? [?|?] ->; cbn [post]; [| left; reflexivity ].

Lemma iris_jobs : accepts jobs_checker benchmarked [] Iris.notebook.
Proof.
  unfold Iris.notebook, Iris.cell1, Iris.cell3, Iris.cell5, Iris.cell7,
    Iris.cell9, Iris.cell11, Iris.cell13, Iris.cell15, Iris.print_mean_std,
    Iris.repeat_ml, Iris.load_and_evaluate.
  quiet_then. quiet_then.
  match goal with a : (value * value)%type |- _ => destruct a as [config m] end.
  do 5 quiet_then.
  apply accepts_bind. apply accepts_bind.
  eapply accepts_weaken; [| apply quiet_accepts; quiet ].
  intros ? [m_config|?] ->; cbn [post]; [| left; reflexivity ].
  cbn [accepts call ask]. intros r. split; [exact I|].
  destruct r as [results|name]; cbn [accepts post].
  - eapply accepts_weaken;
      [| apply quiet_accepts; apply iris_rest_quiet ].
    intros ? [[]|?] ->; cbn [benchmarked post]; [|right];
      do 2 eexists; reflexivity.
  - right. do 2 eexists. reflexivity.
Qed.

(** X12: the keyword [num_jobs], by which the framework is asked to run
    the repeated training in several processes, is carried by one
    request only.  In every run, whatever the outside world answers, no
    request of the Titanic notebook or of the [run_sklearn.py] script
    carries it; the requests of the Iris notebook that carry it are the
    one call
    [cflearn.api.repeat_ml(data, m.config, models=models, num_repeat=10, num_jobs=2)]
    of cell 15, or none when the run has failed before that cell; and a
    run of the Iris notebook that completes has made that call exactly
    once. *)
Theorem jobs_are_asked_for_by_one_keyword (W : world) (w : state W) :
  job_requests (trace W w Titanic.notebook) = []
  /\ job_requests (trace W w RunSklearn.main) = []
  /\ (job_requests (trace W w Iris.notebook) = []
      \/ exists data config,
           job_requests (trace W w Iris.notebook) = [benchmark data config])
  /\ (result_of W w Iris.notebook = Done tt ->
      exists data config,
        job_requests (trace W w Iris.notebook) = [benchmark data config]).
Proof.
  pose proof (proj2 (accepts_sound _ _ _ _
                       (@quiet_accepts _ _ [] titanic_quiet) W w)) as T.
  pose proof (proj2 (accepts_sound _ _ _ _
                       (@quiet_accepts _ _ [] script_quiet) W w)) as S.
  pose proof (proj2 (accepts_sound _ _ _ _ iris_jobs W w)) as F.
  rewrite after_jobs in T, S, F. simpl in T, S, F.
  split; [exact T|]. split; [exact S|]. split.
  - destruct (result_of W w Iris.notebook) as [[]|e]; simpl in F; auto.
  - intros E. rewrite E in F. exact F.
Qed.

(** A run that completes: in the lab the Iris notebook asks for the
    benchmark once, on the data set and the config of the fitted model. *)
Example iris_lab_benchmarks_once :
  result_of Lab.the_lab Lab.iris_lab Iris.notebook = Done tt
  /\ job_requests (trace Lab.the_lab Lab.iris_lab Iris.notebook)
     = [benchmark (VObj 13) (VObj 32)].
Proof. split; vm_compute; reflexivity. Qed.

End JobFacts.

(* ================================================================== *)
(** * The submission cell, run on files *)
(* ================================================================== *)

(** In the lab the submission cell of the notebook writes exactly the
    text that [Submission.submission] computes from the test file and the
    class array: the function is what the cell does to files. *)

Module LabFacts.
Import PyStr Py Lab PyStrFacts.
Local Open Scope string_scope.
Local Open Scope list_scope.

(** ** How runs compose *)

Lemma run_bind {A B} (W : world) (p : prog A) (f : A -> prog B) (w : state W) :
  run W w (bind p f)
  = let '(t1, o1, w1) := run W w p in
    match o1 with
    | Done a => let '(t2, o2, w2) := run W w1 (f a) in (t1 ++ t2, o2, w2)
    | Failed e => (t1, Failed e, w1)
    end.
Proof.
  revert w. induction p as [a|e|q k IH]; intros w; simpl.
  - destruct (run W w (f a)) as [[t o] w']. reflexivity.
  - reflexivity.
  - destruct (answer W w q) as [r w1]. rewrite IH.
    destruct (run W w1 (k r)) as [[t1 o1] w2].
    destruct o1 as [a|e]; [|reflexivity].
    destruct (run W w2 (f a)) as [[t2 o2] w3]. reflexivity.
Qed.

Lemma ends_ret {A} (W : world) (w : state W) (a : A) :
  ends W w (Ret a) (Done a) w.
Proof. split; reflexivity. Qed.

Lemma ends_bind {A B} (W : world) (p : prog A) (f : A -> prog B)
    (w w1 w2 : state W) (a : A) (o : outcome B) :
  ends W w p (Done a) w1 -> ends W w1 (f a) o w2 -> ends W w (bind p f) o w2.
Proof.
  unfold ends, result_of, final. intros [E1 E2] [E3 E4]. rewrite run_bind.
  destruct (run W w p) as [[t1 o1] w1']. simpl in *. subst.
  destruct (run W w1 (f a)) as [[t2 o2] w2']. simpl in *. subst.
  split; reflexivity.
Qed.

Lemma ends_ask (W : world) (w w1 : state W) (q : request) (v : value) :
  answer W w q = (Returned v, w1) -> ends W w (ask q) (Done v) w1.
Proof.
  intros E. unfold ends, result_of, final, ask. simpl. rewrite E.
  split; reflexivity.
Qed.

Lemma ends_Ask {A} (W : world) (w w1 w2 : state W) (q : request)
    (k : result -> prog A) (r : result) (o : outcome A) :
  answer W w q = (r, w1) -> ends W w1 (k r) o w2 -> ends W w (Ask q k) o w2.
Proof.
  unfold ends, result_of, final. simpl. intros -> [E1 E2].
  destruct (run W w1 (k r)) as [[t o'] w']. simpl in *. now subst.
Qed.

Lemma ends_finally {A} (W : world) (p : prog A) (cleanup : prog value)
    (w w1 w2 : state W) (a : A) (v : value) :
  ends W w p (Done a) w1 -> ends W w1 cleanup (Done v) w2 ->
  ends W w (finally p cleanup) (Done a) w2.
Proof.
  revert w. induction p as [a'|e|q k IH]; intros w [E1 E2] Hc.
  - unfold ends, result_of, final in E1, E2. simpl in *.
    injection E1 as ->. subst.
    eapply ends_bind; [exact Hc | apply ends_ret].
  - discriminate E1.
  - unfold ends, result_of, final in *. simpl in *.
    destruct (answer W w q) as [r w'].
    specialize (IH r w'). simpl in *.
    destruct (run W w' (k r)) as [[t o] w''] eqn:Er. simpl in *.
    destruct (IH (conj E1 E2) Hc) as [F1 F2].
    destruct (run W w' (finally (k r) cleanup)) as [[t' o'] w''']. simpl in *.
    split; assumption.
Qed.

(** ** The lab's tables *)

Lemma text_eqb_refl (a : text) : text_eqb a a = true.
Proof. unfold text_eqb. destruct (list_eq_dec N.eq_dec a a); congruence. Qed.

Lemma lookup_update {K X} (eqb : K -> K -> bool) (k : K) (x : X)
    (l : list (K * X)) :
  eqb k k = true -> lookup eqb k (update eqb k x l) = Some x.
Proof.
  intros R. induction l as [|[k' x'] l IH]; simpl.
  - now rewrite R.
  - destruct (eqb k k') eqn:E; simpl; [now rewrite R | now rewrite E].
Qed.

Lemma text_eqb_eq (a b : text) : text_eqb a b = true -> a = b.
Proof. unfold text_eqb. destruct (list_eq_dec N.eq_dec a b); congruence. Qed.

Lemma lookup_update_other {X} (p path : text) (x : X) (l : list (text * X)) :
  text_eqb p path = false ->
  lookup text_eqb p (update text_eqb path x l) = lookup text_eqb p l.
Proof.
  intros Hp. induction l as [|[k' x'] l IH]; simpl.
  - now rewrite Hp.
  - destruct (text_eqb path k') eqn:E; simpl.
    + apply text_eqb_eq in E. subst k'. now rewrite Hp.
    + now rewrite IH.
Qed.

(** ** The ids, computed without the world *)

Lemma test_ids_of_lines (lines : list text) :
  comprehension Titanic.test_id_of (map VStr lines)
  = Ret (map (fun line => VStr (Submission.test_id_of line)) lines).
Proof.
  induction lines as [|line lines IH]; simpl; [reflexivity|].
  rewrite IH. unfold Titanic.test_id_of, Submission.test_id_of. simpl.
  pose proof (split_nonempty COMMA (strip line)) as NE.
  destruct (split COMMA (strip line)) as [|field fields]; [congruence|].
  reflexivity.
Qed.

(** ** The cell, step by step *)

Ltac lab_simpl :=
  repeat progress (simpl; unfold set_object, set_file, alloc, open_file; simpl;
                   rewrite ?N.eqb_refl, ?text_eqb_refl).

Lemma read_ids_in_lab (w : lab) (test_csv : text) :
  file w "test.csv" = Some test_csv ->
  exists w',
    ends the_lab w Titanic.read_ids
         (Done (map VStr (Submission.id_list test_csv))) w'
    /\ files w' = files w
    /\ next w' = N.succ (next w)
    /\ (forall h, (h <? next w)%N = true ->
                  object_of w' (VObj h) = object_of w (VObj h)).
Proof.
  intros Hfile. destruct w as [n objs fs pr ws]. unfold file in Hfile.
  simpl in Hfile.
  unfold Titanic.read_ids, with_open, Submission.id_list.
  destruct (readline (universal_newlines test_csv)) as [line rest] eqn:E.
  eexists. split; [|split; [|split]].
  - simpl.
    eapply ends_Ask; [lab_simpl; rewrite Hfile; reflexivity|]. simpl.
    eapply ends_Ask; [lab_simpl; rewrite E; reflexivity|]. simpl.
    eapply ends_Ask; [lab_simpl; reflexivity|]. simpl.
    rewrite test_ids_of_lines. simpl.
    eapply ends_Ask; [lab_simpl; reflexivity|]. simpl.
    rewrite map_map. apply ends_ret.
  - reflexivity.
  - reflexivity.
  - intros h Hh. lab_simpl.
    apply N.ltb_lt in Hh. simpl in Hh.
    destruct (N.eqb_spec h n); [lia | reflexivity].
Qed.

Lemma rows_in_lab (pairs : list (text * Z)) (w : lab) (h : N)
    (path content : text) :
  object_of w (VObj h) = Some (Writer path) ->
  lookup text_eqb path (files w) = Some content ->
  exists w',
    ends the_lab w
         (for_each (map (fun p => (VStr (fst p), VInt (snd p))) pairs)
                   (fun '(test_id, c) => Titanic.write_row (VObj h) test_id c))
         (Done tt) w'
    /\ lookup text_eqb path (files w')
       = Some (content
               ++ List.concat (map (fun '(test_id, c) => Submission.row test_id c)
                                   pairs))
    /\ (forall p, text_eqb p path = false ->
                  lookup text_eqb p (files w') = lookup text_eqb p (files w))
    /\ objects w' = objects w /\ next w' = next w.
Proof.
  revert w content.
  induction pairs as [|[test_id c] pairs IH]; intros w content Hobj Hfile.
  - exists w. rewrite app_nil_r. repeat split; auto.
  - destruct w as [n objs fs pr ws]. simpl in Hobj, Hfile.
    destruct (IH {| next := n; objects := objs;
                    files := update text_eqb path
                                    (content ++ Submission.row test_id c) fs;
                    predicted := pr; workspaces := ws |}
                 (content ++ Submission.row test_id c))
      as [w' [Hends [Hf [Hother [Ho Hn]]]]].
    + exact Hobj.
    + simpl. apply lookup_update. apply text_eqb_refl.
    + exists w'. split; [|split; [|split; [|split]]];
        [| | |exact Ho|exact Hn].
      * simpl.
        eapply ends_Ask; [reflexivity|]. simpl.
        eapply ends_Ask;
          [lab_simpl; rewrite Hobj; simpl; rewrite Hfile; reflexivity|].
        simpl. exact Hends.
      * rewrite Hf. simpl. now rewrite <- app_assoc.
      * intros p Hp. rewrite (Hother p Hp). simpl.
        now apply lookup_update_other.
Qed.

Lemma combine_map {X Y X' Y'} (f : X -> X') (g : Y -> Y')
    (a : list X) (b : list Y) :
  combine (map f a) (map g b)
  = map (fun p => (f (fst p), g (snd p))) (combine a b).
Proof.
  revert b. induction a as [|x a IH]; intros [|y b]; simpl; auto.
  now rewrite IH.
Qed.

Lemma write_submission_in_lab (w : lab) (h : N) (ids : list text)
    (classes : list (list Z)) :
  object_of w (VObj h) = Some (Matrix classes) ->
  (h <? next w)%N = true ->
  exists w',
    ends the_lab w (Titanic.write_submission (map VStr ids) (VObj h)) (Done tt) w'
    /\ file w' "submission.csv" = Some (Submission.write_submission ids classes)
    /\ (forall p, text_eqb p (str "submission.csv") = false ->
                  lookup text_eqb p (files w') = lookup text_eqb p (files w)).
Proof.
  intros Hobj Hh. destruct w as [n objs fs pr ws]. simpl in Hobj, Hh.
  apply N.ltb_lt in Hh.
  assert (Hn : (h =? n)%N = false) by (apply N.eqb_neq; lia).
  assert (Hn' : (h =? N.succ n)%N = false) by (apply N.eqb_neq; lia).
  set (path := str "submission.csv").
  destruct (@rows_in_lab
              (combine ids (Submission.ravel classes))
              {| next := N.succ (N.succ n);
                 objects := (N.succ n, Vector (Submission.ravel classes))
                            :: (n, Writer path) :: objs;
                 files := update text_eqb path Submission.header
                                 (update text_eqb path [] fs);
                 predicted := pr; workspaces := ws |}
              n path Submission.header) as [w' [Hends [Hf [Hother [Ho _]]]]].
  { simpl. rewrite N.eqb_refl.
    destruct (N.eqb_spec n (N.succ n)); [lia | reflexivity]. }
  { simpl. apply lookup_update, text_eqb_refl. }
  exists w'. split; [|split].
  - unfold Titanic.write_submission, with_open. simpl.
    eapply ends_Ask; [lab_simpl; reflexivity|]. simpl.
    eapply ends_Ask.
    { lab_simpl. fold path. rewrite lookup_update by apply text_eqb_refl.
      reflexivity. }
    simpl.
    eapply ends_Ask; [lab_simpl; rewrite Hn; rewrite Hobj; reflexivity|]. simpl.
    eapply ends_Ask; [lab_simpl; reflexivity|]. simpl.
    rewrite combine_map.
    eapply ends_finally; [exact Hends|].
    apply ends_ask. simpl. unfold object_of. rewrite Ho. simpl.
    rewrite N.eqb_refl.
    destruct (N.eqb_spec n (N.succ n)); [lia | reflexivity].
  - unfold file. fold path. rewrite Hf.
    now rewrite SubmissionFacts.write_submission_text.
  - intros p Hp. rewrite (Hother p Hp). simpl.
    now rewrite !lookup_update_other.
Qed.

Lemma cell9_in_lab (w : lab) (h : N) (test_csv : text)
    (classes : list (list Z)) :
  file w "test.csv" = Some test_csv ->
  object_of w (VObj h) = Some (Matrix classes) ->
  (h <? next w)%N = true ->
  exists w',
    ends the_lab w (Titanic.cell9 (VObj h)) (Done tt) w'
    /\ file w' "submission.csv" = Some (Submission.submission test_csv classes)
    /\ (forall p, text_eqb p (str "submission.csv") = false ->
                  lookup text_eqb p (files w') = lookup text_eqb p (files w)).
Proof.
  intros Hfile Hobj Hh.
  destruct (@read_ids_in_lab w test_csv Hfile) as [w1 [Hread [Hfiles [Hnext Hsame]]]].
  destruct (@write_submission_in_lab w1 h (Submission.id_list test_csv) classes)
    as [w2 [Hwrite [Hsub Hother]]].
  { rewrite Hsame by exact Hh. exact Hobj. }
  { rewrite Hnext. apply N.ltb_lt in Hh. apply N.ltb_lt. lia. }
  exists w2. split; [|split].
  - exact (@ends_bind _ _ the_lab Titanic.read_ids
             (fun id_list => Titanic.write_submission id_list (VObj h))
             _ _ _ _ _ Hread Hwrite).
  - exact Hsub.
  - intros p Hp. rewrite (Hother p Hp). now rewrite Hfiles.
Qed.

(** ** The cell and the notebook on files *)

(** X1: in a lab that holds [test.csv] and the class array, the
    submission cell completes; [submission.csv] then holds the text that
    [Submission.submission] computes from the test file and the classes,
    whatever it held before, and every other file is as it was. *)
Theorem submission_cell_writes_submission (w : lab) (h : N) (test_csv : text)
    (classes : list (list Z)) :
  file w "test.csv" = Some test_csv ->
  object_of w (VObj h) = Some (Matrix classes) ->
  (h <? next w)%N = true ->
  result_of the_lab w (Titanic.cell9 (VObj h)) = Done tt
  /\ file (final the_lab w (Titanic.cell9 (VObj h))) "submission.csv"
     = Some (Submission.submission test_csv classes)
  /\ (forall p, text_eqb p (str "submission.csv") = false ->
        lookup text_eqb p (files (final the_lab w (Titanic.cell9 (VObj h))))
        = lookup text_eqb p (files w)).
Proof.
  intros Hfile Hobj Hh.
  destruct (@cell9_in_lab w h test_csv classes Hfile Hobj Hh) as [w' [[E1 E2] [Hsub Hother]]].
  rewrite E1, E2. split; [reflexivity | split; assumption].
Qed.

Lemma submission_cell_writes_submission_sample :
  result_of the_lab titanic_lab_predicted (Titanic.cell9 (VObj 0)) = Done tt
  /\ file (final the_lab titanic_lab_predicted (Titanic.cell9 (VObj 0)))
          "submission.csv"
     = Some (Submission.submission Submission.sample_test_csv
                                   Submission.sample_classes)
  /\ (forall p, text_eqb p (str "submission.csv") = false ->
        lookup text_eqb p
               (files (final the_lab titanic_lab_predicted
                             (Titanic.cell9 (VObj 0))))
        = lookup text_eqb p (files titanic_lab_predicted)).
Proof.
  apply (@submission_cell_writes_submission titanic_lab_predicted 0
           Submission.sample_test_csv Submission.sample_classes);
    reflexivity.
Defined.

(** X3: without a [test.csv] the submission cell fails with the
    [FileNotFoundError] of [open] and leaves the lab as it was: no
    [submission.csv] is created, and one that exists is not emptied. *)
Theorem submission_cell_without_test_file (w : lab) (classes : value) :
  file w "test.csv" = None ->
  result_of the_lab w (Titanic.cell9 classes)
  = Failed (External "FileNotFoundError")
  /\ final the_lab w (Titanic.cell9 classes) = w.
Proof.
  intros Hfile. unfold file in Hfile.
  unfold result_of, final, Titanic.cell9, Titanic.read_ids, with_open.
  simpl. unfold open_file. simpl. rewrite Hfile. simpl. split; reflexivity.
Qed.

Lemma submission_cell_without_test_file_sample :
  result_of the_lab (fresh [(str "submission.csv", str "old")] [] [])
            (Titanic.cell9 VNone)
  = Failed (External "FileNotFoundError")
  /\ final the_lab (fresh [(str "submission.csv", str "old")] [] [])
           (Titanic.cell9 VNone)
     = fresh [(str "submission.csv", str "old")] [] [].
Proof.
  apply (@submission_cell_without_test_file
           (fresh [(str "submission.csv", str "old")] [] []) VNone).
  reflexivity.
Defined.

(** ** The notebook, from top to bottom *)

Ltac lab_step :=
  cbn [bind ask call invoke getattr dict subscript];
  lazymatch goal with
  | |- ends _ _ (Ask _ _) _ _ => eapply ends_Ask; [vm_compute; reflexivity|]
  end.

(** X2: run from top to bottom in a lab that holds the two data files
    and whose model predicts [classes], the Titanic notebook completes,
    and [submission.csv] then holds the header and one row for each pair
    of a test id and a predicted class: the text of
    [Submission.submission]. *)
Theorem titanic_notebook_writes_submission (train_csv test_csv : text)
    (classes : list (list Z)) :
  let w := fresh [(str "train.csv", train_csv); (str "test.csv", test_csv)]
                 classes [] in
  result_of the_lab w Titanic.notebook = Done tt
  /\ file (final the_lab w Titanic.notebook) "submission.csv"
     = Some (Submission.submission test_csv classes).
Proof.
  intro w.
  cut (exists w', ends the_lab w Titanic.notebook (Done tt) w'
                  /\ file w' "submission.csv"
                     = Some (Submission.submission test_csv classes)).
  { intros [w' [[E1 E2] F]]. rewrite E1, E2. split; [reflexivity | exact F]. }
  subst w. unfold fresh.
  unfold Titanic.notebook, Titanic.cell1, Titanic.cell2, Titanic.cell3,
    Titanic.build_config, Titanic.fit_model, Titanic.cell6, Titanic.cell7,
    Titanic.cell8, Titanic.predict.
  assert (Hrest : forall w1,
             file w1 "test.csv" = Some test_csv ->
             object_of w1 (VObj 18) = Some (Matrix classes) ->
             (18 <? next w1)%N = true ->
             exists w', ends the_lab w1 (Titanic.cell9 (VObj 18)) (Done tt) w'
                        /\ file w' "submission.csv"
                           = Some (Submission.submission test_csv classes)).
  { intros w1 H1 H2 H3.
    destruct (@cell9_in_lab w1 18 test_csv classes H1 H2 H3)
      as [w' [He [Hs _]]].
    eauto. }
  match goal with
  | |- exists w', ends _ ?w0 ?p _ _ /\ _ =>
      cut (exists w1, file w1 "test.csv" = Some test_csv
                      /\ object_of w1 (VObj 18) = Some (Matrix classes)
                      /\ (18 <? next w1)%N = true
                      /\ forall o w', ends the_lab w1 (Titanic.cell9 (VObj 18)) o w'
                                      -> ends the_lab w0 p o w')
  end.
  { intros [w1 [H1 [H2 [H3 Hstep]]]].
    destruct (Hrest w1 H1 H2 H3) as [w' [He Hs]].
    exists w'. split; [apply Hstep, He | exact Hs]. }
  eexists. split; [|split; [|split]]; cycle 3.
  - intros o w' He. repeat lab_step. cbn [bind]. exact He.
  - reflexivity.
  - reflexivity.
  - reflexivity.
Qed.

End LabFacts.

(* ================================================================== *)
(** * Open files, and where values come from *)
(* ================================================================== *)

Module FlowFacts.
Import PyStr Py Check Flow CheckFacts.
Local Open Scope string_scope.
Local Open Scope list_scope.

(** ** Files are closed *)

Lemma no_file_keeps {A} (p : prog A) (s : memory handle_checker) :
  asks_only no_file p -> accepts handle_checker (fun s' _ => s' = s) s p.
Proof.
  intros H.
  apply (@accepts_invariant _ handle_checker no_file (fun s' => s' = s) p s H);
    [|reflexivity].
  intros s' q r -> Hq.
  destruct q; simpl in *; try (split; [exact I | reflexivity]).
  - rewrite Hq. split; [exact I|]. now destruct r.
  - rewrite Hq. split; [exact I | reflexivity].
Qed.

(** A [with] block whose body opens and closes nothing of its own. *)
Lemma with_open_closes {A} (path mode : value) (body : value -> prog A) :
  (forall f, asks_only no_file (body f)) ->
  accepts handle_checker (fun s' _ => s' = None) None (with_open path mode body).
Proof.
  intros Hbody. unfold with_open, call, ask. cbn [accepts bind].
  intros [f|name]; (split; [reflexivity|]); cbn [bind]; [|reflexivity].
  apply accepts_finally.
  eapply accepts_weaken; [|apply (@no_file_keeps _ (body f) (Some f) (Hbody f))].
  intros s' o ->. unfold invoke, ask. cbn [accepts].
  intros [v|name]; (split; [reflexivity|]); reflexivity.
Qed.

Ltac files := asks; try exact I; try reflexivity.

(** Sequencing: the first part opens and closes nothing. *)
Ltac no_file_then :=
  apply accepts_bind; eapply accepts_weaken;
  [| apply no_file_keeps; files ];
  intros ? [?|?] ->; cbn [post]; [| reflexivity ].

(** Sequencing: the first part is a [with] block. *)
Ltac with_open_then :=
  apply accepts_bind; eapply accepts_weaken;
  [| apply with_open_closes; intros ?; files ];
  intros ? [?|?] ->; cbn [post]; [| reflexivity ].

Lemma titanic_closes :
  accepts handle_checker (fun s' _ => s' = None) None Titanic.notebook.
Proof.
  unfold Titanic.notebook, Titanic.cell1, Titanic.cell2, Titanic.cell3,
    Titanic.build_config, Titanic.fit_model, Titanic.cell6, Titanic.cell7,
    Titanic.cell8, Titanic.predict, Titanic.cell9, Titanic.read_ids,
    Titanic.write_submission, Titanic.write_row, Titanic.test_id_of.
  do 6 no_file_then.
  no_file_then. match goal with a : (value * value)%type |- _ => destruct a end.
  no_file_then. match goal with a : (value * value)%type |- _ => destruct a end.
  with_open_then.
  apply with_open_closes. intros f. files.
Qed.

Lemma load_sklearn_closes (config pipelines workspace model : value) :
  accepts handle_checker (fun s' _ => s' = None) None
          (Iris.load_sklearn config pipelines workspace model).
Proof.
  unfold Iris.load_sklearn.
  no_file_then.
  apply with_open_closes. intros f. files.
Qed.

Lemma cell21_closes (config results : value) :
  accepts handle_checker (fun s' _ => s' = None) None
          (Iris.cell21 config results).
Proof.
  unfold Iris.cell21. do 5 no_file_then.
  apply accepts_bind.
  apply accepts_for_each with (J := fun _ s => s = None);
    [reflexivity| |intros ? ->; reflexivity].
  intros [workspace workspace_key] rest ? ->.
  no_file_then.
  destruct (in_strs _ _).
  - eapply accepts_weaken; [|apply load_sklearn_closes].
    intros ? [[]|?] ->; reflexivity.
  - reflexivity.
Qed.

Lemma iris_closes :
  accepts handle_checker (fun s' _ => s' = None) None Iris.notebook.
Proof.
  unfold Iris.notebook, Iris.cell1, Iris.cell3, Iris.cell5, Iris.cell7,
    Iris.cell9, Iris.cell11, Iris.cell13, Iris.cell15, Iris.cell17,
    Iris.cell19, Iris.cell23, Iris.print_mean_std, Iris.repeat_ml,
    Iris.load_and_evaluate.
  no_file_then. no_file_then.
  match goal with a : (value * value)%type |- _ => destruct a as [config m] end.
  do 8 no_file_then.
  apply accepts_bind. eapply accepts_weaken; [|apply cell21_closes].
  intros ? [pipelines|?] ->; cbn [post]; [|reflexivity].
  eapply accepts_weaken; [|apply no_file_keeps; files].
  intros ? ? ->. reflexivity.
Qed.

Lemma script_closes :
  accepts handle_checker (fun s' _ => s' = None) None RunSklearn.main.
Proof.
  unfold RunSklearn.main, RunSklearn.assert_not_none,
    RunSklearn.assert_ndarray, assert_.
  do 13 no_file_then.
  apply accepts_bind. unfold RunSklearn.choose_base.
  destruct (equals_str _ "decision_tree");
    [|destruct (equals_str _ "random_forest")];
    cbn [accepts post]; try reflexivity;
    (do 5 no_file_then; apply with_open_closes; intros f; files).
Qed.

(** X8: in every run of the two notebooks and of the script, whatever the
    outside world answers, at most one file is open at a time, what is
    closed is the file that is open, and every file that was opened has
    been closed when the run ends, also when it ends in an exception. *)
Theorem files_are_closed (W : world) (w : state W) :
  one_file_at_a_time (trace W w Titanic.notebook)
  /\ one_file_at_a_time (trace W w Iris.notebook)
  /\ one_file_at_a_time (trace W w RunSklearn.main).
Proof.
  split; [|split].
  - exact (accepts_sound _ _ _ _ titanic_closes W w).
  - exact (accepts_sound _ _ _ _ iris_closes W w).
  - exact (accepts_sound _ _ _ _ script_closes W w).
Qed.

(** ** The events before an event *)

Section History.

Variable ok : list event -> event -> Prop.

Lemma after_history (t s : list event) :
  after (history_checker ok) s t = s ++ t.
Proof.
  unfold after. revert s. induction t as [|e t IH]; intros s; simpl.
  - now rewrite app_nil_r.
  - rewrite IH. now rewrite <- app_assoc.
Qed.

Lemma lawful_history (before later : list event) (e : event) :
  lawful (history_checker ok) [] (before ++ e :: later) -> ok before e.
Proof.
  intros H. apply lawful_at in H. now rewrite after_history in H.
Qed.

(** Requests that are [ok] whatever came before keep what has happened. *)
Lemma history_grows {A} (R : request -> Prop) (p : prog A)
    (known s : list event) :
  asks_only R p ->
  (forall s' q r, R q -> ok s' (q, r)) ->
  incl known s ->
  accepts (history_checker ok) (fun s' _ => incl known s') s p.
Proof.
  intros Hp Hok Hs.
  apply (@accepts_invariant _ (history_checker ok) R (incl known) p s Hp);
    [|exact Hs].
  intros s' q r Hincl Hq. split; [now apply Hok|].
  simpl. now apply incl_appl.
Qed.

Lemma history_anything {A} (R : request -> Prop) (p : prog A) (s : list event) :
  asks_only R p ->
  (forall s' q r, R q -> ok s' (q, r)) ->
  accepts (history_checker ok) (@anything (history_checker ok) _) s p.
Proof.
  intros Hp Hok.
  eapply accepts_weaken;
    [|apply (@history_grows _ R p [] s Hp Hok); apply incl_nil_l].
  intros; exact I.
Qed.

End History.

Ltac hist_ops :=
  cbn [accepts bind ask call invoke getattr post allowed advance
       history_checker app fst];
  unfold_subscripts;
  cbn [accepts bind ask call invoke getattr post allowed advance
       history_checker app fst].

(** One request that the property does not concern. *)
Ltac hist_answer :=
  hist_ops;
  lazymatch goal with
  | |- forall r : result, _ =>
      intros [?v|?name]; (split; [solve [intros; discriminate]|]); hist_ops
  end.

(** The event is in the list, whose unknowns it settles. *)
Ltac find_event := simpl; repeat first [left; reflexivity | right]; fail.

(** The event is in the history, whose unknowns it settles. *)
Ltac in_history :=
  repeat first [ solve [apply in_or_app; right; find_event]
               | apply in_or_app; left ];
  try assumption.

(** ** The classes of the submission *)

Lemma no_ravel_ok (s : list event) (q : request) (r : result) :
  no_ravel q -> ravel_of_test_predictions s (q, r).
Proof.
  intros Hq self r' E. injection E as -> _. simpl in Hq. discriminate Hq.
Qed.

Lemma from_test_predictions_incl (a b : list event) (classes : value) :
  incl a b -> from_test_predictions a classes -> from_test_predictions b classes.
Proof.
  intros Hab (data & config & m & d & loader & r & H1 & H2 & H3 & H4 & H5).
  exists data, config, m, d, loader, r. repeat split; now apply Hab.
Qed.

Lemma cell9_flow (s : list event) (classes : value) :
  from_test_predictions s classes ->
  accepts (history_checker ravel_of_test_predictions)
          (@anything (history_checker ravel_of_test_predictions) _) s
          (Titanic.cell9 classes).
Proof.
  intros Hfrom. unfold Titanic.cell9. apply accepts_bind.
  eapply accepts_weaken;
    [|apply (@history_grows ravel_of_test_predictions _ no_ravel
               Titanic.read_ids s s)].
  - intros s' [ids|e] Hincl; cbn [post]; [|exact I].
    unfold Titanic.write_submission, with_open.
    hist_answer; [|exact I].
    cbn [finally bind invoke ask accepts].
    intros [written|name]; (split; [solve [intros; discriminate]|]).
    + cbn [finally bind invoke ask accepts].
      intros r. split.
      * intros self r' E. injection E as <- _.
        eapply from_test_predictions_incl; [|exact Hfrom].
        simpl. now apply incl_appl, incl_appl.
      * apply (@history_anything ravel_of_test_predictions _ no_ravel);
          [|intros; now apply no_ravel_ok].
        destruct r; cbn [bind finally]; unfold Titanic.write_row;
          asks; try exact I; reflexivity.
    + apply (@history_anything ravel_of_test_predictions _ no_ravel);
        [|intros; now apply no_ravel_ok].
      cbn [bind finally]. asks; try exact I; reflexivity.
  - unfold Titanic.read_ids, Titanic.test_id_of. asks; try exact I; reflexivity.
  - intros; now apply no_ravel_ok.
  - apply incl_refl.
Qed.

Lemma titanic_flow :
  accepts (history_checker ravel_of_test_predictions)
          (@anything (history_checker ravel_of_test_predictions) _) []
          Titanic.notebook.
Proof.
  unfold Titanic.notebook, Titanic.cell1, Titanic.cell2, Titanic.cell3,
    Titanic.build_config, Titanic.fit_model, Titanic.cell6, Titanic.cell7,
    Titanic.cell8, Titanic.predict.
  repeat (hist_answer; [|exact I]).
  apply cell9_flow.
  do 6 eexists. split; [|split; [|split; [|split]]].
  5: find_event. 4: find_event. 3: find_event. 2: find_event. find_event.
Qed.

(** X9: in every run of the Titanic notebook, whatever the outside world
    answers, the array whose [ravel] is written to [submission.csv] is
    what the fitted model predicted, with [return_classes=True], on the
    loader built from [test.csv]: not the probabilities, and not a
    prediction on the training file. *)
Theorem submitted_classes_are_test_predictions (W : world) (w : state W)
    (before later : list event) (self : value) (r : result) :
  trace W w Titanic.notebook = before ++ (Invoke self "ravel" [] [], r) :: later ->
  from_test_predictions before self.
Proof.
  intros E.
  pose proof (proj1 (accepts_sound _ _ _ _ titanic_flow W w)) as L.
  rewrite E in L. apply lawful_history in L. now apply (L self r).
Qed.

Lemma submitted_classes_are_test_predictions_sample :
  from_test_predictions
    (firstn 29 (trace Lab.the_lab Lab.titanic_lab Titanic.notebook))
    (VObj 18).
Proof.
  eapply (@submitted_classes_are_test_predictions Lab.the_lab Lab.titanic_lab
            _ (skipn 30 (trace Lab.the_lab Lab.titanic_lab Titanic.notebook))).
  vm_compute. reflexivity.
Defined.

(** ** The model the script saves *)

Lemma equals_str_eq (v : value) (literal : string) :
  equals_str v literal = true -> v = Str literal.
Proof.
  destruct v; simpl; try discriminate.
  unfold text_eqb. destruct (list_eq_dec N.eq_dec s (str literal)); [|discriminate].
  intros _. unfold Str. now f_equal.
Qed.

Lemma no_dump_ok (s : list event) (q : request) (r : result) :
  no_dump q -> dump_of_fitted s (q, r).
Proof.
  intros Hq sk f r' E. injection E as -> _. simpl in Hq. discriminate Hq.
Qed.

(** The script from the instantiation of the class on. *)
Lemma script_rest_flow (s : list event) (info meta model x y dataset : value)
    (base : string) :
  In (GetAttr info "meta", Returned meta) s ->
  In (GetItem meta (Str "model"), Returned model) s ->
  (model = Str "decision_tree" /\ base = "sklearn.tree.DecisionTreeClassifier")
  \/ (model = Str "random_forest"
      /\ base = "sklearn.ensemble.RandomForestClassifier") ->
  In (GetItem dataset (VName "INPUT_KEY"), Returned x) s ->
  In (GetItem dataset (VName "LABEL_KEY"), Returned y) s ->
  accepts (history_checker dump_of_fitted)
          (@anything (history_checker dump_of_fitted) _) s
          (bind (call base [] []) (fun sk_model =>
           bind (invoke y "ravel" [] []) (fun labels =>
           bind (invoke sk_model "fit" [x; labels] []) (fun _ =>
           bind (getattr info "workplace") (fun workplace =>
           bind (call "os.path.join" [workplace; Str "sk_model.pkl"] [])
                (fun path =>
           with_open path (Str "wb") (fun f =>
             bind (call "pickle.dump" [sk_model; f] []) (fun _ => Ret tt)))))))).
Proof.
  intros Hmeta Hmodel Hbase Hx Hy.
  assert (Hcall : forall (r : result) sk f (r' : result),
             (Call base [] [], r) = (Call "pickle.dump" [sk; f] [], r') -> False).
  { intros r sk f r' E. destruct Hbase as [[_ ->]|[_ ->]]; discriminate E. }
  hist_ops. intros [sk_model|name]; (split; [intros sk f r' E; now apply Hcall in E|]);
    hist_ops; [|exact I].
  do 4 (hist_answer; [|exact I]).
  unfold with_open. hist_answer; [|exact I].
  cbn [finally bind call ask accepts].
  intros r. split.
  - intros sk f r' E. injection E as <- <- _.
    exists info, meta, model, base, dataset, x, y.
    do 4 eexists.
    split; [in_history|]. split; [in_history|]. split; [exact Hbase|].
    split; [in_history|]. split; [in_history|]. split; [in_history|].
    split; [|split; [|split; [|split]]].
    5: in_history. 4: in_history. 3: in_history. 2: in_history. in_history.
  - apply (@history_anything dump_of_fitted _ no_dump);
      [|intros; now apply no_dump_ok].
    destruct r; cbn [bind finally]; asks; try exact I; reflexivity.
Qed.

Local Open Scope prog_scope.

(** The script from the full batch on. *)
Lemma script_tail_flow (s : list event) (info meta loader : value) :
  In (GetAttr info "meta", Returned meta) s ->
  accepts (history_checker dump_of_fitted)
          (@anything (history_checker dump_of_fitted) _) s
          (dataset <- invoke loader "get_full_batch" [] [] ;;
           x <- subscript dataset (VName "INPUT_KEY") ;;
           y <- subscript dataset (VName "LABEL_KEY") ;;
           RunSklearn.assert_ndarray x ;;
           RunSklearn.assert_ndarray y ;;
           model <- subscript meta (Str "model") ;;
           base <- RunSklearn.choose_base model ;;
           sk_model <- call base [] [] ;;
           labels <- invoke y "ravel" [] [] ;;
           invoke sk_model "fit" [x; labels] [] ;;
           workplace <- getattr info "workplace" ;;
           path <- call "os.path.join" [workplace; Str "sk_model.pkl"] [] ;;
           with_open path (Str "wb") (fun f =>
             call "pickle.dump" [sk_model; f] [] ;;
             Ret tt)).
Proof.
  intros Hmeta. unfold RunSklearn.assert_ndarray, assert_.
  do 4 (hist_answer; [|exact I]).
  match goal with |- context [truthy ?b] => destruct (truthy b) end;
    cbn [bind accepts]; [|exact I].
  hist_answer; [|exact I].
  match goal with |- context [truthy ?b] => destruct (truthy b) end;
    cbn [bind accepts]; [|exact I].
  hist_answer; [|exact I].
  unfold RunSklearn.choose_base.
  match goal with
  | |- context [equals_str ?model "decision_tree"] =>
      destruct (equals_str model "decision_tree") eqn:E1;
      [|destruct (equals_str model "random_forest") eqn:E2]
  end; cbn [bind accepts]; [| |exact I].
  - apply equals_str_eq in E1.
    eapply script_rest_flow with (info := info) (meta := meta);
      [| |left; split; [exact E1|reflexivity]| |].
    + repeat (apply in_or_app; left). exact Hmeta.
    + apply in_or_app; right; find_event.
    + repeat rewrite <- app_assoc. apply in_or_app; right; find_event.
    + repeat rewrite <- app_assoc. apply in_or_app; right; find_event.
  - apply equals_str_eq in E2.
    eapply script_rest_flow with (info := info) (meta := meta);
      [| |right; split; [exact E2|reflexivity]| |].
    + repeat (apply in_or_app; left). exact Hmeta.
    + apply in_or_app; right; find_event.
    + repeat rewrite <- app_assoc. apply in_or_app; right; find_event.
    + repeat rewrite <- app_assoc. apply in_or_app; right; find_event.
Qed.

Lemma script_flow :
  accepts (history_checker dump_of_fitted)
          (@anything (history_checker dump_of_fitted) _) [] RunSklearn.main.
Proof.
  unfold RunSklearn.main, RunSklearn.assert_not_none, assert_.
  do 3 (hist_answer; [|exact I]).
  match goal with |- context [if ?b then Ret tt else _] => destruct b end;
    cbn [bind accepts]; [|exact I].
  do 2 (hist_answer; [|exact I]).
  apply accepts_bind. apply accepts_subscript.
  - intros l loader _ _. cbn [post]. apply script_tail_flow. find_event.
  - exact I.
  - hist_answer; [|exact I]. apply script_tail_flow. find_event.
Qed.

(** X10: in every run of the [run_sklearn.py] script, whatever the outside
    world answers, what [pickle.dump] writes is an instance of the class
    that [meta["model"]] names ([DecisionTreeClassifier] for
    ["decision_tree"], [RandomForestClassifier] for ["random_forest"]),
    on which [fit] has returned for the inputs and the flattened labels
    of the full batch, and it is written to a file opened for binary
    writing: no model is saved that was not fitted. *)
Theorem script_saves_the_fitted_model (W : world) (w : state W)
    (before later : list event) (sk f : value) (r : result) :
  trace W w RunSklearn.main
  = before ++ (Call "pickle.dump" [sk; f] [], r) :: later ->
  fitted before sk f.
Proof.
  intros E.
  pose proof (proj1 (accepts_sound _ _ _ _ script_flow W w)) as L.
  rewrite E in L. apply lawful_history in L. now apply (L sk f r).
Qed.

Lemma script_saves_the_fitted_model_sample :
  fitted (firstn 18 (trace Lab.the_lab Lab.iris_lab RunSklearn.main))
         (VObj 9) (VObj 14).
Proof.
  eapply (@script_saves_the_fitted_model Lab.the_lab Lab.iris_lab
            _ (skipn 19 (trace Lab.the_lab Lab.iris_lab RunSklearn.main))).
  vm_compute. reflexivity.
Defined.

(** ** The pipelines the Iris notebook adds *)

Lemma no_set_ok (s : list event) (q : request) (r : result) :
  no_set q -> set_of_sklearn_pipeline s (q, r).
Proof.
  intros Hq target key v r' E. injection E as -> _. destruct Hq.
Qed.

Lemma in_strs_two (v : value) (a b : string) :
  in_strs v [a; b] = true -> v = Str a \/ v = Str b.
Proof.
  unfold in_strs. simpl. rewrite orb_false_r. intros H.
  apply orb_prop in H. destruct H as [H|H]; apply equals_str_eq in H; auto.
Qed.

Ltac quietly_set :=
  apply (@history_grows set_of_sklearn_pipeline _ no_set);
  [ cbn [bind finally]; asks; exact I
  | intros; now apply no_set_ok
  | repeat apply incl_appl; apply incl_refl ].

Lemma load_sklearn_flow (s : list event)
    (experiment results config pipelines workspace model : value) :
  In (Invoke experiment "run_tasks" [] [], Returned results) s ->
  In (Call "cflearn.api.load_pipelines" [results] [], Returned pipelines) s ->
  in_strs model ["decision_tree"; "random_forest"] = true ->
  accepts (history_checker set_of_sklearn_pipeline)
          (fun s' _ => incl s s') s
          (Iris.load_sklearn config pipelines workspace model).
Proof.
  intros Hrun Hload Hmodel. unfold Iris.load_sklearn, with_open.
  hist_answer; [|apply incl_appl, incl_refl].
  hist_answer; [|repeat apply incl_appl; apply incl_refl].
  cbn [finally bind call ask accepts].
  intros [loaded|name]; (split; [solve [intros; discriminate]|]);
    [|quietly_set].
  cbn [finally bind call ask accepts].
  intros [predictor|name]; (split; [solve [intros; discriminate]|]);
    [|quietly_set].
  cbn [finally bind call ask accepts].
  intros [pipeline|name]; (split; [solve [intros; discriminate]|]);
    [|quietly_set].
  cbn [finally bind call ask accepts].
  intros r. split.
  - intros target key value r' E. injection E as <- <- <-.
    split; [now apply in_strs_two|].
    exists experiment, results. do 6 eexists.
    split; [in_history|]. split; [in_history|].
    split; [|split; [|split; [|split]]].
    5: in_history. 4: in_history. 3: in_history. 2: in_history. in_history.
  - destruct r; quietly_set.
Qed.

Lemma sklearn_loop_flow (s : list event)
    (experiment results config pipelines : value)
    (pairs : list (value * value)) :
  In (Invoke experiment "run_tasks" [] [], Returned results) s ->
  In (Call "cflearn.api.load_pipelines" [results] [], Returned pipelines) s ->
  accepts (history_checker set_of_sklearn_pipeline)
          (@anything (history_checker set_of_sklearn_pipeline) _) s
          (for_each pairs (fun '(workspace, workspace_key) =>
             bind (subscript workspace_key (VInt 0)) (fun model =>
               if in_strs model ["decision_tree"; "random_forest"]
               then Iris.load_sklearn config pipelines workspace model
               else Ret tt))).
Proof.
  intros Hrun Hload.
  apply accepts_for_each with (J := fun _ s' => incl s s');
    [apply incl_refl| |intros; exact I].
  intros [workspace workspace_key] rest s' Hincl.
  apply accepts_bind. apply accepts_subscript.
  - intros l model _ _. cbn [post].
    destruct (in_strs model _) eqn:E; [|exact Hincl].
    eapply accepts_weaken;
      [|apply (@load_sklearn_flow s' experiment results); auto].
    intros s'' [[]|e] H; cbn [post]; [|exact I].
    eapply incl_tran; eassumption.
  - exact I.
  - hist_answer; [|exact I].
    destruct (in_strs v _) eqn:E; [|now apply incl_appl].
    eapply accepts_weaken;
      [|apply (@load_sklearn_flow _ experiment results); auto].
    + intros s'' [[]|e] H; cbn [post]; [|exact I].
      eapply incl_tran; [|exact H]. now apply incl_appl.
    + apply in_or_app. left. now apply Hincl.
    + apply in_or_app. left. now apply Hincl.
Qed.

(** Sequencing: the first part sets no item. *)
Ltac no_set_then :=
  apply accepts_bind; eapply accepts_weaken;
  [| apply (@history_anything set_of_sklearn_pipeline _ no_set);
     [ asks; exact I | intros; now apply no_set_ok ] ];
  intros ? [?|?] _; cbn [post]; [| exact I ].

(** The notebook after the loop. *)
Ltac after_loop :=
  apply accepts_bind; eapply accepts_weaken;
  [| eapply sklearn_loop_flow; in_history ];
  intros ? [[]|?] _; cbn [post accepts]; [| exact I ];
  apply (@history_anything set_of_sklearn_pipeline _ no_set);
  [ unfold Iris.cell23; asks; exact I | intros; now apply no_set_ok ].

Ltac trivially := intros; cbn [post]; first [exact I | discriminate].

Lemma iris_flow :
  accepts (history_checker set_of_sklearn_pipeline)
          (@anything (history_checker set_of_sklearn_pipeline) _) []
          Iris.notebook.
Proof.
  unfold Iris.notebook, Iris.cell1, Iris.cell3, Iris.cell5, Iris.cell7,
    Iris.cell9, Iris.cell11, Iris.cell13, Iris.cell15, Iris.cell17,
    Iris.print_mean_std, Iris.repeat_ml, Iris.load_and_evaluate.
  no_set_then. no_set_then.
  match goal with a : (value * value)%type |- _ => destruct a as [config m] end.
  do 7 no_set_then.
  unfold Iris.cell19, Iris.cell21.
  do 4 (hist_answer; [|exact I]).
  apply accepts_bind. apply accepts_bind. apply accepts_elements.
  - intros ws _. cbn [post]. apply accepts_bind. apply accepts_elements.
    + intros keys _. cbn [post]. after_loop.
    + trivially.
    + intros u keys _. cbn [post]. after_loop.
    + trivially.
    + trivially.
  - trivially.
  - intros u ws _. cbn [post]. apply accepts_bind. apply accepts_elements.
    + intros keys _. cbn [post]. after_loop.
    + trivially.
    + intros u' keys _. cbn [post]. after_loop.
    + trivially.
    + trivially.
  - trivially.
  - trivially.
Qed.

(** X11: in every run of the Iris notebook, whatever the outside world
    answers, an item is set only in the pipelines loaded from the results
    of the experiment, only under the key ["decision_tree"] or
    ["random_forest"], and what is stored is the evaluation pipeline built
    on the classifier that wraps the model unpickled from a
    [sk_model.pkl]: the pipelines of the carefree-learn models are not
    replaced. *)
Theorem pipelines_set_for_sklearn_models_only (W : world) (w : state W)
    (before later : list event) (target key v : value) (r : result) :
  trace W w Iris.notebook = before ++ (SetItem target key v, r) :: later ->
  sklearn_pipeline before target key v.
Proof.
  intros E.
  pose proof (proj1 (accepts_sound _ _ _ _ iris_flow W w)) as L.
  rewrite E in L. apply lawful_history in L. now apply (L target key v r).
Qed.

Lemma pipelines_set_for_sklearn_models_only_sample :
  sklearn_pipeline (firstn 53 (trace Lab.the_lab Lab.iris_lab Iris.notebook))
                   (VObj 41) (Str "decision_tree") (VObj 45).
Proof.
  eapply (@pipelines_set_for_sklearn_models_only Lab.the_lab Lab.iris_lab
            _ (skipn 54 (trace Lab.the_lab Lab.iris_lab Iris.notebook))).
  vm_compute. reflexivity.
Defined.

(** ** The tasks of the experiment *)

Lemma after_tasks (t : list event) (s : memory tasks_checker) :
  after tasks_checker s t = s ++ tasks t.
Proof.
  unfold after, tasks. revert s.
  induction t as [|[q r] t IH]; intros s; simpl.
  - now rewrite app_nil_r.
  - rewrite IH. destruct (task_of q); [|reflexivity].
    now rewrite <- app_assoc.
Qed.

Lemma no_task_keeps {A} (p : prog A) (s : memory tasks_checker) :
  asks_only no_task p -> accepts tasks_checker (fun s' _ => s' = s) s p.
Proof.
  intros H.
  apply (@accepts_invariant _ tasks_checker no_task (fun s' => s' = s) p s H);
    [|reflexivity].
  intros s' q r -> Hq. split; [exact I|]. simpl. unfold no_task in Hq.
  now rewrite Hq.
Qed.

Ltac no_task_then :=
  apply accepts_bind; eapply accepts_weaken;
  [| apply no_task_keeps; asks; reflexivity ];
  intros ? [?|?] ->; cbn [post]; [| now exists 0 ].

Lemma iris_rest_no_task (config loader results : value) :
  asks_only no_task
    (bind (Iris.cell21 config results) (fun pipelines =>
     bind (Iris.cell23 loader pipelines) (fun _ => Ret tt))).
Proof.
  unfold Iris.cell21, Iris.cell23, Iris.load_sklearn. asks; reflexivity.
Qed.

Lemma iris_tasks : accepts tasks_checker as_planned [] Iris.notebook.
Proof.
  unfold Iris.notebook, Iris.cell1, Iris.cell3, Iris.cell5, Iris.cell7,
    Iris.cell9, Iris.cell11, Iris.cell13, Iris.cell15, Iris.cell17,
    Iris.cell19, Iris.print_mean_std, Iris.repeat_ml, Iris.load_and_evaluate.
  no_task_then. no_task_then.
  match goal with a : (value * value)%type |- _ => destruct a as [config m] end.
  do 6 no_task_then.
  cbn [accepts bind call invoke ask].
  intros [experiment|name]; (split; [exact I|]); cbn [bind accepts];
    [|now exists 0].
  intros [data_folder|name]; (split; [exact I|]); cbn [bind accepts];
    [|now exists 0].
  intros [r1|name]; (split; [exact I|]); cbn [bind accepts]; [|now exists 1].
  intros [r2|name]; (split; [exact I|]); cbn [bind accepts]; [|now exists 2].
  intros [r3|name]; (split; [exact I|]); cbn [bind accepts]; [|now exists 3].
  intros [r4|name]; (split; [exact I|]); cbn [bind accepts]; [|now exists 4].
  intros [results|name]; (split; [exact I|]); cbn [bind accepts];
    [|now exists 4].
  eapply accepts_weaken; [|apply no_task_keeps; apply iris_rest_no_task].
  intros ? [[]|?] ->; cbn [as_planned post]; [reflexivity | now exists 4].
Qed.

Lemma planned_tasks_implemented : Forall script_task_implemented planned_tasks.
Proof.
  unfold planned_tasks.
  repeat apply Forall_cons; try apply Forall_nil;
    cbn [script_task_implemented]; try exact I;
    (split; [reflexivity|]; eexists; split; [reflexivity|];
     eexists; reflexivity).
Qed.

Lemma firstn_Forall {X} (P : X -> Prop) (k : nat) (l : list X) :
  Forall P l -> Forall P (firstn k l).
Proof.
  intros H. revert k. induction H as [|x l Hx Hl IH]; intros [|k]; simpl;
    constructor; auto.
Qed.

(** X13: in every run of the Iris notebook, whatever the outside world
    answers, the tasks added to the experiment are the first ones of
    [fcnn], [linear], [decision_tree], [random_forest], in this order, and
    all four when the run completes; the two that carry the command
    [python run_sklearn.py] are for models the script implements, so
    that the script is never started for a model on which it raises
    [NotImplementedError].  The models the script implements are also
    exactly those whose [sk_model.pkl] the notebook loads afterwards. *)
Theorem script_tasks_are_implemented (W : world) (w : state W) :
  (exists k, tasks (trace W w Iris.notebook) = firstn k planned_tasks)
  /\ (result_of W w Iris.notebook = Done tt ->
      tasks (trace W w Iris.notebook) = planned_tasks)
  /\ Forall script_task_implemented (tasks (trace W w Iris.notebook))
  /\ (forall model,
        in_strs model ["decision_tree"; "random_forest"] = true
        <-> implemented model).
Proof.
  pose proof (proj2 (accepts_sound _ _ _ _ iris_tasks W w)) as F.
  rewrite after_tasks in F. simpl in F.
  assert (P : exists k, tasks (trace W w Iris.notebook) = firstn k planned_tasks).
  { destruct (result_of W w Iris.notebook) as [[]|e]; simpl in F;
      [now exists 4 | exact F]. }
  split; [exact P|]. split; [|split].
  - intros E. rewrite E in F. exact F.
  - destruct P as [k ->]. apply firstn_Forall, planned_tasks_implemented.
  - intros model. unfold in_strs, implemented, RunSklearn.choose_base. simpl.
    destruct (equals_str model "decision_tree");
      [split; [eexists; reflexivity | reflexivity]|].
    destruct (equals_str model "random_forest");
      [split; [eexists; reflexivity | reflexivity]|].
    split; [discriminate | intros [base E]; discriminate E].
Qed.

(** ** Reading before writing *)

Lemma no_open_ok (s : list event) (q : request) (r : result) :
  no_open q -> write_after_read s (q, r).
Proof.
  intros Hq r' E. injection E as -> _. simpl in Hq. discriminate Hq.
Qed.

Lemma write_submission_after_read (s : list event) (ids : list value)
    (classes : value) :
  test_file_read s ->
  accepts (history_checker write_after_read)
          (@anything (history_checker write_after_read) _) s
          (Titanic.write_submission ids classes).
Proof.
  intros Hread. unfold Titanic.write_submission, with_open.
  cbn [accepts bind call ask]. intros r. split; [intros r' _; exact Hread|].
  apply (@history_anything write_after_read _ no_open);
    [|intros; now apply no_open_ok].
  unfold Titanic.write_row.
  destruct r; cbn [bind finally]; asks; try exact I; reflexivity.
Qed.

Lemma cell9_after_read (s : list event) (classes : value) :
  accepts (history_checker write_after_read)
          (@anything (history_checker write_after_read) _) s
          (Titanic.cell9 classes).
Proof.
  unfold Titanic.cell9, Titanic.read_ids, with_open.
  apply accepts_bind.
  cbn [accepts bind call ask].
  intros [f|name]; (split; [solve [intros; discriminate]|]); cbn [bind post];
    [|exact I].
  apply accepts_finally.
  cbn [accepts bind invoke ask].
  intros [line|name]; (split; [solve [intros; discriminate]|]); cbn [bind].
  - eapply accepts_weaken.
    2: { apply (@history_grows write_after_read _ no_open _
                  ((s ++ [(Call "open" [Str "test.csv"; Str "r"] [], Returned f)])
                   ++ [(Invoke f "readline" [] [], Returned line)])).
         - unfold Titanic.test_id_of. asks; try exact I; reflexivity.
         - intros; now apply no_open_ok.
         - apply incl_refl. }
    intros s' o Hincl. cbn [accepts invoke ask].
    intros [closed|name]; (split; [solve [intros; discriminate]|]);
      cbn [post]; [|destruct o; exact I].
    destruct o as [ids|e]; [|exact I]. cbn [post].
    apply write_submission_after_read.
    exists f, line, closed. split; [|split].
    + apply in_or_app. left. apply Hincl. in_history.
    + apply in_or_app. left. apply Hincl. in_history.
    + in_history.
  - cbn [accepts invoke ask post].
    intros [closed|name']; (split; [solve [intros; discriminate]|]); exact I.
Qed.

Lemma titanic_after_read :
  accepts (history_checker write_after_read)
          (@anything (history_checker write_after_read) _) []
          Titanic.notebook.
Proof.
  unfold Titanic.notebook, Titanic.cell1, Titanic.cell2, Titanic.cell3,
    Titanic.build_config, Titanic.fit_model, Titanic.cell6, Titanic.cell7,
    Titanic.cell8, Titanic.predict.
  repeat (hist_answer; [|exact I]).
  apply cell9_after_read.
Qed.

(** X16: in every run of the Titanic notebook, whatever the outside
    world answers, [submission.csv] is opened for writing, and so
    emptied, only after [test.csv] has been opened, read and closed
    without an exception: a failure while reading the ids leaves an
    earlier [submission.csv] as it was. *)
Theorem submission_opened_after_test_file_read (W : world) (w : state W)
    (before later : list event) (r : result) :
  trace W w Titanic.notebook
  = before ++ (Call "open" [Str "submission.csv"; Str "w"] [], r) :: later ->
  test_file_read before.
Proof.
  intros E.
  pose proof (proj1 (accepts_sound _ _ _ _ titanic_after_read W w)) as L.
  rewrite E in L. apply lawful_history in L. now apply (L r).
Qed.

Lemma submission_opened_after_test_file_read_sample :
  test_file_read (firstn 27 (trace Lab.the_lab Lab.titanic_lab Titanic.notebook)).
Proof.
  eapply (@submission_opened_after_test_file_read Lab.the_lab Lab.titanic_lab
            _ (skipn 28 (trace Lab.the_lab Lab.titanic_lab Titanic.notebook))).
  vm_compute. reflexivity.
Defined.

(** ** Failures of the script's own *)

Lemma after_opened (t : list event) (s : bool) :
  after opened_checker s t = s || negb (match opens t with [] => true | _ => false end).
Proof.
  unfold after, opens. revert s. induction t as [|[q r] t IH]; intros s; simpl.
  - now rewrite orb_false_r.
  - rewrite IH. destruct q; simpl; try reflexivity.
    destruct (callee =? "open"); simpl.
    + now rewrite orb_true_r.
    + now rewrite orb_false_r.
Qed.

Lemma no_open_keeps {A} (p : prog A) :
  asks_only no_open p -> accepts opened_checker (fun s' _ => s' = false) false p.
Proof.
  intros H.
  apply (@accepts_invariant _ opened_checker no_open (fun s' => s' = false)
           p false H); [|reflexivity].
  intros s' q r -> Hq. split; [exact I|].
  destruct q; simpl in *; try reflexivity. exact Hq.
Qed.

(** The run has failed, with no file opened or with an exception of the
    outside world. *)
Ltac failed :=
  first [ exact I | reflexivity
        | match goal with
          | |- match ?e with External _ => _ | _ => _ end =>
              destruct e; first [exact I | reflexivity]
          end ].

Ltac no_open_then :=
  apply accepts_bind; eapply accepts_weaken;
  [| apply no_open_keeps; asks; try exact I; reflexivity ];
  intros ? [?|?] ->; cbn [post fails_before_opening]; [| failed ].

Ltac external :=
  cbn [accepts bind finally call invoke ask];
  lazymatch goal with
  | |- forall r : result, _ =>
      intros [?v|?name]; (split; [exact I|]);
      cbn [accepts bind finally call invoke ask fails_before_opening]
  end.

Lemma script_fails_before_opening :
  accepts opened_checker fails_before_opening false RunSklearn.main.
Proof.
  unfold RunSklearn.main, RunSklearn.assert_not_none,
    RunSklearn.assert_ndarray, assert_.
  do 3 no_open_then.
  apply accepts_bind.
  match goal with |- context [if ?b then Ret tt else _] => destruct b end;
    cbn [accepts post fails_before_opening]; [|reflexivity].
  do 6 no_open_then.
  apply accepts_bind. apply accepts_bind.
  eapply accepts_weaken; [|apply no_open_keeps; asks; reflexivity].
  intros ? [b|?] ->; cbn [post fails_before_opening]; [|failed].
  destruct (truthy b); cbn [accepts post fails_before_opening]; [|reflexivity].
  apply accepts_bind. apply accepts_bind.
  eapply accepts_weaken; [|apply no_open_keeps; asks; reflexivity].
  intros ? [b'|?] ->; cbn [post fails_before_opening]; [|failed].
  destruct (truthy b'); cbn [accepts post fails_before_opening]; [|reflexivity].
  no_open_then.
  apply accepts_bind. unfold RunSklearn.choose_base.
  destruct (equals_str _ "decision_tree");
    [|destruct (equals_str _ "random_forest")];
    cbn [accepts post fails_before_opening]; try reflexivity;
    (do 5 no_open_then; unfold with_open;
     repeat (external; try failed)).
Qed.

(** X17: in every run of the [run_sklearn.py] script, whatever the
    outside world answers, a run that ends in an exception of the
    script's own (a failed [assert], or [NotImplementedError] for a model
    that is neither a decision tree nor a random forest) has opened no
    file: these failures leave no empty or partial [sk_model.pkl]. *)
Theorem script_fails_before_it_opens (W : world) (w : state W) (name : string) :
  result_of W w RunSklearn.main = Failed (Authored name) ->
  opens (trace W w RunSklearn.main) = [].
Proof.
  intros E.
  pose proof (proj2 (accepts_sound _ _ _ _ script_fails_before_opening W w)) as F.
  rewrite E, after_opened in F. simpl in F.
  destruct (opens (trace W w RunSklearn.main)); [reflexivity | discriminate F].
Qed.

Lemma script_fails_before_it_opens_sample :
  opens (trace Lab.the_lab (Lab.fresh [] [] [("_experiment/linear/0", "linear")])
               RunSklearn.main) = [].
Proof.
  apply (@script_fails_before_it_opens Lab.the_lab
           (Lab.fresh [] [] [("_experiment/linear/0", "linear")])
           "NotImplementedError").
  vm_compute. reflexivity.
Defined.

End FlowFacts.

(* ================================================================== *)
(** * The image the Dockerfile builds *)
(* ================================================================== *)

Module DockerFacts.
Import Docker.
Local Open Scope string_scope.
Local Open Scope list_scope.

(** C8, as the code has it: the image is derived from the NVIDIA PyTorch
    image; after the [FROM] line the steps set the working directory to
    [/usr/home], copy the repository there, refresh the apt index, and
    install packages, in this order: htop, git, ssh, tmux with apt-get,
    then pip itself, the copied repository and gpustat with pip; there is
    no other kind of step. *)
Theorem dockerfile_builds_pytorch_image_with_installs :
  build dockerfile
  = {| base := Some "nvcr.io/nvidia/pytorch:21.07-py3";
       workdir := "/usr/home";
       copied := [(".", "/usr/home")];
       apt_index := true;
       installed := [Apt "htop"; Apt "git"; Apt "ssh"; Apt "tmux";
                     Pip "pip"; PipLocal "/usr/home"; Pip "gpustat"] |}
  /\ Forall (fun i => is_workdir i = true \/ is_copy i = true
                      \/ is_refresh i = true \/ is_install i = true)
            (tl dockerfile).
Proof.
  split; [reflexivity|].
  unfold dockerfile. simpl tl.
  repeat (apply Forall_cons; [cbv; auto|]). apply Forall_nil.
Qed.

(** The claim C8 fails on two steps: [WORKDIR /usr/home] and
    [RUN apt-get update] neither copy the repository nor install a
    package. *)
Lemma dockerfile_has_other_steps : ~ only_copies_and_installs (tl dockerfile).
Proof.
  unfold only_copies_and_installs, dockerfile. simpl tl. intros H.
  inversion H as [|? ? [E|E] _]; discriminate E.
Qed.

End DockerFacts.

(* ================================================================== *)
(** * The order of the build steps *)
(* ================================================================== *)

Module DockerOrderFacts.
Import Docker DockerOrder.
Local Open Scope string_scope.
Local Open Scope list_scope.

Lemma ready_at (img : image) (before later : list instruction)
    (i : instruction) :
  ready_throughout img (before ++ i :: later) = true ->
  ready (fold_left step before img) i = true.
Proof.
  revert img. induction before as [|b before IH]; intros img H; simpl in *.
  - now apply andb_prop in H.
  - apply andb_prop in H. now apply IH.
Qed.

(** X15: every step of the Dockerfile finds what it needs in the image
    built by the steps before it: [FROM] is the first step and the only
    one of its kind, each [apt-get install] runs after [apt-get update]
    has fetched the package index, and [pip install .] runs in
    [/usr/home] after the repository was copied there. *)
Theorem dockerfile_steps_are_in_order (before later : list instruction)
    (i : instruction) :
  dockerfile = before ++ i :: later ->
  ready (build before) i = true.
Proof.
  intros E. unfold build. apply ready_at with (later := later).
  rewrite <- E. reflexivity.
Qed.

Lemma dockerfile_steps_are_in_order_sample :
  ready (build (firstn 9 dockerfile)) (RUN ["pip"; "install"; "."]) = true.
Proof.
  apply (@dockerfile_steps_are_in_order (firstn 9 dockerfile)
           (skipn 10 dockerfile) (RUN ["pip"; "install"; "."])).
  reflexivity.
Defined.

End DockerOrderFacts.

(* ================================================================== *)
(** * Concurrency is asked for, not made *)
(* ================================================================== *)

Module ConcurrencyFacts.
Import PyStr Py Check Concurrency CheckFacts JobFacts.
Local Open Scope string_scope.
Local Open Scope list_scope.

Ltac sequential := asks; try reflexivity.

Lemma titanic_sequential :
  asks_only (fun q => controls_concurrency q = false) Titanic.notebook.
Proof.
  unfold Titanic.notebook, Titanic.cell1, Titanic.cell2, Titanic.cell3,
    Titanic.build_config, Titanic.fit_model, Titanic.cell6, Titanic.cell7,
    Titanic.cell8, Titanic.predict, Titanic.cell9, Titanic.read_ids,
    Titanic.write_submission, Titanic.write_row, Titanic.test_id_of.
  sequential.
Qed.

Lemma iris_sequential :
  asks_only (fun q => controls_concurrency q = false) Iris.notebook.
Proof.
  unfold Iris.notebook, Iris.cell1, Iris.cell3, Iris.cell5, Iris.cell7,
    Iris.cell9, Iris.cell11, Iris.cell13, Iris.cell15, Iris.cell17,
    Iris.cell19, Iris.cell21, Iris.cell23, Iris.print_mean_std,
    Iris.repeat_ml, Iris.load_and_evaluate, Iris.load_sklearn.
  sequential.
Qed.

(** The class the script instantiates is one of the two it names. *)
Ltac sequential_base :=
  lazymatch goal with
  | |- asks_only _ (bind (RunSklearn.choose_base ?model) _) =>
      unfold RunSklearn.choose_base;
      destruct (equals_str model "decision_tree");
      [|destruct (equals_str model "random_forest")];
      cbn [bind]
  | _ => asks_step
  end.

Lemma script_sequential :
  asks_only (fun q => controls_concurrency q = false) RunSklearn.main.
Proof.
  unfold RunSklearn.main, RunSklearn.assert_not_none,
    RunSklearn.assert_ndarray, assert_.
  repeat sequential_base; reflexivity.
Qed.

(** What the predicate excludes: a thread, a pool, a lock, a process. *)
Example controls_concurrency_examples :
  controls_concurrency (Call "threading.Thread" [] []) = true
  /\ controls_concurrency (Call "multiprocessing.Pool" [VInt 2] []) = true
  /\ controls_concurrency (Invoke (VObj 0) "acquire" [] []) = true
  /\ controls_concurrency (Call "os.kill" [VInt 1; VInt 9] []) = true
  /\ controls_concurrency (Call "os.path.join" [] []) = false.
Proof. repeat split; reflexivity. Qed.

(** C7: in every run, whatever the outside world answers, parallel work
    is asked for by one keyword argument of one call to the framework:
    no request of the Titanic notebook or of the [run_sklearn.py] script
    carries [num_jobs], and the Iris notebook carries it on the one call
    [cflearn.api.repeat_ml(data, m.config, models=models, num_repeat=10, num_jobs=2)]
    of cell 15 only, which a completed run makes exactly once.  And the
    code neither implements nor controls scheduling, locking or
    cancellation: no request of any run calls into a concurrency module
    ([threading], [multiprocessing], [concurrent.futures], [asyncio],
    [subprocess], [signal] and the like), starts or ends a process
    through [os], or is a method that starts, joins, locks, releases or
    cancels; and no such module is imported.  The programs themselves are
    sequential: a run is one list of requests, each answered before the
    next is made. *)
Theorem concurrency_is_asked_for_by_one_keyword (W : world) (w : state W) :
  job_requests (trace W w Titanic.notebook) = []
  /\ job_requests (trace W w RunSklearn.main) = []
  /\ (job_requests (trace W w Iris.notebook) = []
      \/ exists data config,
           job_requests (trace W w Iris.notebook) = [benchmark data config])
  /\ (result_of W w Iris.notebook = Done tt ->
      exists data config,
        job_requests (trace W w Iris.notebook) = [benchmark data config])
  /\ no_concurrency_control (trace W w Titanic.notebook)
  /\ no_concurrency_control (trace W w Iris.notebook)
  /\ no_concurrency_control (trace W w RunSklearn.main)
  /\ imports_no_concurrency (titanic_imports ++ iris_imports ++ script_imports)
     = true.
Proof.
  pose proof (proj2 (accepts_sound _ _ _ _
                       (@quiet_accepts _ _ [] titanic_quiet) W w)) as T.
  pose proof (proj2 (accepts_sound _ _ _ _
                       (@quiet_accepts _ _ [] script_quiet) W w)) as S.
  pose proof (proj2 (accepts_sound _ _ _ _ iris_jobs W w)) as F.
  rewrite after_jobs in T, S, F. simpl in T, S, F.
  split; [exact T|]. split; [exact S|].
  split; [|split; [|split; [|split; [|split]]]].
  - destruct (result_of W w Iris.notebook) as [[]|e]; simpl in F; auto.
  - intros E. rewrite E in F. exact F.
  - exact (@asks_only_trace _ _ _ W w titanic_sequential).
  - exact (@asks_only_trace _ _ _ W w iris_sequential).
  - exact (@asks_only_trace _ _ _ W w script_sequential).
  - reflexivity.
Qed.

End ConcurrencyFacts.

(* ================================================================== *)
(** * The input files are read and never written *)
(* ================================================================== *)

Module FileUseFacts.
Import PyStr Py Check Flow FileUse CheckFacts FileFacts FlowFacts.
Local Open Scope string_scope.
Local Open Scope list_scope.

(** ** The script writes one file *)

Lemma no_file_use_allowed (s : memory script_file_checker) (q : request)
    (r : result) :
  no_file_use q -> allowed script_file_checker s (q, r).
Proof. unfold no_file_use. simpl. now intros ->. Qed.

Lemma no_file_use_accepts {A} (p : prog A) (s : memory script_file_checker) :
  asks_only no_file_use p ->
  accepts script_file_checker (@anything script_file_checker _) s p.
Proof.
  intros H.
  apply (@accepts_invariant _ script_file_checker no_file_use (fun _ => True)
           p s H); [|exact I].
  intros s' q r _ Hq. split; [now apply no_file_use_allowed | exact I].
Qed.

Ltac no_file_use_then :=
  apply accepts_bind; eapply accepts_weaken;
  [| apply no_file_use_accepts; asks; reflexivity ];
  intros ? [?|?] _; [|exact I]; cbn [post].

Lemma script_files :
  accepts script_file_checker (@anything script_file_checker _) None
          RunSklearn.main.
Proof.
  unfold RunSklearn.main, RunSklearn.assert_not_none,
    RunSklearn.assert_ndarray, assert_.
  do 13 no_file_use_then.
  apply accepts_bind. unfold RunSklearn.choose_base.
  destruct (equals_str _ "decision_tree");
    [|destruct (equals_str _ "random_forest")];
    cbn [accepts post]; try exact I;
    (do 4 no_file_use_then;
     unfold with_open;
     cbn [accepts bind call ask];
     intros [path|name]; (split; [exact I|]); cbn [bind accepts]; [|exact I];
     intros r; (split; [split; [reflexivity|]; eexists; split; [reflexivity|];
                        eexists; reflexivity|]);
     apply no_file_use_accepts;
     destruct r; cbn [bind finally]; asks; reflexivity).
Qed.

Lemma lawful_script_file_at (before later : list event) (e : event)
    (prev : memory script_file_checker) :
  lawful script_file_checker prev (before ++ e :: later) ->
  allowed script_file_checker
          (match rev before with e' :: _ => Some e' | [] => prev end) e.
Proof.
  revert prev. induction before as [|b bs IH]; intros prev H.
  - exact (proj1 H).
  - destruct H as [_ H]. apply IH in H. simpl rev.
    destruct (rev bs) as [|e' l]; exact H.
Qed.

Lemma lawful_script_file_design (t : list event) :
  lawful script_file_checker None t -> script_file_uses_as_designed t.
Proof.
  intros H before q r later ->. apply lawful_script_file_at in H.
  simpl in H. destruct (file_used q) as [[path|path]|]; auto.
  destruct H as [Hq [e' [Hprev [workplace He']]]].
  split; [exact Hq|].
  destruct (@rev event before) as [|e'' l] eqn:E; [discriminate|].
  injection Hprev as ->. exists (rev l), workplace.
  rewrite <- He'. rewrite <- (rev_involutive before).
  change (rev (@rev event before) = rev l ++ [e']). now rewrite E.
Qed.

(** ** The input files are read *)

Ltac read_answer :=
  hist_ops;
  lazymatch goal with
  | |- forall r : result, _ =>
      intros [?v|?name]; (split; [exact I|]); hist_ops
  end.

(** The file is handed to the framework in an event that has happened. *)
Ltac reads_there :=
  match goal with
  | H : incl ?l _ |- reads _ ?path =>
      match l with
      | context [(Invoke ?self ?method [path] [], ?r)] =>
          exists (Invoke self method [path] []), r;
          split; [apply H; find_event | reflexivity]
      end
  end.

Lemma titanic_reads :
  accepts (history_checker any_event) titanic_inputs_read [] Titanic.notebook.
Proof.
  unfold Titanic.notebook, Titanic.cell1, Titanic.cell2, Titanic.cell3,
    Titanic.build_config, Titanic.fit_model, Titanic.cell6, Titanic.cell7,
    Titanic.cell8, Titanic.predict.
  repeat (read_answer; [|exact I]).
  eapply accepts_weaken.
  2: { eapply (@history_grows any_event _ (fun _ => True));
         [|intros; exact I|apply incl_refl].
       unfold Titanic.cell9, Titanic.read_ids, Titanic.write_submission,
         Titanic.write_row, Titanic.test_id_of.
       asks; exact I. }
  intros s' [[]|e] Hincl; cbn [titanic_inputs_read post]; [|exact I].
  split; reads_there.
Qed.

Lemma iris_reads :
  accepts (history_checker any_event) iris_input_read [] Iris.notebook.
Proof.
  unfold Iris.notebook, Iris.cell1, Iris.cell3, Iris.cell5, Iris.cell7,
    Iris.cell9, Iris.cell11, Iris.cell13, Iris.cell15, Iris.cell17,
    Iris.cell19, Iris.print_mean_std, Iris.repeat_ml, Iris.load_and_evaluate.
  repeat (read_answer; [|exact I]).
  eapply accepts_weaken.
  2: { eapply (@history_grows any_event _ (fun _ => True));
         [|intros; exact I|apply incl_refl].
       unfold Iris.cell21, Iris.cell23, Iris.load_sklearn.
       asks; exact I. }
  intros s' [[]|e] Hincl; cbn [iris_input_read post]; [|exact I].
  reads_there.
Qed.

(** ** The real [os.path.join] *)

Lemma path_join_length (a b : text) :
  length b <= length (path_join a b).
Proof.
  unfold path_join.
  assert (G : forall x : text, length b <= length x ->
              length b <= length match b with
                                 | 47%N :: _ => b
                                 | _ => x
                                 end).
  { intros x Hx. destruct b as [|c b']; [exact Hx|].
    destruct c as [|p]; [exact Hx|].
    do 6 (destruct p as [p|p|]; try exact Hx). simpl. lia. }
  apply G.
  destruct (List.rev a) as [|d r]; [lia|].
  assert (H1 : length b <= length (a ++ b)) by (rewrite length_app; lia).
  assert (H2 : length b <= length (a ++ 47%N :: b))
    by (rewrite length_app; simpl; lia).
  destruct d as [|p]; [exact H2|].
  do 6 (destruct p as [p|p|]; try exact H2). exact H1.
Qed.

Lemma model_path_is_no_input (a : text) :
  ~ In (VStr (path_join a (str "sk_model.pkl"))) known_inputs.
Proof.
  pose proof (path_join_length a (str "sk_model.pkl")) as L.
  change (length (str "sk_model.pkl")) with 12 in L.
  set (p := path_join a (str "sk_model.pkl")) in *.
  intros [E|[E|[E|[]]]]; injection E as E; rewrite <- E in L;
    vm_compute in L; lia.
Qed.

(** C5, as the code has it: in every run, whatever the outside world
    answers, a file a notebook reads, by opening it or by handing its
    path to the framework, is [train.csv], [test.csv] or [iris.data], or
    it is the pickled model that the Iris notebook opens in binary mode
    at the path [os.path.join(workspace, "sk_model.pkl")] has just
    returned; a run of the Titanic notebook that completes has read
    [train.csv] and [test.csv], and one of the Iris notebook
    [iris.data].  The three input files are never written by authored
    code: the only file a notebook opens for writing is
    [submission.csv], and the [run_sklearn.py] script, which reads no
    file, opens for writing only the path that
    [os.path.join(workplace, "sk_model.pkl")] has just returned;
    neither is one of the three, whatever the workplace. *)
Theorem inputs_are_read_and_never_written (W : world) (w : state W) :
  file_uses_as_designed (trace W w Titanic.notebook)
  /\ file_uses_as_designed (trace W w Iris.notebook)
  /\ script_file_uses_as_designed (trace W w RunSklearn.main)
  /\ (result_of W w Titanic.notebook = Done tt ->
      reads (trace W w Titanic.notebook) (Str "train.csv")
      /\ reads (trace W w Titanic.notebook) (Str "test.csv"))
  /\ (result_of W w Iris.notebook = Done tt ->
      reads (trace W w Iris.notebook) (Str "iris.data"))
  /\ ~ In (Str "submission.csv") known_inputs
  /\ (forall workplace,
        ~ In (VStr (path_join workplace (str "sk_model.pkl"))) known_inputs).
Proof.
  split; [|split; [|split; [|split; [|split; [|split]]]]].
  - apply lawful_file_design.
    apply (accepts_sound _ _ _ _ (@plain_accepts _ _ None titanic_plain) W w).
  - apply lawful_file_design.
    apply (accepts_sound _ _ _ _ iris_files W w).
  - apply lawful_script_file_design.
    apply (accepts_sound _ _ _ _ script_files W w).
  - intros E.
    pose proof (proj2 (accepts_sound _ _ _ _ titanic_reads W w)) as F.
    rewrite E, after_history in F. exact F.
  - intros E.
    pose proof (proj2 (accepts_sound _ _ _ _ iris_reads W w)) as F.
    rewrite E, after_history in F. exact F.
  - intros [E|[E|[E|[]]]]; discriminate E.
  - apply model_path_is_no_input.
Qed.

End FileUseFacts.

(* ================================================================== *)
(** * Cells that are scripts, and the two authored blocks *)
(* ================================================================== *)

Module BlockFacts.
Import PyStr Py Check Flow Blocks CheckFacts CallFacts FlowFacts LabFacts.
Local Open Scope string_scope.
Local Open Scope list_scope.

(** ** Cells that are fixed scripts *)

(** The run has made the first [k] requests of the script, for some [k]
    from [n] down. *)
Ltac script_any n :=
  first [ solve [script_done n]
        | solve [script_at n]
        | lazymatch n with S ?m => script_any m end ].

Ltac straight n :=
  intros W w; unfold call, invoke, getattr; unfold_subscripts; unfold ask;
  answers; script_any n.

Ltac conjuncts := repeat match goal with |- _ /\ _ => split end.

Lemma titanic_scripts : titanic_cells_are_scripts.
Proof.
  unfold titanic_cells_are_scripts.
  conjuncts; intros *;
    unfold Titanic.cell1, Titanic.cell2, Titanic.cell3, Titanic.build_config,
      Titanic.fit_model, Titanic.cell6, Titanic.cell7, Titanic.cell8,
      Titanic.predict;
    straight 8.
Qed.

Lemma iris_scripts : iris_cells_are_scripts.
Proof.
  unfold iris_cells_are_scripts.
  conjuncts; intros *;
    unfold Iris.cell1, Iris.cell3, Iris.cell5, Iris.cell7, Iris.cell9,
      Iris.cell11, Iris.cell13, Iris.cell15, Iris.cell17, Iris.cell19,
      Iris.cell23, Iris.print_mean_std, Iris.repeat_ml, Iris.load_and_evaluate;
    straight 10.
Qed.

Lemma operations_scripts : operations_are_scripts.
Proof.
  unfold operations_are_scripts. conjuncts.
  - apply fit_model_single.
  - apply build_config_follows.
  - apply predict_follows.
Qed.

(** ** The two blocks depend on the answers *)

(** Two runs that complete with different requests follow no script. *)
Lemma two_runs_no_script {A} (p : prog A) (W : world) (w1 w2 : state W)
    (a1 a2 : A) :
  result_of W w1 p = Done a1 ->
  result_of W w2 p = Done a2 ->
  labels (trace W w1 p) <> labels (trace W w2 p) ->
  depends_on_answers p.
Proof.
  intros D1 D2 Hne script H.
  destruct (H W w1) as [k1 [L1 [K1 _]]].
  destruct (H W w2) as [k2 [L2 [K2 _]]].
  rewrite (K1 _ D1) in L1. rewrite (K2 _ D2) in L2.
  apply Hne. now rewrite L1, L2.
Qed.

Lemma cell9_depends (classes : value) : depends_on_answers (Titanic.cell9 classes).
Proof.
  apply (@two_runs_no_script _ _ Lab.scripted cell9_no_row cell9_one_row tt tt);
    [reflexivity | reflexivity |].
  vm_compute. discriminate.
Qed.

Lemma cell21_depends (config results : value) :
  depends_on_answers (Iris.cell21 config results).
Proof.
  apply (@two_runs_no_script _ _ Lab.scripted cell21_no_workspace
           cell21_one_tree (VObj 0) (VObj 0));
    [reflexivity | reflexivity |].
  vm_compute. discriminate.
Qed.

(** ** The shape of a run of cell 21 *)

Lemma after_labels (t : list event) (s : list string) :
  after label_checker s t = s ++ labels t.
Proof.
  unfold after, labels. revert s. induction t as [|e t IH]; intros s; simpl.
  - now rewrite app_nil_r.
  - rewrite IH. now rewrite <- app_assoc.
Qed.

Ltac named :=
  cbn [accepts bind finally ask call invoke getattr post allowed advance
       label_checker label fst app];
  lazymatch goal with
  | |- forall r : result, _ =>
      intros [?v|?name]; (split; [exact I|]);
      cbn [accepts bind finally ask call invoke getattr post allowed advance
           label_checker label fst app]
  end.

Lemma load_sklearn_names (s : list string)
    (config pipelines workspace model : value) :
  accepts label_checker
          (@post unit label_checker (fun s' _ => s' = s ++ load_script)
                 (fun _ _ => True))
          s (Iris.load_sklearn config pipelines workspace model).
Proof.
  unfold Iris.load_sklearn, with_open.
  named; [|exact I].
  named; [|exact I].
  named; [|named; exact I].
  named; [|named; exact I].
  named; [|named; exact I].
  named; [|named; exact I].
  named; [|exact I].
  unfold load_script. simpl. now rewrite <- !app_assoc.
Qed.

Lemma concat_snoc {X} (rounds : list (list X)) (round : list X) :
  List.concat (rounds ++ [round]) = List.concat rounds ++ round.
Proof. now rewrite concat_app, (concat_cons round []), app_nil_r. Qed.

Lemma sklearn_loop_names (base : list string) (config pipelines : value)
    (pairs : list (value * value)) :
  accepts label_checker
          (@post unit label_checker
                 (fun s' _ => exists rounds,
                      s' = base ++ List.concat rounds
                      /\ Forall pipeline_round rounds)
                 (fun _ _ => True))
          base
          (for_each pairs (fun '(workspace, workspace_key) =>
             bind (subscript workspace_key (VInt 0)) (fun model =>
               if in_strs model ["decision_tree"; "random_forest"]
               then Iris.load_sklearn config pipelines workspace model
               else Ret tt))).
Proof.
  apply accepts_for_each
    with (J := fun _ s' => exists rounds,
                   s' = base ++ List.concat rounds
                   /\ Forall pipeline_round rounds).
  - exists []. split; [now rewrite app_nil_r | constructor].
  - intros [workspace workspace_key] rest s' (rounds & -> & Hrounds).
    apply accepts_bind. apply accepts_subscript.
    + intros l model _ _. cbn [post].
      destruct (in_strs model _).
      * eapply accepts_weaken; [|apply load_sklearn_names].
        intros s'' [[]|e] H; cbn [post] in *; [|exact I]. subst s''.
        exists (rounds ++ [load_script]).
        rewrite concat_snoc, app_assoc. split; [reflexivity|].
        apply Forall_app. split; [exact Hrounds|].
        constructor; [|constructor]. right. right. now left.
      * cbn [accepts post]. exists (rounds ++ [[]]).
        rewrite concat_snoc, app_nil_r. split; [reflexivity|].
        apply Forall_app. split; [exact Hrounds|].
        constructor; [|constructor]. now left.
    + exact I.
    + named; [|exact I].
      destruct (in_strs v _).
      * eapply accepts_weaken; [|apply load_sklearn_names].
        intros s'' [[]|e] H; cbn [post] in *; [|exact I]. subst s''.
        exists (rounds ++ ["[]" :: load_script]).
        rewrite concat_snoc. split; [now rewrite <- !app_assoc|].
        apply Forall_app. split; [exact Hrounds|].
        constructor; [|constructor]. right. right. now right.
      * cbn [accepts post]. exists (rounds ++ [["[]"]]).
        rewrite concat_snoc, app_assoc. split; [reflexivity|].
        apply Forall_app. split; [exact Hrounds|].
        constructor; [|constructor]. right. now left.
  - intros s' H. exact H.
Qed.

(** The loop, and the result of the cell after it. *)
Ltac shaped iterations :=
  apply accepts_bind; eapply accepts_weaken; [|apply sklearn_loop_names];
  intros ? [[]|?] H; cbn [post accepts cell21_shaped] in *; [|exact I];
  destruct H as (rounds & -> & Hrounds);
  exists iterations, rounds;
  split; [now rewrite <- ?app_assoc | split; [auto | exact Hrounds]].

Ltac unshaped := intros; cbn [post cell21_shaped]; exact I.

Lemma cell21_names (config results : value) :
  accepts label_checker cell21_shaped [] (Iris.cell21 config results).
Proof.
  unfold Iris.cell21.
  do 3 (named; [|exact I]).
  apply accepts_bind. apply accepts_elements.
  - intros ws _. cbn [post]. apply accepts_bind. apply accepts_elements.
    + intros keys _. cbn [post]. shaped (@nil string).
    + unshaped.
    + intros u keys _. cbn [post advance label_checker label fst].
      shaped ["iter"].
    + unshaped.
    + unshaped.
  - unshaped.
  - intros u ws _. cbn [post advance label_checker label fst].
    apply accepts_bind. apply accepts_elements.
    + intros keys _. cbn [post]. shaped ["iter"].
    + unshaped.
    + intros u' keys _. cbn [post advance label_checker label fst].
      shaped ["iter"; "iter"].
    + unshaped.
    + unshaped.
  - unshaped.
  - unshaped.
Qed.

Lemma cell21_keys (config results : value) :
  asks_only sets_sklearn_key (Iris.cell21 config results).
Proof.
  unfold Iris.cell21.
  repeat (apply asks_only_bind; [asks; intros ? ? ? [=]|intros ?]).
  apply asks_only_bind; [|intros; exact I].
  apply asks_only_for_each. intros [workspace workspace_key].
  apply asks_only_bind; [asks; intros ? ? ? [=]|intros model].
  destruct (in_strs model _) eqn:E; [|exact I].
  unfold Iris.load_sklearn. asks; intros ? ? ? [=]. subst.
  now apply in_strs_two.
Qed.

(** C2, as the code has it.  Every code cell other than the submission
    cell of the Titanic notebook (cell 9) and the pipeline-loading cell
    of the Iris notebook (cell 21) makes a fixed sequence of requests,
    whatever the answers, and stops early only when a request raises:
    no branching and no retry.  Of the four named operations, fitting
    the model is one call, building the config is an attribute read and
    two calls, and predicting is one call and a subscript.  The two
    other cells are authored blocks whose requests depend on the
    answers.  Writing the submission file is the block of cell 9: a run
    that completes has made one [write] for the header and one more for
    every class it has unwrapped with [item], and on files it leaves in
    [submission.csv] the header and one row for each pair of
    [zip(id_list, classes.ravel())], the id being the text before the
    first comma of the stripped line.  A run of cell 21 that completes
    has made its three requests, the iterations, and then for every pair
    of the zip either no request beyond the subscript, or the loading of
    one pickled model; and it sets an item only under the key
    ["decision_tree"] or ["random_forest"]. *)
Theorem statements_are_scripts_except_two_blocks :
  titanic_cells_are_scripts
  /\ iris_cells_are_scripts
  /\ operations_are_scripts
  /\ (forall classes, depends_on_answers (Titanic.cell9 classes))
  /\ (forall config results, depends_on_answers (Iris.cell21 config results))
  /\ (forall classes (W : world) (w : state W),
        result_of W w (Titanic.cell9 classes) = Done tt ->
        count ".write" (trace W w (Titanic.cell9 classes))
        = 1 + count ".item" (trace W w (Titanic.cell9 classes)))
  /\ (forall (w : Lab.lab) (h : N) (test_csv : text) (classes : list (list Z)),
        Lab.file w "test.csv" = Some test_csv ->
        Lab.object_of w (VObj h) = Some (Lab.Matrix classes) ->
        (h <? Lab.next w)%N = true ->
        result_of Lab.the_lab w (Titanic.cell9 (VObj h)) = Done tt
        /\ Lab.file (final Lab.the_lab w (Titanic.cell9 (VObj h)))
                    "submission.csv"
           = Some (Submission.submission test_csv classes))
  /\ (forall config results (W : world) (w : state W) pipelines,
        result_of W w (Iris.cell21 config results) = Done pipelines ->
        cell21_shape (labels (trace W w (Iris.cell21 config results))))
  /\ (forall config results (W : world) (w : state W),
        Forall (fun e => sets_sklearn_key (fst e))
               (trace W w (Iris.cell21 config results))).
Proof.
  split; [exact titanic_scripts|]. split; [exact iris_scripts|].
  split; [exact operations_scripts|]. split; [exact cell9_depends|].
  split; [exact cell21_depends|].
  split; [|split; [|split]].
  - intros classes W w E.
    destruct (accepts_sound _ _ _ _ (cell9_balance classes) W w) as [_ F].
    rewrite E in F. simpl in F. rewrite after_balance in F. lia.
  - intros w h test_csv classes Hfile Hobj Hh.
    destruct (@cell9_in_lab w h test_csv classes Hfile Hobj Hh)
      as [w' [[E1 E2] [Hsub _]]].
    rewrite E1, E2. split; [reflexivity | exact Hsub].
  - intros config results W w pipelines E.
    pose proof (proj2 (accepts_sound _ _ _ _ (cell21_names config results) W w))
      as F.
    rewrite E, after_labels in F. exact F.
  - intros config results W w. apply asks_only_trace, cell21_keys.
Qed.

(** The claim C2 fails where a statement is more than one call.  The
    submission cell, run on a test file of two passengers and two
    predictions, makes thirteen requests, three of them writes; building
    the config makes three requests, two of them calls of the framework;
    and cell 21, run on the results of an experiment with one decision
    tree, makes ten requests. *)
Lemma statements_are_not_all_single_calls :
  ~ single_call (Titanic.cell9 (VObj 0))
  /\ length (trace Lab.the_lab Lab.titanic_lab_predicted (Titanic.cell9 (VObj 0)))
     = 13
  /\ count ".write" (trace Lab.the_lab Lab.titanic_lab_predicted
                           (Titanic.cell9 (VObj 0))) = 3
  /\ ~ single_call (Titanic.build_config (VObj 0))
  /\ labels (trace Lab.the_lab Lab.titanic_lab (Titanic.build_config (VObj 0)))
     = [".num_features"; "cflearn.MLGlobalEncoderSettings"; "cflearn.MLConfig"]
  /\ ~ single_call (Iris.cell21 (VObj 0) (VObj 1))
  /\ length (trace Lab.scripted cell21_one_tree (Iris.cell21 (VObj 0) (VObj 1)))
     = 10.
Proof.
  split; [|split; [|split; [|split; [|split; [|split]]]]];
    try (vm_compute; reflexivity).
  - intros H. specialize (H Lab.the_lab Lab.titanic_lab_predicted).
    vm_compute in H. discriminate H.
  - intros H. specialize (H Lab.the_lab Lab.titanic_lab).
    vm_compute in H. discriminate H.
  - intros H. specialize (H Lab.scripted cell21_one_tree).
    vm_compute in H. discriminate H.
Qed.

End BlockFacts.
